(** * Bluring-Faces: the frame pipeline of [backend/video_processor.py]

    A shallow embedding of [VideoProcessor] (detection adapter, region blur,
    render and preview loops) and of the key conversion done by the API
    layer in [backend/main.py], followed by the properties of the
    specification that were checked against it.

    Conventions.
    - Python [int] is [Z]; Python [float] is the kernel's binary64 [float],
      so [int(w * 1.4)] evaluates here exactly as CPython evaluates it.
    - A numpy frame of shape (H, W, 3) is a list of H rows of W pixels.
    - A Python [dict] used as a map is a [gmap]; the order in which
      [request.masks.items()] is walked is kept as a list of pairs.
    - The external collaborators (cv2.GaussianBlur, cv2.resize, the dlib
      detectors, the container reader and writer) are parameters of the
      model: functions for the pure ones, explicit data for the stateful
      ones. *)

From Stdlib Require Import ZArith Floats QArith Qminmax.
From stdpp Require Import base option list gmap strings pretty.

Set Warnings "-inexact-float".
Local Open Scope Z_scope.

(** ** Python built-ins used by the source *)

Module Py.

(** The exceptions the modelled code raises or lets through. *)
Inductive Exn : Type :=
| FileNotFoundError
| ValueError
| ZeroDivisionError
| OverflowError
| Cv2Error
| DetectorError.

Global Instance exn_ret : MRet (sum Exn) := λ A a, inr a.
Global Instance exn_bind : MBind (sum Exn) := λ A B k m,
  match m with
  | inl e => inl e
  | inr a => k a
  end.
Global Instance exn_fmap : FMap (sum Exn) := λ A B f m,
  match m with
  | inl e => inl e
  | inr a => inr (f a)
  end.

(** [float(z)] as done implicitly in mixed arithmetic: round to nearest,
    ties to even. *)
Definition float_of_int (z : Z) : float :=
  SF2Prim (binary_normalize 53 1024 z 0 false).

(** [int(f)]: truncation toward zero; [int(inf)] and [int(nan)] raise. *)
Definition int (f : float) : Exn + Z :=
  match Prim2SF f with
  | S754_zero _ => inr 0
  | S754_finite s m e =>
      let v := if 0 <=? e then Z.shiftl (Z.pos m) e
               else Z.shiftr (Z.pos m) (- e) in
      inr (if s then - v else v)
  | S754_infinity _ => inl OverflowError
  | S754_nan => inl ValueError
  end.

(** [a / b] on two ints (true division). *)
Definition truediv (a b : Z) : Exn + float :=
  if decide (b = 0) then inl ZeroDivisionError
  else inr (PrimFloat.div (float_of_int a) (float_of_int b)).

(** [str(n)] on an int. *)
Definition str (n : Z) : string := pretty n.

(** Normalisation of one bound of [a[start:stop]] on a sequence of
    length [n]: a negative bound counts from the end. *)
Definition slice_index (n i : Z) : Z :=
  if i <? 0 then Z.max 0 (i + n) else Z.min i n.

(** [slice(start, stop).indices(n)]: the first index of the slice and the
    index after its last; the slice is empty when the second is not above
    the first. *)
Definition indices (n : nat) (start stop : Z) : nat * nat :=
  (Z.to_nat (slice_index (Z.of_nat n) start),
   Z.to_nat (slice_index (Z.of_nat n) stop)).

(** [l[start:stop]]. *)
Definition slice {A} (l : list A) (start stop : Z) : list A :=
  let '(lo, hi) := indices (length l) start stop in
  take (hi - lo) (drop lo l).

(** [l[start:stop] = v] where [v] has the length of the slice (a numpy
    assignment never changes the shape of its target). *)
Definition slice_assign {A} (l : list A) (start stop : Z) (v : list A)
  : list A :=
  let '(lo, hi) := indices (length l) start stop in
  take lo l ++ v ++ drop (lo `max` hi) l.

End Py.

(** ** Frames *)

(** One BGR pixel: three bytes. *)
Definition Pixel : Type := Z * Z * Z.

(** A frame ([np.ndarray] of shape (H, W, 3)): H rows of W pixels. A
    decoded video frame has at least one row. *)
Definition Frame : Type := list (list Pixel).

(** [frame.shape[0]] and [frame.shape[1]]. *)
Definition shape0 (f : Frame) : Z := Z.of_nat (length f).
Definition shape1 (f : Frame) : Z :=
  match f with
  | [] => 0
  | row :: _ => Z.of_nat (length row)
  end.

(** [f[y][x]], when inside the frame. *)
Definition pixel_at (f : Frame) (y x : nat) : option Pixel :=
  f !! y ≫= (.!! x).

(** [arr[y1:y2, x1:x2]]. *)
Definition roi_of (f : Frame) (y1 y2 x1 x2 : Z) : Frame :=
  (λ row, Py.slice row x1 x2) <$> Py.slice f y1 y2.

(** [arr.size]: the number of scalar elements (three per pixel). *)
Definition np_size (f : Frame) : Z := Z.of_nat (length (concat f)) * 3.

(** [arr[y1:y2, x1:x2] = v], for a [v] of the shape of the slice. *)
Definition set_roi (f : Frame) (y1 y2 x1 x2 : Z) (v : Frame) : Frame :=
  Py.slice_assign f y1 y2
    (zip_with (λ row vrow, Py.slice_assign row x1 x2 vrow)
              (Py.slice f y1 y2) v).

(** A frame of [h] rows that all have [w] pixels. *)
Definition rectangular (h w : nat) (f : Frame) : Prop :=
  length f = h ∧ Forall (λ row, length row = w) f.

(** Two arrays of the same shape. *)
Definition same_shape (a b : Frame) : Prop :=
  Forall2 (λ row row', length row = length row') a b.

(** ** Data model of [video_processor.py] *)

(** [@dataclass FaceBoundingBox]. *)
Module FaceBoundingBox.
Record t : Type := make {
  x : Z;
  y : Z;
  width : Z;
  height : Z;
  confidence : float
}.
End FaceBoundingBox.

(** A mask as it travels in [masks_data]: a dict with the keys 'x', 'y',
    'width', 'height' and, optionally, 'confidence'. *)
Record MaskDict : Type := mkMask {
  mask_x : Z;
  mask_y : Z;
  mask_width : Z;
  mask_height : Z;
  mask_confidence : option float
}.

(** A key of a Python dict that holds a schedule: an int or a str. *)
Inductive PyKey : Type :=
| KInt (n : Z)
| KStr (s : string).

Global Instance PyKey_eq_dec : EqDecision PyKey.
Proof. solve_decision. Defined.

Global Instance PyKey_countable : Countable PyKey.
Proof.
  refine (inj_countable'
            (λ k, match k with KInt n => inl n | KStr s => inr s end)
            (λ s, match s with inl n => KInt n | inr s => KStr s end) _).
  by intros [].
Defined.

(** ** Region blur: [VideoProcessor.apply_blur_to_frame] *)

Section Blur.

(** [cv2.GaussianBlur(src, (k, k), 0)]. *)
Variable GaussianBlur : Frame → Z → Frame.

(** [kernel_size = max(3, blur_strength * 2 + 1)]. *)
Definition kernel_size (blur_strength : Z) : Z :=
  Z.max 3 (blur_strength * 2 + 1).

(** The body of [for mask in masks]: [frame] is the argument of the
    method (only its shape is read), [result_frame] the working copy. *)
Definition blur_mask (frame : Frame) (blur_strength : Z)
    (result_frame : Frame) (mask : FaceBoundingBox.t) : Frame :=
  let x1 := Z.max 0 mask.(FaceBoundingBox.x) in
  let y1 := Z.max 0 mask.(FaceBoundingBox.y) in
  let x2 := Z.min (shape1 frame)
              (mask.(FaceBoundingBox.x) + mask.(FaceBoundingBox.width)) in
  let y2 := Z.min (shape0 frame)
              (mask.(FaceBoundingBox.y) + mask.(FaceBoundingBox.height)) in
  let roi := roi_of result_frame y1 y2 x1 x2 in
  if 0 <? np_size roi then
    let blurred_roi := GaussianBlur roi (kernel_size blur_strength) in
    set_roi result_frame y1 y2 x1 x2 blurred_roi
  else result_frame.

Definition apply_blur_to_frame (frame : Frame)
    (masks : list FaceBoundingBox.t) (blur_strength : Z) : Frame :=
  match masks with
  | [] => frame
  | _ => foldl (blur_mask frame blur_strength) frame masks
  end.

End Blur.

(** ** Frames as objects

    [apply_blur_to_frame] once more, with the arrays held in a store so
    that the identity of the buffers shows: [frame.copy()] allocates a
    fresh array, [result_frame[y1:y2, x1:x2] = ...] writes into that
    array and into no other, and [return frame] hands back the
    argument itself. *)

Module Buffers.

(** [arr.copy()]: a new array with the contents of [arr]. *)
Definition copy (heap : gmap nat Frame) (arr : nat)
    : option (gmap nat Frame * nat) :=
  content ← heap !! arr;
  let fresh_arr := fresh (dom heap) in
  Some (<[fresh_arr := content]> heap, fresh_arr).

(** The body of [for mask in masks], on the store. *)
Definition blur_mask (GaussianBlur : Frame → Z → Frame)
    (blur_strength : Z) (frame result_frame : nat)
    (heap : gmap nat Frame) (mask : FaceBoundingBox.t) : gmap nat Frame :=
  match heap !! frame, heap !! result_frame with
  | Some shape_source, Some working =>
      <[result_frame :=
          blur_mask GaussianBlur shape_source blur_strength working mask]>
        heap
  | _, _ => heap
  end.

Definition apply_blur_to_frame (GaussianBlur : Frame → Z → Frame)
    (heap : gmap nat Frame) (frame : nat)
    (masks : list FaceBoundingBox.t) (blur_strength : Z)
    : option (gmap nat Frame * nat) :=
  match masks with
  | [] => Some (heap, frame)
  | _ =>
      '(heap, result_frame) ← copy heap frame;
      Some (foldl (blur_mask GaussianBlur blur_strength frame result_frame)
                  heap masks,
            result_frame)
  end.

End Buffers.

(** ** Detection adapter: [VideoProcessor.detect_faces] *)

(** [dlib.rectangle], through the four accessors the source calls. *)
Record Rectangle : Type := mkRect {
  left : Z;
  top : Z;
  rect_width : Z;
  rect_height : Z
}.

(** [dlib.mmod_rectangle]: what the CNN detector yields. *)
Record MmodRectangle : Type := mkMmod {
  rect : Rectangle;
  det_confidence : float
}.

(** The two attributes set by [__init__]: each is [None] or a detector.
    A detector is an external function of the RGB frame that may raise. *)
Record VideoProcessor : Type := mkProcessor {
  cnn_detector : option (Frame → Py.Exn + list MmodRectangle);
  detector : option (Frame → Py.Exn + list Rectangle)
}.

(** [cv2.cvtColor(frame, cv2.COLOR_BGR2RGB)]. *)
Definition cvtColor_BGR2RGB (frame : Frame) : Frame :=
  fmap (M:=list) (λ '(b, g, r), (r, g, b)) <$> frame.

(** The four assignments that add the margin around a raw box:
[[
    x = max(0, int(x - w * margin))
    y = max(0, int(y - h * margin))
    w = min(width - x, int(w * (1 + 2 * margin)))
    h = min(height - y, int(h * (1 + 2 * margin)))
]] *)
Definition add_margin (margin : float) (width height : Z) (r : Rectangle)
    : Py.Exn + (Z * Z * Z * Z) :=
  let x := left r in
  let y := top r in
  let w := rect_width r in
  let h := rect_height r in
  let scale :=
    PrimFloat.add (Py.float_of_int 1)
                  (PrimFloat.mul (Py.float_of_int 2) margin) in
  tx ← Py.int (PrimFloat.sub (Py.float_of_int x)
                  (PrimFloat.mul (Py.float_of_int w) margin));
  let x := Z.max 0 tx in
  ty ← Py.int (PrimFloat.sub (Py.float_of_int y)
                  (PrimFloat.mul (Py.float_of_int h) margin));
  let y := Z.max 0 ty in
  tw ← Py.int (PrimFloat.mul (Py.float_of_int w) scale);
  let w := Z.min (width - x) tw in
  th ← Py.int (PrimFloat.mul (Py.float_of_int h) scale);
  let h := Z.min (height - y) th in
  mret (x, y, w, h).

(** [for detection in dets] of the CNN branch. An exception raised in the
    body leaves the [try]: the faces appended so far are what is returned. *)
Fixpoint cnn_loop (width height : Z) (dets : list MmodRectangle)
    (faces : list FaceBoundingBox.t) : list FaceBoundingBox.t :=
  match dets with
  | [] => faces
  | detection :: dets =>
      let confidence := det_confidence detection in
      if PrimFloat.ltb confidence 0.5%float then
        cnn_loop width height dets faces
      else
        match add_margin 0.15%float width height (rect detection) with
        | inl _ => faces
        | inr (x, y, w, h) =>
            cnn_loop width height dets
              (faces ++ [FaceBoundingBox.make x y w h confidence])
        end
  end.

(** [for rect in dets] of the HOG branch. *)
Fixpoint hog_loop (width height : Z) (dets : list Rectangle)
    (faces : list FaceBoundingBox.t) : list FaceBoundingBox.t :=
  match dets with
  | [] => faces
  | r :: dets =>
      match add_margin 0.2%float width height r with
      | inl _ => faces
      | inr (x, y, w, h) =>
          hog_loop width height dets
            (faces ++ [FaceBoundingBox.make x y w h 1.0%float])
      end
  end.

Definition detect_faces (self : VideoProcessor) (frame : Frame)
    : list FaceBoundingBox.t :=
  let rgb_frame := cvtColor_BGR2RGB frame in
  let height := shape0 frame in
  let width := shape1 frame in
  match cnn_detector self with
  | Some cnn =>
      match cnn rgb_frame with
      | inl _ => []
      | inr dets => cnn_loop width height dets []
      end
  | None =>
      match detector self with
      | Some hog =>
          match hog rgb_frame with
          | inl _ => []
          | inr dets => hog_loop width height dets []
          end
      | None => []
      end
  end.

(** ** The container reader and writer (cv2.VideoCapture, cv2.VideoWriter) *)

(** What [os.path.exists] and a [cv2.VideoCapture] show of a path: whether
    the file is there, whether the container opens, the four properties
    the source reads (the three integer ones after [int(...)]), and the
    frames that successive [cap.read()] calls yield before [ret] is False.
    [total_frames] is what the container reports; nothing ties it to the
    number of frames that can really be read. *)
Record VideoCapture : Type := mkCapture {
  path_exists : bool;
  cap_isOpened : bool;
  CAP_PROP_FPS : float;
  CAP_PROP_FRAME_COUNT : Z;
  CAP_PROP_FRAME_WIDTH : Z;
  CAP_PROP_FRAME_HEIGHT : Z;
  stream : list Frame
}.

(** A [cv2.VideoWriter]: whether it could be created, and the frames
    encoded so far. *)
Record VideoWriter : Type := mkWriter {
  out_isOpened : bool;
  encoded : list Frame
}.

(** [cv2.VideoWriter(output_path, fourcc, fps, size)]; [creatable] tells
    whether the codec can create a file at the output path. *)
Definition VideoWriter_new (creatable : bool) : VideoWriter :=
  {| out_isOpened := creatable; encoded := [] |}.

(** [out.write(frame)]: appends one frame; a writer that is not opened
    ignores the call. *)
Definition write (out : VideoWriter) (frame : Frame) : VideoWriter :=
  if out_isOpened out
  then {| out_isOpened := true; encoded := encoded out ++ [frame] |}
  else out.

(** The observable trace of one render or preview invocation: how it
    ended, the writer, the values handed to the progress callback (oldest
    first) and how many [cap.read()] calls returned a frame. *)
Record Run : Type := mkRun {
  outcome : Py.Exn + bool;
  out : VideoWriter;
  reported : list float;
  frames_read : nat
}.

(** [FaceBoundingBox(x=mask['x'], ..., confidence=mask.get('confidence', 1.0))]. *)
Definition box_of_mask (mask : MaskDict) : FaceBoundingBox.t :=
  FaceBoundingBox.make (mask_x mask) (mask_y mask)
    (mask_width mask) (mask_height mask)
    (default 1.0%float (mask_confidence mask)).

(** [FaceBoundingBox(x=mask['x'], y=mask['y'], width=mask['width'],
    height=mask['height'])], as [generate_preview] builds it: the
    confidence is left to its default. *)
Definition box_of_mask_preview (mask : MaskDict) : FaceBoundingBox.t :=
  FaceBoundingBox.make (mask_x mask) (mask_y mask)
    (mask_width mask) (mask_height mask) 1.0%float.

(** [{'x': face.x, ..., 'confidence': face.confidence}]. *)
Definition mask_of_box (face : FaceBoundingBox.t) : MaskDict :=
  mkMask face.(FaceBoundingBox.x) face.(FaceBoundingBox.y)
         face.(FaceBoundingBox.width) face.(FaceBoundingBox.height)
         (Some face.(FaceBoundingBox.confidence)).

(** [masks_data.get(str(frame_number), [])]. *)
Definition frame_masks (masks_data : gmap PyKey (list MaskDict))
    (frame_number : Z) : list MaskDict :=
  default [] (masks_data !! KStr (Py.str frame_number)).

(** ** Analysis: [VideoProcessor.analyze_video] *)

Record AnalysisResult : Type := mkAnalysis {
  info_fps : float;
  info_total_frames : Z;
  info_duration : float;
  info_width : Z;
  info_height : Z;
  faces_by_frame : gmap PyKey (list MaskDict);
  total_analyzed_frames : nat
}.

(** The [while True] loop of [analyze_video]. Logging and the optional
    dump of the result to [output_json_path] are left out. *)
Fixpoint analyze_loop (self : VideoProcessor) (stream : list Frame)
    (frame_number : Z) (faces_by_frame : gmap PyKey (list MaskDict))
    : gmap PyKey (list MaskDict) :=
  match stream with
  | [] => faces_by_frame
  | frame :: stream =>
      let faces := detect_faces self frame in
      let faces_by_frame :=
        match faces with
        | [] => faces_by_frame
        | _ => <[KStr (Py.str frame_number) := mask_of_box <$> faces]>
                 faces_by_frame
        end in
      analyze_loop self stream (frame_number + 1) faces_by_frame
  end.

Definition analyze_video (self : VideoProcessor) (cap : VideoCapture)
    : Py.Exn + AnalysisResult :=
  if negb (path_exists cap) then inl Py.FileNotFoundError
  else if negb (cap_isOpened cap) then inl Py.ValueError
  else
    let fps := CAP_PROP_FPS cap in
    let total_frames := CAP_PROP_FRAME_COUNT cap in
    let duration :=
      (* total_frames / fps if fps > 0 else 0 *)
      if PrimFloat.ltb 0%float fps
      then PrimFloat.div (Py.float_of_int total_frames) fps
      else 0%float in
    let faces_by_frame := analyze_loop self (stream cap) 0 ∅ in
    inr {| info_fps := fps;
           info_total_frames := total_frames;
           info_duration := duration;
           info_width := CAP_PROP_FRAME_WIDTH cap;
           info_height := CAP_PROP_FRAME_HEIGHT cap;
           faces_by_frame := faces_by_frame;
           total_analyzed_frames := size faces_by_frame |}.

(** ** Render and preview: [process_video], [generate_preview] *)

Section Pipelines.

(** [cv2.GaussianBlur(src, (k, k), 0)] and [cv2.resize(src, (w, h))]. *)
Variable GaussianBlur : Frame → Z → Frame.
Variable resize : Frame → Z → Z → Frame.

(** The frame handed to the writer for the frame read at [frame_number]:
[[
    frame_masks = masks_data.get(str(frame_number), [])
    if frame_masks:
        masks = [FaceBoundingBox(...) for mask in frame_masks]
        frame = self.apply_blur_to_frame(frame, masks, blur_strength)
]] *)
Definition blurred_frame (to_box : MaskDict → FaceBoundingBox.t)
    (masks_data : gmap PyKey (list MaskDict))
    (blur_strength : Z) (frame_number : Z) (frame : Frame) : Frame :=
  match frame_masks masks_data frame_number with
  | [] => frame
  | frame_masks =>
      let masks := to_box <$> frame_masks in
      apply_blur_to_frame GaussianBlur frame masks blur_strength
  end.

(** The [while True] loop of [process_video]. [progress_callback] tells
    whether a callback was passed; its calls are recorded in [reported]
    (the value it returns is not consulted).
    An exception raised in the body propagates: neither [release] nor
    the [return True] is reached. *)
Fixpoint process_loop (masks_data : gmap PyKey (list MaskDict))
    (blur_strength : Z) (progress_callback : bool) (total_frames : Z)
    (stream : list Frame) (frame_number : Z) (run : Run) : Run :=
  match stream with
  | [] => run
  | frame :: stream =>
      let frame :=
        blurred_frame box_of_mask masks_data blur_strength frame_number
          frame in
      let run :=
        {| outcome := outcome run;
           out := write (out run) frame;
           reported := reported run;
           frames_read := S (frames_read run) |} in
      if progress_callback && (frame_number `mod` 10 =? 0) then
        match Py.truediv (frame_number + 1) total_frames with
        | inl e =>
            {| outcome := inl e;
               out := out run;
               reported := reported run;
               frames_read := frames_read run |}
        | inr q =>
            let progress := PrimFloat.mul q (Py.float_of_int 100) in
            process_loop masks_data blur_strength progress_callback
              total_frames stream (frame_number + 1)
              {| outcome := outcome run;
                 out := out run;
                 reported := reported run ++ [progress];
                 frames_read := frames_read run |}
        end
      else
        process_loop masks_data blur_strength progress_callback
          total_frames stream (frame_number + 1) run
  end.

(** A run that stops with an exception before the writer exists. *)
Definition raised_early (e : Py.Exn) : Run :=
  {| outcome := inl e;
     out := VideoWriter_new false;
     reported := [];
     frames_read := 0 |}.

Definition process_video (cap : VideoCapture) (output_creatable : bool)
    (masks_data : gmap PyKey (list MaskDict)) (blur_strength : Z)
    (progress_callback : bool) : Run :=
  if negb (path_exists cap) then raised_early Py.FileNotFoundError
  else if negb (cap_isOpened cap) then raised_early Py.ValueError
  else
    let total_frames := CAP_PROP_FRAME_COUNT cap in
    let out := VideoWriter_new output_creatable in
    if negb (out_isOpened out) then raised_early Py.ValueError
    else
      process_loop masks_data blur_strength progress_callback total_frames
        (stream cap) 0
        {| outcome := inr true;
           out := out;
           reported := [];
           frames_read := 0 |}.

(** [for frame_num in range(preview_frames)] of [generate_preview];
    [remaining] counts the iterations left. [cv2.resize] rejects an
    empty target size. *)
Fixpoint preview_loop (masks_data : gmap PyKey (list MaskDict))
    (blur_strength : Z) (preview_width preview_height : Z)
    (remaining : nat) (stream : list Frame) (frame_num : Z) (run : Run)
    : Run :=
  match remaining with
  | O => run
  | S remaining =>
      match stream with
      | [] => run
      | frame :: stream =>
          let frame :=
            blurred_frame box_of_mask_preview masks_data blur_strength
              frame_num frame in
          if (0 <? preview_width) && (0 <? preview_height) then
            let frame_preview := resize frame preview_width preview_height in
            preview_loop masks_data blur_strength preview_width
              preview_height remaining stream (frame_num + 1)
              {| outcome := outcome run;
                 out := write (out run) frame_preview;
                 reported := reported run;
                 frames_read := S (frames_read run) |}
          else
            {| outcome := inl Py.Cv2Error;
               out := out run;
               reported := reported run;
               frames_read := S (frames_read run) |}
      end
  end.

(** [preview_frames = min(total_frames, int(preview_duration * fps))]. *)
Definition preview_frames (total_frames preview_duration : Z) (fps : float)
    : Py.Exn + Z :=
  n ← Py.int (PrimFloat.mul (Py.float_of_int preview_duration) fps);
  mret (Z.min total_frames n).

(** [preview_width = min(640, width)] and
    [preview_height = int(preview_width * height / width)]. *)
Definition preview_size (width height : Z) : Py.Exn + (Z * Z) :=
  let preview_width := Z.min 640 width in
  q ← Py.truediv (preview_width * height) width;
  preview_height ← Py.int q;
  mret (preview_width, preview_height).

Definition generate_preview (cap : VideoCapture) (output_creatable : bool)
    (masks_data : gmap PyKey (list MaskDict)) (blur_strength : Z)
    (preview_duration : Z) : Run :=
  if negb (cap_isOpened cap) then raised_early Py.ValueError
  else
    let fps := CAP_PROP_FPS cap in
    let total_frames := CAP_PROP_FRAME_COUNT cap in
    let width := CAP_PROP_FRAME_WIDTH cap in
    let height := CAP_PROP_FRAME_HEIGHT cap in
    match preview_frames total_frames preview_duration fps with
    | inl e => raised_early e
    | inr preview_frames =>
        match preview_size width height with
        | inl e => raised_early e
        | inr (preview_width, preview_height) =>
            let out := VideoWriter_new output_creatable in
            preview_loop masks_data blur_strength preview_width
              preview_height (Z.to_nat preview_frames) (stream cap) 0
              {| outcome := inr true;
                 out := out;
                 reported := [];
                 frames_read := 0 |}
        end
    end.

End Pipelines.

(** ** Key conversion in the API layer ([main.py])

    Both endpoints rebuild the schedule before they call the processor:
[[
    masks_dict = {}
    for frame_key, face_boxes in request.masks.items():
        masks_dict[str(frame_key)] = [
            {'x': face.x, 'y': face.y, 'width': face.width,
             'height': face.height, 'confidence': face.confidence}
            for face in face_boxes ]
]]
    [str] of a key that already is a string is that string. The pydantic
    [FaceBoundingBox] of [models.py] has the fields of the dataclass. *)
Definition str_key (k : PyKey) : string :=
  match k with
  | KInt n => Py.str n
  | KStr s => s
  end.

Definition masks_dict_of (items : list (PyKey * list FaceBoundingBox.t))
    : gmap PyKey (list MaskDict) :=
  foldl (λ masks_dict '(frame_key, face_boxes),
           <[KStr (str_key frame_key) := mask_of_box <$> face_boxes]>
             masks_dict)
        ∅ items.

(** ** Concrete collaborators, for evaluating the model on examples *)

Module Toy.

(** A blur that replaces every pixel of the region by the channel-wise
    mean of the region. It keeps the shape of its argument, as
    [cv2.GaussianBlur] does. *)
Definition mean_blur (roi : Frame) (ksize : Z) : Frame :=
  let pixels := concat roi in
  let n := Z.of_nat (length pixels) in
  let sum := foldr (λ '(b, g, r) '(sb, sg, sr), (b + sb, g + sg, r + sr))
                   (0, 0, 0) pixels in
  let mean := let '(sb, sg, sr) := sum in (sb `div` n, sg `div` n, sr `div` n) in
  fmap (M:=list) (λ _, mean) <$> roi.

(** Nearest-neighbour resampling to [w] columns and [h] rows. *)
Definition nearest_resize (frame : Frame) (w h : Z) : Frame :=
  (λ i, (λ j, default (0, 0, 0)
                (pixel_at frame (Z.to_nat (i * shape0 frame `div` h))
                                (Z.to_nat (j * shape1 frame `div` w))))
        <$> seqZ 0 w)
  <$> seqZ 0 h.

(** A frame of [h] rows and [w] columns filled with one grey level. *)
Definition grey (h w : nat) (level : Z) : Frame :=
  replicate h (replicate w (level, level, level)).

End Toy.

(** ** Definitions that follow the words of the specification

    Each of these is the reading of a sentence of the specification; none
    is taken from the source. They are what the embedded code is compared
    with. *)

Module Spec.

(** "the identical schedule with stringified keys": every key replaced by
    its [str]. *)
Definition stringified {V} (items : list (PyKey * V)) : list (PyKey * V) :=
  (λ '(k, v), (KStr (str_key k), v)) <$> items.

(** A schedule written with integer frame indices as keys. *)
Definition int_keyed {V} (entries : list (Z * V)) : list (PyKey * V) :=
  (λ '(n, v), (KInt n, v)) <$> entries.

(** The dict holding the given items under their own keys (a later item
    replaces an earlier one with the same key, as in a dict literal). *)
Definition dict_of {V} (items : list (PyKey * V)) : gmap PyKey V :=
  foldl (λ d '(k, v), <[k := v]> d) ∅ items.

(** "round(...)": the nearest integer, a tie going to the even one. *)
Definition round (f : float) : Py.Exn + Z :=
  match Prim2SF f with
  | S754_zero _ => inr 0
  | S754_finite s m e =>
      let v :=
        if 0 <=? e then Z.shiftl (Z.pos m) e
        else
          let q := Z.shiftr (Z.pos m) (- e) in
          let r := Z.pos m - Z.shiftl q (- e) in
          let half := Z.shiftl 1 (- e - 1) in
          if half <? r then q + 1
          else if (r =? half) && Z.odd q then q + 1
          else q in
      inr (if s then - v else v)
  | S754_infinity _ => inl Py.OverflowError
  | S754_nan => inl Py.ValueError
  end.

(** "min(source_frames_read, round(preview_duration * fps))". *)
Definition preview_frame_count (source_frames : nat) (preview_duration : Z)
    (fps : float) : Py.Exn + nat :=
  n ← round (PrimFloat.mul (Py.float_of_int preview_duration) fps);
  mret (Nat.min source_frames (Z.to_nat n)).

(** "(preview_width, round(preview_width * source_height / source_width))
    with preview_width = min(640, source_width)". *)
Definition preview_dimensions (width height : Z) : Py.Exn + (Z * Z) :=
  let preview_width := Z.min 640 width in
  q ← Py.truediv (preview_width * height) width;
  preview_height ← round q;
  mret (preview_width, preview_height).

(** "new_x = max(0, x - width*margin),
     new_w = min(frame_width - new_x, width*(1+2*margin))
     (symmetric for y/height)", over the rationals. *)
Definition expanded_box (margin : Q) (frame_width frame_height : Z)
    (r : Rectangle) : Q * Q * Q * Q :=
  let new_x := Qmax 0 (inject_Z (left r) - inject_Z (rect_width r) * margin)%Q in
  let new_y := Qmax 0 (inject_Z (top r) - inject_Z (rect_height r) * margin)%Q in
  let new_w := Qmin (inject_Z frame_width - new_x)
                 (inject_Z (rect_width r) * (1 + 2 * margin))%Q in
  let new_h := Qmin (inject_Z frame_height - new_y)
                 (inject_Z (rect_height r) * (1 + 2 * margin))%Q in
  (new_x, new_y, new_w, new_h).

(** "clip [x, x+width) x [y, y+height) against
    [0, frame_width) x [0, frame_height)": the clipped rectangle as
    (x_lo, x_hi, y_lo, y_hi), half-open. *)
Definition clipped (frame : Frame) (mask : FaceBoundingBox.t)
    : Z * Z * Z * Z :=
  (Z.max 0 mask.(FaceBoundingBox.x),
   Z.min (shape1 frame)
         (mask.(FaceBoundingBox.x) + mask.(FaceBoundingBox.width)),
   Z.max 0 mask.(FaceBoundingBox.y),
   Z.min (shape0 frame)
         (mask.(FaceBoundingBox.y) + mask.(FaceBoundingBox.height))).

(** "the clipped area is empty". *)
Definition clipped_empty (frame : Frame) (mask : FaceBoundingBox.t) : bool :=
  let '(x_lo, x_hi, y_lo, y_hi) := clipped frame mask in
  (x_hi <=? x_lo) || (y_hi <=? y_lo).

(** The pixel at row [i], column [j] lies in the clipped rectangle. *)
Definition in_clipped (frame : Frame) (mask : FaceBoundingBox.t)
    (i j : Z) : bool :=
  let '(x_lo, x_hi, y_lo, y_hi) := clipped frame mask in
  (x_lo <=? j) && (j <? x_hi) && (y_lo <=? i) && (i <? y_hi).

(** "independently-blurred-then-merged": every region is blurred from the
    pixels of the input frame, and the blurred regions are then pasted,
    in list order, on a copy of it. *)
Definition blur_mask_independent (GaussianBlur : Frame → Z → Frame)
    (frame : Frame) (blur_strength : Z) (result_frame : Frame)
    (mask : FaceBoundingBox.t) : Frame :=
  let '(x1, x2, y1, y2) := clipped frame mask in
  let roi := roi_of frame y1 y2 x1 x2 in
  if 0 <? np_size roi then
    set_roi result_frame y1 y2 x1 x2
      (GaussianBlur roi (kernel_size blur_strength))
  else result_frame.

Definition blur_independent (GaussianBlur : Frame → Z → Frame)
    (frame : Frame) (masks : list FaceBoundingBox.t) (blur_strength : Z)
    : Frame :=
  foldl (blur_mask_independent GaussianBlur frame blur_strength) frame masks.

(** The frames of [stream], each blurred as the schedule says for its
    index, the first having index [frame_number]. *)
Fixpoint blurred_stream (GaussianBlur : Frame → Z → Frame)
    (to_box : MaskDict → FaceBoundingBox.t)
    (masks_data : gmap PyKey (list MaskDict)) (blur_strength : Z)
    (frame_number : Z) (stream : list Frame) : list Frame :=
  match stream with
  | [] => []
  | frame :: stream =>
      blurred_frame GaussianBlur to_box masks_data blur_strength
        frame_number frame
      :: blurred_stream GaussianBlur to_box masks_data blur_strength
           (frame_number + 1) stream
  end.

(** "(index+1)/frame_count * 100 ... reported at a fixed stride (every
    10th frame)": the values for the indices [start, start + count). *)
Definition progress_values (frame_count : Z) (start : Z) (count : nat)
    : list float :=
  (λ index,
     PrimFloat.mul
       (PrimFloat.div (Py.float_of_int (index + 1))
                      (Py.float_of_int frame_count))
       (Py.float_of_int 100))
  <$> filter (λ index, index `mod` 10 = 0) (seqZ start (Z.of_nat count)).

(** "lies within the frame bounds". *)
Definition in_bounds (frame_width frame_height : Z)
    (box : FaceBoundingBox.t) : Prop :=
  0 ≤ box.(FaceBoundingBox.x)
  ∧ 0 ≤ box.(FaceBoundingBox.y)
  ∧ box.(FaceBoundingBox.x) + box.(FaceBoundingBox.width) ≤ frame_width
  ∧ box.(FaceBoundingBox.y) + box.(FaceBoundingBox.height) ≤ frame_height.

(** "discard if reported confidence < 0.5": the detections that stay. *)
Definition kept (detection : MmodRectangle) : bool :=
  negb (PrimFloat.ltb (det_confidence detection) 0.5%float).

(** The box made of one kept CNN detection (margin 0.15, the reported
    confidence) and of one HOG detection (margin 0.2, confidence 1.0). *)
Definition cnn_box (frame_width frame_height : Z)
    (detection : MmodRectangle) : Py.Exn + FaceBoundingBox.t :=
  '(x, y, w, h) ← add_margin 0.15%float frame_width frame_height
                    (rect detection);
  mret (FaceBoundingBox.make x y w h (det_confidence detection)).

Definition hog_box (frame_width frame_height : Z) (r : Rectangle)
    : Py.Exn + FaceBoundingBox.t :=
  '(x, y, w, h) ← add_margin 0.2%float frame_width frame_height r;
  mret (FaceBoundingBox.make x y w h 1.0%float).

(** The results up to the first exception. *)
Fixpoint until_raise {A} (results : list (Py.Exn + A)) : list A :=
  match results with
  | inr a :: results => a :: until_raise results
  | _ => []
  end.

(** "the external detector invocation raises on some frame". *)
Definition detector_raises (self : VideoProcessor) (frame : Frame) : Prop :=
  match cnn_detector self, detector self with
  | Some cnn, _ => ∃ e, cnn (cvtColor_BGR2RGB frame) = inl e
  | None, Some hog => ∃ e, hog (cvtColor_BGR2RGB frame) = inl e
  | None, None => False
  end.

End Spec.

(** ** Inputs used in the examples *)

Module Examples.

(** A frame of [h] rows and [w] columns whose pixels all differ:
    the pixel at row [i], column [j] is [(10 j, 10 i, i + j)]. *)
Definition ramp (h w : nat) : Frame :=
  (λ i, (λ j, (10 * j, 10 * i, i + j)) <$> seqZ 0 (Z.of_nat w))
  <$> seqZ 0 (Z.of_nat h).

(** An 8x8 source of five frames whose container reports five frames. *)
Definition clip : VideoCapture :=
  {| path_exists := true;
     cap_isOpened := true;
     CAP_PROP_FPS := 10%float;
     CAP_PROP_FRAME_COUNT := 5;
     CAP_PROP_FRAME_WIDTH := 8;
     CAP_PROP_FRAME_HEIGHT := 8;
     stream := replicate 5 (ramp 8 8) |}.

(** One region of 4x4 pixels at (2, 2). *)
Definition centre_mask : MaskDict := mkMask 2 2 4 4 (Some 1.0%float).

(** The schedule [{3: [centre_mask]}], keyed by the integer 3. *)
Definition schedule_int : list (PyKey * list MaskDict) :=
  [(KInt 3, [centre_mask])].

(** A frame of two rows and four columns. *)
Definition strip : Frame := ramp 2 4.

(** A region one pixel wide and two high, three pixels to the left of the
    frame: it covers column -3 only. *)
Definition left_of_frame : FaceBoundingBox.t :=
  FaceBoundingBox.make (-3) 0 1 2 1.0%float.

(** Two regions of one row that share column 1. *)
Definition first_region : FaceBoundingBox.t :=
  FaceBoundingBox.make 0 0 2 1 1.0%float.
Definition second_region : FaceBoundingBox.t :=
  FaceBoundingBox.make 1 0 2 1 1.0%float.

(** A source whose container reports five frames although eleven can be
    read. *)
Definition underreported_clip : VideoCapture :=
  {| path_exists := true;
     cap_isOpened := true;
     CAP_PROP_FPS := 10%float;
     CAP_PROP_FRAME_COUNT := 5;
     CAP_PROP_FRAME_WIDTH := 2;
     CAP_PROP_FRAME_HEIGHT := 2;
     stream := replicate 11 (ramp 2 2) |}.

(** A source whose container reports no frame although three can be
    read. *)
Definition uncounted_clip : VideoCapture :=
  {| path_exists := true;
     cap_isOpened := true;
     CAP_PROP_FPS := 10%float;
     CAP_PROP_FRAME_COUNT := 0;
     CAP_PROP_FRAME_WIDTH := 2;
     CAP_PROP_FRAME_HEIGHT := 2;
     stream := replicate 3 (ramp 2 2) |}.

(** Three hundred frames at 29.97 frames per second. *)
Definition ntsc_clip : VideoCapture :=
  {| path_exists := true;
     cap_isOpened := true;
     CAP_PROP_FPS := 29.97%float;
     CAP_PROP_FRAME_COUNT := 300;
     CAP_PROP_FRAME_WIDTH := 2;
     CAP_PROP_FRAME_HEIGHT := 2;
     stream := replicate 300 (ramp 2 2) |}.

(** A raw detection of 10x10 pixels at (10, 10). *)
Definition face_rect : Rectangle := mkRect 10 10 10 10.

(** A CNN detector that reports [face_rect] with the given confidence on
    every frame. *)
Definition cnn_reporting (confidence : float) : VideoProcessor :=
  {| cnn_detector := Some (λ _, inr [mkMmod face_rect confidence]);
     detector := None |}.

(** A HOG detector that reports the given rectangle on every frame. *)
Definition hog_reporting (r : Rectangle) : VideoProcessor :=
  {| cnn_detector := None;
     detector := Some (λ _, inr [r]) |}.

(** A CNN detector that raises on every frame whose top-left pixel is
    black and reports [face_rect] with confidence 0.9 on the others. *)
Definition flaky_cnn : VideoProcessor :=
  {| cnn_detector :=
       Some (λ rgb_frame,
               match pixel_at rgb_frame 0 0 with
               | Some (0, 0, 0) => inl Py.DetectorError
               | _ => inr [mkMmod face_rect 0.9%float]
               end);
     detector := None |}.

(** Three frames of 40x40; only the middle one has a black top-left
    pixel. *)
Definition three_frames : VideoCapture :=
  {| path_exists := true;
     cap_isOpened := true;
     CAP_PROP_FPS := 10%float;
     CAP_PROP_FRAME_COUNT := 3;
     CAP_PROP_FRAME_WIDTH := 40;
     CAP_PROP_FRAME_HEIGHT := 40;
     stream := [Toy.grey 40 40 128; ramp 40 40; Toy.grey 40 40 128] |}.

End Examples.

(** The frames a run handed to an opened writer. *)
Definition written (run : Run) : list Frame := encoded (out run).

(** * The rest of the code

    The constructor of [VideoProcessor] and its model lookup, the session
    store of [backend/temp_storage.py], the request and response models
    of [backend/models.py] and the endpoints and background tasks of
    [backend/main.py]. *)

(** ** More of Python *)

Module PyOs.

(** [os.path.join(a, b)] on a POSIX system: an absolute [b] replaces
    [a]; otherwise [b] is appended, after a slash unless [a] is empty or
    already ends with one. *)
Fixpoint ends_with_slash (a : string) : bool :=
  match a with
  | EmptyString => false
  | String c rest =>
      match rest with
      | EmptyString => bool_decide (String c EmptyString = "/")
      | _ => ends_with_slash rest
      end
  end.

Definition path_join (a b : string) : string :=
  if String.prefix "/" b then b
  else if bool_decide (a = "") || ends_with_slash a then a +:+ b
  else a +:+ "/" +:+ b.

End PyOs.

(** The exceptions of the code outside the frame pipeline: those of
    [Py.Exn], and the ones the constructor, the store and the endpoints
    add. [HTTPException] carries its status code. *)
Inductive Raised : Type :=
| Core (e : Py.Exn)
| ImportError
| RuntimeError
| KeyError
| AttributeError
| FileExistsError
| IsADirectoryError
| NotADirectoryError
| JSONDecodeError
| ValidationError
| PlainException
| HTTPException (status_code : Z).

Global Instance raised_ret : MRet (sum Raised) := λ A a, inr a.
Global Instance raised_bind : MBind (sum Raised) := λ A B k m,
  match m with
  | inl e => inl e
  | inr a => k a
  end.

(** ** [VideoProcessor.__init__] and [_find_cnn_model] *)

(** The candidate locations of the CNN model, in the order tried;
    [module_dir] is [os.path.dirname(__file__)]. *)
Definition possible_paths (module_dir : string) : list string :=
  [ "mmod_human_face_detector.dat";
    "./mmod_human_face_detector.dat";
    "models/mmod_human_face_detector.dat";
    PyOs.path_join module_dir "mmod_human_face_detector.dat";
    PyOs.path_join (PyOs.path_join module_dir "models")
                   "mmod_human_face_detector.dat" ].

(** [for path in possible_paths: if os.path.exists(path): return path],
    then [return None]. *)
Fixpoint first_existing (path_exists : string → bool)
    (paths : list string) : option string :=
  match paths with
  | [] => None
  | path :: paths =>
      if path_exists path then Some path
      else first_existing path_exists paths
  end.

Definition _find_cnn_model (path_exists : string → bool)
    (module_dir : string) : option string :=
  first_existing path_exists (possible_paths module_dir).

(** The [dlib] module as the constructor uses it:
    [dlib.get_frontal_face_detector()] and
    [dlib.cnn_face_detection_model_v1(path)], which may raise on a file
    that is no model. *)
Record Dlib : Type := mkDlib {
  get_frontal_face_detector : Frame → Py.Exn + list Rectangle;
  cnn_face_detection_model_v1 :
    string → Raised + (Frame → Py.Exn + list MmodRectangle)
}.

(** [VideoProcessor(use_cnn)]; [dlib] is [None] when [import dlib]
    fails. *)
Definition VideoProcessor_init (dlib : option Dlib)
    (path_exists : string → bool) (module_dir : string) (use_cnn : bool)
    : Raised + VideoProcessor :=
  match dlib with
  | None => inl ImportError
  | Some dlib =>
      if use_cnn then
        match _find_cnn_model path_exists module_dir with
        | Some cnn_model_path =>
            cnn ← cnn_face_detection_model_v1 dlib cnn_model_path;
            mret {| cnn_detector := Some cnn; detector := None |}
        | None =>
            mret {| cnn_detector := None;
                    detector := Some (get_frontal_face_detector dlib) |}
        end
      else
        mret {| cnn_detector := None;
                detector := Some (get_frontal_face_detector dlib) |}
  end.

(** ** Helpers for stating the properties *)

Module More.

(** At least one face is detected on the frame. *)
Definition has_faces (self : VideoProcessor) (frame : Frame) : bool :=
  match detect_faces self frame with
  | [] => false
  | _ => true
  end.

(** The fields of a box that place it in the frame. *)
Definition geometry (box : FaceBoundingBox.t) : Z * Z * Z * Z :=
  (box.(FaceBoundingBox.x), box.(FaceBoundingBox.y),
   box.(FaceBoundingBox.width), box.(FaceBoundingBox.height)).

(** The result of [analyze_video] on [Examples.three_frames] with
    [Examples.flaky_cnn]: a face on frames 0 and 2, none on frame 1,
    where the detector raises. *)
Definition three_frames_analysis : AnalysisResult :=
  {| info_fps := 10%float;
     info_total_frames := 3;
     info_duration := 0.3%float;
     info_width := 40;
     info_height := 40;
     faces_by_frame :=
       {[ KStr "0" := [mkMask 8 8 13 13 (Some 0.9%float)];
          KStr "2" := [mkMask 8 8 13 13 (Some 0.9%float)] ]};
     total_analyzed_frames := 2 |}.

End More.

(** * The session store and the API layer

    [backend/temp_storage.py] and [backend/main.py]. The file system, the
    clock and the identifier generator are the environment of this code:
    the file system is a state with the operations the code calls on it,
    the time read by [datetime.now()] and the identifier drawn by
    [uuid.uuid4()] are arguments. *)

(** ** Python dicts in insertion order *)

Module PyDict.

Section Dict.

Context {V : Type}.

(** [d.get(k)]; [k in d] is [is_Some (get d k)]. *)
Fixpoint get (d : list (string * V)) (k : string) : option V :=
  match d with
  | [] => None
  | (k', v) :: d => if String.eqb k' k then Some v else get d k
  end.

(** [d[k] = v]: an existing key keeps its place, a new one goes last. *)
Fixpoint setitem (d : list (string * V)) (k : string) (v : V)
    : list (string * V) :=
  match d with
  | [] => [(k, v)]
  | (k', v') :: d =>
      if String.eqb k' k then (k, v) :: d else (k', v') :: setitem d k v
  end.

(** [del d[k]] for a key that is there. *)
Fixpoint delitem (d : list (string * V)) (k : string) : list (string * V) :=
  match d with
  | [] => []
  | (k', v') :: d =>
      if String.eqb k' k then d else (k', v') :: delitem d k
  end.

(** [list(d.keys())]. *)
Definition keys (d : list (string * V)) : list string := d.*1.

End Dict.

End PyDict.

(** ** [backend/models.py]: the status of a session *)

Module ProcessingStatus.

Inductive t : Type :=
| UPLOADED
| ANALYZING
| ANALYZED
| PROCESSING
| COMPLETED
| ERROR.

(** The enum derives from [str]: a member is its value. *)
Definition value (s : t) : string :=
  match s with
  | UPLOADED => "uploaded"
  | ANALYZING => "analyzing"
  | ANALYZED => "analyzed"
  | PROCESSING => "processing"
  | COMPLETED => "completed"
  | ERROR => "error"
  end.

(** [a == b]. *)
Definition eqb (a b : t) : bool := bool_decide (value a = value b).

End ProcessingStatus.

(** A number as the store holds it in ['progress']: the code writes the
    float [0.0], the ints 10, 30, 50 and 100, and the float
    [50 + percent * 0.5]. *)
Inductive PyNum : Type :=
| PyInt (n : Z)
| PyFloat (f : float).

Definition to_float (n : PyNum) : float :=
  match n with
  | PyInt n => Py.float_of_int n
  | PyFloat f => f
  end.

(** The text the store holds in ['message']: a literal, or one of the two
    formatted strings of [main.py], kept with their arguments:
    [f"{prefix}{str(e)}"] and [f"Processing... {percent:.1f}%"]. *)
Inductive Message : Type :=
| Text (s : string)
| Failure (prefix : string) (e : Raised)
| ProcessingPercent (percent : float).

(** ** A session: the dict stored under a video id *)

Module Session.

(** [session['files']]. *)
Record Files : Type := mkFiles {
  uploaded_video : option string;
  analysis_json : option string;
  preview_video : option string;
  output_video : option string
}.

(** [created_at] is a [datetime], here in microseconds. *)
Record t : Type := make {
  video_id : string;
  original_filename : string;
  session_dir : string;
  created_at : Z;
  status : ProcessingStatus.t;
  progress : PyNum;
  message : Message;
  files : Files
}.

(** [session['status'] = status; session['message'] = message;
    session['progress'] = progress]. *)
Definition set_status (session : t) (new_status : ProcessingStatus.t)
    (new_message : Message) (new_progress : PyNum) : t :=
  {| video_id := video_id session;
     original_filename := original_filename session;
     session_dir := session_dir session;
     created_at := created_at session;
     status := new_status;
     progress := new_progress;
     message := new_message;
     files := files session |}.

Definition set_files (session : t) (new_files : Files) : t :=
  {| video_id := video_id session;
     original_filename := original_filename session;
     session_dir := session_dir session;
     created_at := created_at session;
     status := status session;
     progress := progress session;
     message := message session;
     files := new_files |}.

(** [session['files'][key] = path] for the four keys. *)
Definition set_uploaded_video (session : t) (path : string) : t :=
  set_files session
    {| uploaded_video := Some path;
       analysis_json := analysis_json (files session);
       preview_video := preview_video (files session);
       output_video := output_video (files session) |}.

Definition set_analysis_json (session : t) (path : string) : t :=
  set_files session
    {| uploaded_video := uploaded_video (files session);
       analysis_json := Some path;
       preview_video := preview_video (files session);
       output_video := output_video (files session) |}.

Definition set_preview_video (session : t) (path : string) : t :=
  set_files session
    {| uploaded_video := uploaded_video (files session);
       analysis_json := analysis_json (files session);
       preview_video := Some path;
       output_video := output_video (files session) |}.

Definition set_output_video (session : t) (path : string) : t :=
  set_files session
    {| uploaded_video := uploaded_video (files session);
       analysis_json := analysis_json (files session);
       preview_video := preview_video (files session);
       output_video := Some path |}.

End Session.

(** The dict [analyze_video] returns: the fields of [AnalysisResult] and
    the path it was called with (['video_info']['file_path']). *)
Record AnalysisDict : Type := mkAnalysisDict {
  file_path : string;
  analysis : AnalysisResult
}.

(** ** The environment: the file system *)

(** A state [FS] and the calls the code makes on it. A call that writes
    returns the state it leaves and the exception it raised, if any; a
    call that reads leaves the state as it is.
    - [os_path_exists]: [os.path.exists(path)];
    - [os_makedirs]: [os.makedirs(path, exist_ok=True)];
    - [open_wb_write]: [with open(path, 'wb') as f: f.write(content)];
    - [json_dump]: [with open(path, 'w', encoding='utf-8') as f:
      json.dump(data, f, indent=2, ensure_ascii=False)];
    - [json_load]: [with open(path, 'r', encoding='utf-8') as f:
      return json.load(f)], a value of [Json] with its truth value
      [truthy];
    - [shutil_rmtree]: [shutil.rmtree(path)];
    - [cv2_VideoCapture]: what [os.path.exists(path)] and
      [cv2.VideoCapture(path)] show of a path;
    - [cv2_VideoWriter]: whether [cv2.VideoWriter(path, ...)] can create
      its file;
    - [release]: the state once a run that was given the output path is
      over. *)
Class Os : Type := mkOs {
  FS : Type;
  Json : Type;
  truthy : Json → bool;
  os_path_exists : FS → string → bool;
  os_makedirs : string → FS → option Raised * FS;
  open_wb_write : string → string → FS → option Raised * FS;
  json_dump : string → AnalysisDict → FS → option Raised * FS;
  json_load : string → FS → Raised + Json;
  shutil_rmtree : string → FS → option Raised * FS;
  cv2_VideoCapture : FS → string → VideoCapture;
  cv2_VideoWriter : FS → string → bool;
  release : string → Run → FS → FS
}.

(** ** [backend/temp_storage.py] *)

(** The attributes of a [TempStorage]. *)
Record TempStorage : Type := mkStorage {
  base_temp_dir : string;
  sessions : list (string * Session.t)
}.

(** [timedelta(hours=hours_old)] in microseconds. *)
Definition timedelta_hours (hours_old : Z) : Z := hours_old * 3600000000.

(** The defaults of [update_session_status]: [message=""] and
    [progress=0.0]. *)
Definition default_message : Message := Text "".
Definition default_progress : PyNum := PyFloat 0%float.

(** The truth value of an [Optional[str]]: [None] and [""] are false. *)
Definition path_truthy (path : option string) : bool :=
  match path with
  | None => false
  | Some path => negb (bool_decide (path = ""))
  end.

(** The file system and the global [temp_storage]. *)
Record World {os : Os} : Type := mkWorld {
  disk : FS;
  temp_storage : TempStorage
}.

(** A call: its result or the exception it raised, and the world it
    leaves. *)
Definition Eff {os : Os} (A : Type) : Type := World → (Raised + A) * World.

Definition eff_ret {os : Os} {A} (a : A) : Eff A := λ w, (inr a, w).

Definition eff_bind {os : Os} {A B} (k : A → Eff B) (m : Eff A) : Eff B := λ w,
  match m w with
  | (inl e, w) => (inl e, w)
  | (inr a, w) => k a w
  end.

Definition raise {os : Os} {A} (e : Raised) : Eff A := λ w, (inl e, w).

(** [try: body / except Exception as e: handler]. Every exception of
    [Raised], [HTTPException] included, derives from [Exception]. *)
Definition try_except {os : Os} {A} (body : Eff A) (handler : Raised → Eff A)
    : Eff A := λ w,
  match body w with
  | (inl e, w) => handler e w
  | (inr a, w) => (inr a, w)
  end.

(** Reading and replacing [temp_storage]. *)
Definition self_ {os : Os} : Eff TempStorage := λ w, (inr (temp_storage w), w).

Definition modify {os : Os} (f : TempStorage → TempStorage) : Eff unit := λ w,
  (inr tt, {| disk := disk w; temp_storage := f (temp_storage w) |}).

(** A call on the file system that writes, and one that reads. *)
Definition writing {os : Os} (call : FS → option Raised * FS) : Eff unit := λ w,
  let '(raised, new_disk) := call (disk w) in
  (match raised with Some e => inl e | None => inr tt end,
   {| disk := new_disk; temp_storage := temp_storage w |}).

Definition reading {os : Os} {A} (call : FS → A) : Eff A := λ w,
  (inr (call (disk w)), w).

(** An exception of the frame pipeline, raised here. *)
Definition of_core {os : Os} {A} (r : Py.Exn + A) : Eff A :=
  match r with
  | inl e => raise (Core e)
  | inr a => eff_ret a
  end.

Global Instance eff_mret {os : Os} : MRet Eff := @eff_ret os.
Global Instance eff_mbind {os : Os} : MBind Eff := @eff_bind os.

Module Storage.

(** The methods that neither raise nor touch the file system, as
    functions of the object. *)

Definition with_sessions (self : TempStorage)
    (new_sessions : list (string * Session.t)) : TempStorage :=
  {| base_temp_dir := base_temp_dir self; sessions := new_sessions |}.

Definition get_session_dir (self : TempStorage) (video_id : string)
    : string :=
  PyOs.path_join (base_temp_dir self) video_id.

Definition get_session_info (self : TempStorage) (video_id : string)
    : option Session.t :=
  PyDict.get (sessions self) video_id.

Definition update_session_status (self : TempStorage) (video_id : string)
    (status : ProcessingStatus.t) (message : Message) (progress : PyNum)
    : TempStorage :=
  match PyDict.get (sessions self) video_id with
  | Some session =>
      with_sessions self
        (PyDict.setitem (sessions self) video_id
           (Session.set_status session status message progress))
  | None => self
  end.

(** [self.sessions.get(video_id, {}).get('files', {}).get(key)]. *)
Definition get_video_path (self : TempStorage) (video_id : string)
    : option string :=
  session ← PyDict.get (sessions self) video_id;
  Session.uploaded_video (Session.files session).

Definition get_preview_path (self : TempStorage) (video_id : string)
    : option string :=
  session ← PyDict.get (sessions self) video_id;
  Session.preview_video (Session.files session).

Definition get_output_path (self : TempStorage) (video_id : string)
    : option string :=
  session ← PyDict.get (sessions self) video_id;
  Session.output_video (Session.files session).

(** The other methods. *)

Definition create_session {os : Os} (video_id original_filename : string) (now : Z)
    : Eff string :=
  self ← self_;
  let session_dir := PyOs.path_join (base_temp_dir self) video_id in
  writing (os_makedirs session_dir);;
  modify (λ self,
    with_sessions self
      (PyDict.setitem (sessions self) video_id
         {| Session.video_id := video_id;
            Session.original_filename := original_filename;
            Session.session_dir := session_dir;
            Session.created_at := now;
            Session.status := ProcessingStatus.UPLOADED;
            Session.progress := PyFloat 0%float;
            Session.message := Text "Video uploaded";
            Session.files :=
              {| Session.uploaded_video := None;
                 Session.analysis_json := None;
                 Session.preview_video := None;
                 Session.output_video := None |} |}));;
  mret session_dir.

(** [self.sessions[video_id]['files'][key] = path]: [KeyError] without
    the session. *)
Definition set_file {os : Os} (video_id : string)
    (update : Session.t → Session.t) : Eff unit :=
  self ← self_;
  match PyDict.get (sessions self) video_id with
  | None => raise KeyError
  | Some session =>
      modify (λ self,
        with_sessions self
          (PyDict.setitem (sessions self) video_id (update session)))
  end.

Definition save_uploaded_file {os : Os} (video_id : string) (file_content : string)
    : Eff string :=
  self ← self_;
  match PyDict.get (sessions self) video_id with
  | None => raise (Core Py.ValueError)
  | Some _ =>
      let session_dir := get_session_dir self video_id in
      let file_path := PyOs.path_join session_dir "original_video.mp4" in
      writing (open_wb_write file_path file_content);;
      set_file video_id (λ session, Session.set_uploaded_video session file_path);;
      modify (λ self,
        update_session_status self video_id ProcessingStatus.UPLOADED
          (Text "Video uploaded successfully") default_progress);;
      mret file_path
  end.

Definition save_analysis_result {os : Os} (video_id : string)
    (analysis_data : AnalysisDict) : Eff string :=
  self ← self_;
  let session_dir := get_session_dir self video_id in
  let json_path := PyOs.path_join session_dir "analysis_result.json" in
  writing (json_dump json_path analysis_data);;
  set_file video_id (λ session, Session.set_analysis_json session json_path);;
  mret json_path.

Definition get_analysis_result {os : Os} (video_id : string) : Eff (option Json) :=
  self ← self_;
  match PyDict.get (sessions self) video_id with
  | None => mret None
  | Some session =>
      let json_path := Session.analysis_json (Session.files session) in
      match json_path with
      | None => mret None
      | Some path =>
          there ← reading (λ disk, os_path_exists disk path);
          if negb (path_truthy json_path) || negb there then mret None
          else
            loaded ← reading (json_load path);
            match loaded with
            | inl e => raise e
            | inr data => mret (Some data)
            end
      end
  end.

Definition save_preview_video {os : Os} (video_id preview_path : string)
    : Eff string :=
  set_file video_id (λ session, Session.set_preview_video session preview_path);;
  mret preview_path.

Definition save_output_video {os : Os} (video_id output_path : string)
    : Eff string :=
  set_file video_id (λ session, Session.set_output_video session output_path);;
  mret output_path.

Definition cleanup_session {os : Os} (video_id : string) : Eff unit :=
  self ← self_;
  match PyDict.get (sessions self) video_id with
  | Some _ =>
      let session_dir := get_session_dir self video_id in
      there ← reading (λ disk, os_path_exists disk session_dir);
      (if there : bool then writing (shutil_rmtree session_dir)
       else mret tt);;
      modify (λ self,
        with_sessions self (PyDict.delitem (sessions self) video_id))
  | None => mret tt
  end.

(** [for video_id in list(self.sessions.keys())] of
    [_cleanup_old_files]. *)
Fixpoint cleanup_loop {os : Os} (cutoff_time : Z) (video_ids : list string)
    : Eff unit :=
  match video_ids with
  | [] => mret tt
  | video_id :: video_ids =>
      self ← self_;
      match PyDict.get (sessions self) video_id with
      | None => raise KeyError
      | Some session =>
          (if bool_decide (Session.created_at session < cutoff_time)
           then cleanup_session video_id
           else mret tt);;
          cleanup_loop cutoff_time video_ids
      end
  end.

Definition _cleanup_old_files {os : Os} (now : Z) (hours_old : Z) : Eff unit :=
  let cutoff_time := now - timedelta_hours hours_old in
  self ← self_;
  cleanup_loop cutoff_time (PyDict.keys (sessions self)).

(** [TempStorage(base_temp_dir)], run on a file system: the world it
    leaves holds the new object. *)
Definition init {os : Os} (base_temp_dir : string) (now : Z) (disk : FS)
    : (Raised + unit) * World :=
  (writing (os_makedirs base_temp_dir);; _cleanup_old_files now 24)
    {| disk := disk;
       temp_storage :=
         {| base_temp_dir := base_temp_dir; sessions := [] |} |}.

End Storage.

(** ** [backend/main.py] *)

Module Main.

(** The [UploadFile] of a request: [file.content_type] (which may be
    [None]), [file.filename] and what [await file.read()] returns. *)
Record UploadFile : Type := mkUpload {
  content_type : option string;
  filename : string;
  file_content : string
}.

(** [video_info] of the upload response. *)
Record VideoInfo : Type := mkInfo {
  vi_filename : string;
  vi_fps : float;
  vi_total_frames : Z;
  vi_duration : PyNum;
  vi_width : Z;
  vi_height : Z
}.

(** [PreviewRequest] and [ProcessRequest] of [models.py], with the items
    of [masks] in order; a [ProcessRequest] has no [preview_duration]. *)
Record PreviewRequest : Type := mkPreviewRequest {
  preview_masks : list (PyKey * list FaceBoundingBox.t);
  preview_blur_strength : Z;
  preview_duration : Z
}.

Record ProcessRequest : Type := mkProcessRequest {
  masks : list (PyKey * list FaceBoundingBox.t);
  blur_strength : Z
}.

(** [StatusResponse] of [models.py]. *)
Record StatusResponse : Type := mkStatus {
  status_video_id : string;
  status : ProcessingStatus.t;
  progress : float;
  message : Message;
  download_url : option string;
  preview_url : option string;
  error : option string
}.

(** [StatusResponse(video_id=..., ...)]: [progress] is declared
    [Field(0.0, ge=0.0, le=100.0)], so a number is converted to float and
    rejected outside that range. *)
Definition StatusResponse_new (video_id : string)
    (status : ProcessingStatus.t) (progress : PyNum) (message : Message)
    (download_url preview_url error : option string)
    : Raised + StatusResponse :=
  let progress := to_float progress in
  if PrimFloat.leb 0%float progress && PrimFloat.leb progress 100%float
  then inr {| status_video_id := video_id;
              status := status;
              progress := progress;
              message := message;
              download_url := download_url;
              preview_url := preview_url;
              error := error |}
  else inl ValidationError.

(** What [background_tasks.add_task] was given. *)
Inductive Task : Type :=
| PerformAnalysis (video_id video_path : string)
| PerformProcessing (video_id video_path : string)
    (masks_data : gmap PyKey (list MaskDict)) (blur_strength : Z).

(** [cv2.GaussianBlur], [cv2.resize] and the global [processor] are
    arguments of the functions that use them. *)

(** What an endpoint returns. *)
Inductive Response {os : Os} : Type :=
| VideoUploadResponse (video_id status message : string)
    (video_info : VideoInfo)
| Started (status message : string)
| Analysis (analysis_result : Json)
| PreviewCreated (status preview_url : string)
| Status (response : StatusResponse)
| FileResponse (path filename : string).

(** [if not path: raise HTTPException(status_code=404, ...)]. *)
Definition or_404 {os : Os} (path : option string) : Eff string :=
  match path with
  | Some found =>
      if path_truthy path then mret found else raise (HTTPException 404)
  | None => raise (HTTPException 404)
  end.

(** The background tasks [perform_analysis] and [perform_processing],
    which call the processor. *)

Definition perform_analysis {os : Os} (processor : VideoProcessor)
    (video_id video_path : string) : Eff unit :=
  try_except
    (modify (λ self,
       Storage.update_session_status self video_id
         ProcessingStatus.ANALYZING (Text "Detecting faces...") (PyInt 30));;
     cap ← reading (λ disk, cv2_VideoCapture disk video_path);
     analysis_result ← of_core (analyze_video processor cap);
     Storage.save_analysis_result video_id
       {| file_path := video_path; analysis := analysis_result |};;
     modify (λ self,
       Storage.update_session_status self video_id
         ProcessingStatus.ANALYZED (Text "Analysis completed") (PyInt 100)))
    (λ e,
       modify (λ self,
         Storage.update_session_status self video_id ProcessingStatus.ERROR
           (Failure "Analysis failed: " e) default_progress)).

(** [progress_callback(percent)] of [perform_processing]. *)
Definition progress_callback (video_id : string) (self : TempStorage)
    (percent : float) : TempStorage :=
  let progress :=
    PrimFloat.add (Py.float_of_int 50) (PrimFloat.mul percent 0.5%float) in
  Storage.update_session_status self video_id ProcessingStatus.PROCESSING
    (ProcessingPercent percent) (PyFloat progress).

Definition perform_processing {os : Os} (GaussianBlur : Frame → Z → Frame)
    (video_id video_path : string)
    (masks_data : gmap PyKey (list MaskDict)) (blur_strength : Z)
    : Eff unit :=
  try_except
    (analysis_result ← Storage.get_analysis_result video_id;
     (match analysis_result with
      | Some found =>
          if truthy found then mret tt else raise PlainException
      | None => raise PlainException
      end);;
     self ← self_;
     let output_path :=
       PyOs.path_join (Storage.get_session_dir self video_id)
         "processed_video.mp4" in
     cap ← reading (λ disk, cv2_VideoCapture disk video_path);
     creatable ← reading (λ disk, cv2_VideoWriter disk output_path);
     let run :=
       process_video GaussianBlur cap creatable masks_data blur_strength
         true in
     modify (λ self, foldl (progress_callback video_id) self (reported run));;
     writing (λ disk, (None, release output_path run disk));;
     success ← of_core (outcome run);
     if success : bool then
       Storage.save_output_video video_id output_path;;
       modify (λ self,
         Storage.update_session_status self video_id
           ProcessingStatus.COMPLETED (Text "Processing completed")
           (PyInt 100))
     else raise PlainException)
    (λ e,
       modify (λ self,
         Storage.update_session_status self video_id ProcessingStatus.ERROR
           (Failure "Processing failed: " e) default_progress)).

Definition run_task {os : Os} (GaussianBlur : Frame → Z → Frame)
    (processor : VideoProcessor) (task : Task) : Eff unit :=
  match task with
  | PerformAnalysis video_id video_path =>
      perform_analysis processor video_id video_path
  | PerformProcessing video_id video_path masks_data blur_strength =>
      perform_processing GaussianBlur video_id video_path masks_data
        blur_strength
  end.

(** The endpoints. *)

Definition upload_video {os : Os} (file : UploadFile) (uuid4 : string) (now : Z)
    : Eff Response :=
  try_except
    (match content_type file with
     | None => raise AttributeError
     | Some content_type =>
         if negb (String.prefix "video/" content_type)
         then raise (HTTPException 400)
         else
           let video_id := uuid4 in
           Storage.create_session video_id (filename file) now;;
           video_path ← Storage.save_uploaded_file video_id
                          (file_content file);
           cap ← reading (λ disk, cv2_VideoCapture disk video_path);
           let fps := CAP_PROP_FPS cap in
           let total_frames := CAP_PROP_FRAME_COUNT cap in
           let duration :=
             if PrimFloat.ltb 0%float fps
             then PyFloat (PrimFloat.div (Py.float_of_int total_frames) fps)
             else PyInt 0 in
           let width := CAP_PROP_FRAME_WIDTH cap in
           let height := CAP_PROP_FRAME_HEIGHT cap in
           mret (VideoUploadResponse video_id "uploaded"
                   "Video uploaded successfully"
                   {| vi_filename := filename file;
                      vi_fps := fps;
                      vi_total_frames := total_frames;
                      vi_duration := duration;
                      vi_width := width;
                      vi_height := height |})
     end)
    (λ e, raise (HTTPException 500)).

Definition analyze_video {os : Os} (video_id : string)
    : Eff (Response * list Task) :=
  try_except
    (self ← self_;
     video_path ← or_404 (Storage.get_video_path self video_id);
     modify (λ self,
       Storage.update_session_status self video_id
         ProcessingStatus.ANALYZING (Text "Analyzing video...") (PyInt 10));;
     mret (Started "analysis_started" "Video analysis started",
           [PerformAnalysis video_id video_path]))
    (λ e,
       modify (λ self,
         Storage.update_session_status self video_id ProcessingStatus.ERROR
           (Failure "Analysis error: " e) default_progress);;
       raise (HTTPException 500)).

Definition get_analysis_result {os : Os} (video_id : string) : Eff Response :=
  try_except
    (analysis_result ← Storage.get_analysis_result video_id;
     match analysis_result with
     | Some found =>
         if truthy found then mret (Analysis found)
         else raise (HTTPException 404)
     | None => raise (HTTPException 404)
     end)
    (λ e, raise (HTTPException 500)).

Definition generate_preview {os : Os} (GaussianBlur : Frame → Z → Frame)
    (resize : Frame → Z → Z → Frame) (video_id : string)
    (request : PreviewRequest)
    : Eff Response :=
  try_except
    (self ← self_;
     video_path ← or_404 (Storage.get_video_path self video_id);
     let masks_dict := masks_dict_of (preview_masks request) in
     let preview_path :=
       PyOs.path_join (Storage.get_session_dir self video_id)
         "preview.mp4" in
     cap ← reading (λ disk, cv2_VideoCapture disk video_path);
     creatable ← reading (λ disk, cv2_VideoWriter disk preview_path);
     let run :=
       generate_preview GaussianBlur resize cap creatable masks_dict
         (preview_blur_strength request) (preview_duration request) in
     writing (λ disk, (None, release preview_path run disk));;
     success ← of_core (outcome run);
     if success : bool then
       Storage.save_preview_video video_id preview_path;;
       mret (PreviewCreated "preview_created"
               ("/api/preview-file/" +:+ video_id))
     else raise (HTTPException 500))
    (λ e, raise (HTTPException 500)).

Definition process_video {os : Os} (video_id : string) (request : ProcessRequest)
    : Eff (Response * list Task) :=
  try_except
    (self ← self_;
     video_path ← or_404 (Storage.get_video_path self video_id);
     modify (λ self,
       Storage.update_session_status self video_id
         ProcessingStatus.PROCESSING (Text "Processing video...")
         (PyInt 50));;
     let masks_dict := masks_dict_of (masks request) in
     mret (Started "processing_started" "Video processing started",
           [PerformProcessing video_id video_path masks_dict
              (blur_strength request)]))
    (λ e,
       modify (λ self,
         Storage.update_session_status self video_id ProcessingStatus.ERROR
           (Failure "Processing error: " e) default_progress);;
       raise (HTTPException 500)).

Definition get_processing_status {os : Os} (video_id : string) : Eff Response :=
  self ← self_;
  match Storage.get_session_info self video_id with
  | None => raise (HTTPException 404)
  | Some session_info =>
      let download_url :=
        if ProcessingStatus.eqb (Session.status session_info)
             ProcessingStatus.COMPLETED
        then Some ("/api/download/" +:+ video_id)
        else None in
      let preview_url :=
        if path_truthy (Storage.get_preview_path self video_id)
        then Some ("/api/preview-file/" +:+ video_id)
        else None in
      match StatusResponse_new video_id (Session.status session_info)
              (Session.progress session_info)
              (Session.message session_info) download_url preview_url None
      with
      | inl e => raise e
      | inr response => mret (Status response)
      end
  end.

(** [if not path or not os.path.exists(path): raise
    HTTPException(status_code=404, ...)]. *)
Definition existing_or_404 {os : Os} (path : option string) : Eff string :=
  match path with
  | Some found =>
      there ← reading (λ disk, os_path_exists disk found);
      if negb (path_truthy path) || negb there
      then raise (HTTPException 404)
      else mret found
  | None => raise (HTTPException 404)
  end.

Definition download_video {os : Os} (video_id : string) : Eff Response :=
  self ← self_;
  output_path ← existing_or_404 (Storage.get_output_path self video_id);
  match PyDict.get (sessions self) video_id with
  | None => raise KeyError
  | Some session =>
      let filename := "blurred_" +:+ Session.original_filename session in
      mret (FileResponse output_path filename)
  end.

Definition get_preview_video {os : Os} (video_id : string) : Eff Response :=
  self ← self_;
  preview_path ← existing_or_404 (Storage.get_preview_path self video_id);
  mret (FileResponse preview_path "preview.mp4").

End Main.

(** ** A small file system for the examples *)

Module ToyOs.

(** What a path holds. *)
Inductive Entry : Type :=
| Dir
| Bytes (content : string)
| JsonFile (data : AnalysisDict)
| Video (frames : list Frame).

(** A file of [n] bytes decodes to [n] frames of 8x8 at 10 frames per
    second; a file left by a writer holds the frames it was given. *)
Definition capture_of (frames : list Frame) : VideoCapture :=
  {| path_exists := true;
     cap_isOpened := bool_decide (frames ≠ []);
     CAP_PROP_FPS := 10%float;
     CAP_PROP_FRAME_COUNT := Z.of_nat (length frames);
     CAP_PROP_FRAME_WIDTH := 8;
     CAP_PROP_FRAME_HEIGHT := 8;
     stream := frames |}.

Definition missing : VideoCapture :=
  {| path_exists := false;
     cap_isOpened := false;
     CAP_PROP_FPS := 0%float;
     CAP_PROP_FRAME_COUNT := 0;
     CAP_PROP_FRAME_WIDTH := 0;
     CAP_PROP_FRAME_HEIGHT := 0;
     stream := [] |}.

Definition unreadable : VideoCapture :=
  {| path_exists := true;
     cap_isOpened := false;
     CAP_PROP_FPS := 0%float;
     CAP_PROP_FRAME_COUNT := 0;
     CAP_PROP_FRAME_WIDTH := 0;
     CAP_PROP_FRAME_HEIGHT := 0;
     stream := [] |}.

Definition put (path : string) (entry : Entry)
    (disk : list (string * Entry)) : option Raised * list (string * Entry) :=
  match PyDict.get disk path with
  | Some Dir => (Some IsADirectoryError, disk)
  | _ => (None, PyDict.setitem disk path entry)
  end.

Global Instance os : Os :=
  {| FS := list (string * Entry);
     Json := AnalysisDict;
     truthy := λ _, true;
     os_path_exists := λ disk path,
       bool_decide (is_Some (PyDict.get disk path));
     os_makedirs := λ path disk,
       match PyDict.get disk path with
       | Some Dir => (None, disk)
       | Some _ => (Some FileExistsError, disk)
       | None => (None, PyDict.setitem disk path Dir)
       end;
     open_wb_write := λ path content, put path (Bytes content);
     json_dump := λ path data, put path (JsonFile data);
     json_load := λ path disk,
       match PyDict.get disk path with
       | Some (JsonFile data) => inr data
       | Some Dir => inl IsADirectoryError
       | Some _ => inl JSONDecodeError
       | None => inl (Core Py.FileNotFoundError)
       end;
     shutil_rmtree := λ path disk,
       match PyDict.get disk path with
       | Some Dir =>
           (None,
            filter (λ entry, entry.1 ≠ path
                             ∧ String.prefix (path +:+ "/") entry.1 = false)
                   disk)
       | Some _ => (Some NotADirectoryError, disk)
       | None => (Some (Core Py.FileNotFoundError), disk)
       end;
     cv2_VideoCapture := λ disk path,
       match PyDict.get disk path with
       | Some (Bytes content) =>
           capture_of (replicate (String.length content) (Examples.ramp 8 8))
       | Some (Video frames) => capture_of frames
       | Some _ => unreadable
       | None => missing
       end;
     cv2_VideoWriter := λ disk path,
       match PyDict.get disk path with
       | Some Dir => false
       | _ => true
       end;
     release := λ path run disk,
       if out_isOpened (out run)
       then PyDict.setitem disk path (Video (encoded (out run)))
       else disk |}.

(** A store without sessions on an empty disk, and one identifier. *)
Definition fresh : World :=
  {| disk := [];
     temp_storage :=
       {| base_temp_dir := "web_temp_uploads"; sessions := [] |} |}.

Definition an_id : string := "0f0e5c1c-6f0b-4c55-9a43-0d3a4f0f2b11".

(** A file of three bytes, and the world after its upload at time 0. *)
Definition three_bytes : Main.UploadFile :=
  {| Main.content_type := Some "video/mp4";
     Main.filename := "a.mp4";
     Main.file_content := "abc" |}.

Definition uploaded : World :=
  (Main.upload_video three_bytes an_id 0 fresh).2.

(** The session of [uploaded]. *)
Definition uploaded_session : Session.t :=
  {| Session.video_id := an_id;
     Session.original_filename := "a.mp4";
     Session.session_dir :=
       "web_temp_uploads/0f0e5c1c-6f0b-4c55-9a43-0d3a4f0f2b11";
     Session.created_at := 0;
     Session.status := ProcessingStatus.UPLOADED;
     Session.progress := PyFloat 0%float;
     Session.message := Text "Video uploaded successfully";
     Session.files :=
       {| Session.uploaded_video :=
            Some "web_temp_uploads/0f0e5c1c-6f0b-4c55-9a43-0d3a4f0f2b11/original_video.mp4";
          Session.analysis_json := None;
          Session.preview_video := None;
          Session.output_video := None |} |}.

(** The world of [uploaded] once an analysis is stored for the session. *)
Definition stored_analysis : AnalysisDict :=
  {| file_path :=
       "web_temp_uploads/0f0e5c1c-6f0b-4c55-9a43-0d3a4f0f2b11/original_video.mp4";
     analysis := More.three_frames_analysis |}.

Definition analyzed_session : Session.t :=
  Session.set_status
    (Session.set_analysis_json uploaded_session
       "web_temp_uploads/0f0e5c1c-6f0b-4c55-9a43-0d3a4f0f2b11/analysis_result.json")
    ProcessingStatus.ANALYZED (Text "Analysis completed") (PyInt 100).

Definition analyzed : World :=
  {| disk :=
       [("web_temp_uploads", Dir);
        ("web_temp_uploads/0f0e5c1c-6f0b-4c55-9a43-0d3a4f0f2b11", Dir);
        ("web_temp_uploads/0f0e5c1c-6f0b-4c55-9a43-0d3a4f0f2b11/original_video.mp4",
         Bytes "abc");
        ("web_temp_uploads/0f0e5c1c-6f0b-4c55-9a43-0d3a4f0f2b11/analysis_result.json",
         JsonFile stored_analysis)];
     temp_storage :=
       {| base_temp_dir := "web_temp_uploads";
          sessions := [(an_id, analyzed_session)] |} |}.

(** A session without files, created at the given time. *)
Definition session_at (video_id : string) (created_at : Z) : Session.t :=
  {| Session.video_id := video_id;
     Session.original_filename := "a.mp4";
     Session.session_dir := PyOs.path_join "web_temp_uploads" video_id;
     Session.created_at := created_at;
     Session.status := ProcessingStatus.UPLOADED;
     Session.progress := PyFloat 0%float;
     Session.message := Text "Video uploaded";
     Session.files :=
       {| Session.uploaded_video := None;
          Session.analysis_json := None;
          Session.preview_video := None;
          Session.output_video := None |} |}.

(** Two sessions, created at time 0 and a hundred hours later; the first
    has its directory, with a file in it. *)
Definition two_sessions : World :=
  {| disk :=
       [("web_temp_uploads", Dir);
        ("web_temp_uploads/old", Dir);
        ("web_temp_uploads/old/original_video.mp4", Bytes "abc")];
     temp_storage :=
       {| base_temp_dir := "web_temp_uploads";
          sessions :=
            [("old", session_at "old" 0);
             ("new", session_at "new" (timedelta_hours 100))] |} |}.

End ToyOs.

(** * Properties *)

(** ** Schedule keys (C1) *)

Section ScheduleKeys.

Implicit Types (items : list (PyKey * list FaceBoundingBox.t)).
Implicit Types (masks_data : gmap PyKey (list MaskDict)).

(** [str] of a key is a fixed point of the conversion. *)
Lemma str_key_idem k : str_key (KStr (str_key k)) = str_key k.
Proof. by destruct k. Qed.

(** The conversion of the API layer does not see whether the keys were
    stringified beforehand. *)
Lemma masks_dict_of_stringified items :
  masks_dict_of (Spec.stringified items) = masks_dict_of items.
Proof.
  unfold masks_dict_of. generalize (∅ : gmap PyKey (list MaskDict)).
  induction items as [|[k v] items IH]; intros acc; [done|].
  cbn. by rewrite IH.
Qed.

(** Entries under an integer key are invisible to the lookup. *)
Lemma frame_masks_insert_int masks_data k v n :
  frame_masks (<[KInt k := v]> masks_data) n = frame_masks masks_data n.
Proof. unfold frame_masks. by rewrite lookup_insert_ne. Qed.

Lemma frame_masks_insert_str masks_data k v n :
  frame_masks (<[KStr (Py.str k) := v]> masks_data) n =
  if decide (k = n) then v else frame_masks masks_data n.
Proof.
  unfold frame_masks. case_decide as Hk.
  - subst. by rewrite lookup_insert_eq.
  - rewrite lookup_insert_ne; [done|].
    intros [= Heq]. by apply (inj pretty) in Heq.
Qed.

(** After the conversion, the entry for frame [n] is the one the
    integer-keyed schedule held under [n]. *)
Lemma frame_masks_masks_dict_of_int_keyed
    (entries : list (Z * list FaceBoundingBox.t)) n :
  frame_masks (masks_dict_of (Spec.int_keyed entries)) n =
  mask_of_box <$> default [] (Spec.dict_of (Spec.int_keyed entries) !! KInt n).
Proof.
  unfold masks_dict_of, Spec.dict_of.
  assert (∀ (acc1 : gmap PyKey (list MaskDict))
            (acc2 : gmap PyKey (list FaceBoundingBox.t)),
    (∀ m, frame_masks acc1 m = mask_of_box <$> default [] (acc2 !! KInt m)) →
    frame_masks
      (foldl (λ masks_dict '(frame_key, face_boxes),
                <[KStr (str_key frame_key) := mask_of_box <$> face_boxes]>
                  masks_dict)
             acc1 (Spec.int_keyed entries)) n =
    mask_of_box <$>
    default []
      (foldl (λ d '(k, v), <[k := v]> d) acc2 (Spec.int_keyed entries)
         !! KInt n)) as Hgen.
  { induction entries as [|[k v] entries IH]; intros acc1 acc2 Hacc; cbn.
    - apply Hacc.
    - apply IH. intros m. rewrite frame_masks_insert_str.
      case_decide as Hk.
      + subst. by rewrite lookup_insert_eq.
      + rewrite lookup_insert_ne by congruence. apply Hacc. }
  apply Hgen. intros m. unfold frame_masks. by rewrite !lookup_empty.
Qed.

End ScheduleKeys.

(** C1, as stated, fails: handed to the core directly, the schedule
    [{3: [m]}] selects no region for frame 3 while [{"3": [m]}] selects
    [m], in render and in preview alike, and the fourth output frame
    differs. *)
Lemma integer_keys_are_not_looked_up :
  ¬ (∀ items n,
       frame_masks (Spec.dict_of items) n =
       frame_masks (Spec.dict_of (Spec.stringified items)) n)
  ∧ frame_masks (Spec.dict_of Examples.schedule_int) 3 = []
  ∧ frame_masks (Spec.dict_of (Spec.stringified Examples.schedule_int)) 3
    = [Examples.centre_mask]
  ∧ written (process_video Toy.mean_blur Examples.clip true
               (Spec.dict_of Examples.schedule_int) 15 false)
    ≠ written (process_video Toy.mean_blur Examples.clip true
               (Spec.dict_of (Spec.stringified Examples.schedule_int))
               15 false)
  ∧ written (generate_preview Toy.mean_blur Toy.nearest_resize
               Examples.clip true (Spec.dict_of Examples.schedule_int) 15 5)
    ≠ written (generate_preview Toy.mean_blur Toy.nearest_resize
               Examples.clip true
               (Spec.dict_of (Spec.stringified Examples.schedule_int)) 15 5).
Proof.
  split_and!.
  - intros H. specialize (H Examples.schedule_int 3).
    vm_compute in H. discriminate H.
  - by vm_compute.
  - by vm_compute.
  - intros H.
    apply (f_equal (λ fs, fs !! 3%nat ≫= λ f, pixel_at f 2 2)) in H.
    vm_compute in H. discriminate H.
  - intros H.
    apply (f_equal (λ fs, fs !! 3%nat ≫= λ f, pixel_at f 2 2)) in H.
    vm_compute in H. discriminate H.
Qed.

(** ** Slices *)

Section SliceFacts.

Context {A : Type}.
Implicit Types (l v : list A).

Lemma slice_index_range n i : 0 ≤ n → 0 ≤ Py.slice_index n i ≤ n.
Proof. unfold Py.slice_index. destruct (Z.ltb_spec i 0); lia. Qed.

Lemma indices_le n start stop :
  ((Py.indices n start stop).1 ≤ n ∧ (Py.indices n start stop).2 ≤ n)%nat.
Proof.
  unfold Py.indices. cbn.
  pose proof (slice_index_range (Z.of_nat n) start).
  pose proof (slice_index_range (Z.of_nat n) stop). lia.
Qed.

(** Bounds that already are indices of the sequence are kept. *)
Lemma indices_in_range n start stop :
  0 ≤ start → 0 ≤ stop ≤ Z.of_nat n →
  Py.indices n start stop
  = (Z.to_nat (Z.min start (Z.of_nat n)), Z.to_nat stop).
Proof.
  intros Hstart Hstop. unfold Py.indices, Py.slice_index.
  destruct (Z.ltb_spec start 0), (Z.ltb_spec stop 0); try lia.
  f_equal. lia.
Qed.

Lemma length_slice l start stop :
  length (Py.slice l start stop)
  = ((Py.indices (length l) start stop).2
     - (Py.indices (length l) start stop).1)%nat.
Proof.
  unfold Py.slice. pose proof (indices_le (length l) start stop) as Hle.
  destruct (Py.indices (length l) start stop) as [lo hi]. cbn in *.
  rewrite length_take, length_drop. lia.
Qed.

Lemma slice_lookup l start stop i :
  Py.slice l start stop !! i
  = if decide (i < (Py.indices (length l) start stop).2
                   - (Py.indices (length l) start stop).1)%nat
    then l !! ((Py.indices (length l) start stop).1 + i)%nat
    else None.
Proof.
  unfold Py.slice.
  destruct (Py.indices (length l) start stop) as [lo hi]. cbn.
  case_decide.
  - by rewrite lookup_take_lt, lookup_drop by lia.
  - apply lookup_ge_None. rewrite length_take. lia.
Qed.

Lemma length_slice_assign l start stop v :
  length v = length (Py.slice l start stop) →
  length (Py.slice_assign l start stop v) = length l.
Proof.
  rewrite length_slice. unfold Py.slice_assign.
  pose proof (indices_le (length l) start stop) as Hle.
  destruct (Py.indices (length l) start stop) as [lo hi]. cbn in *.
  intros Hv. rewrite !length_app, length_take, length_drop. lia.
Qed.

(** After [l[start:stop] = v] the indices of the slice hold [v], the
    others are as before. *)
Lemma slice_assign_lookup l start stop v i :
  length v = length (Py.slice l start stop) →
  Py.slice_assign l start stop v !! i
  = if decide ((Py.indices (length l) start stop).1 ≤ i
               < (Py.indices (length l) start stop).2)%nat
    then v !! (i - (Py.indices (length l) start stop).1)%nat
    else l !! i.
Proof.
  rewrite length_slice. unfold Py.slice_assign.
  pose proof (indices_le (length l) start stop) as Hle.
  destruct (Py.indices (length l) start stop) as [lo hi]. cbn in *.
  intros Hv. destruct (decide (i < lo)%nat) as [Hlt|Hge].
  - rewrite decide_False by lia.
    rewrite lookup_app_l by (rewrite length_take; lia).
    by rewrite lookup_take_lt.
  - rewrite lookup_app_r by (rewrite length_take; lia).
    rewrite length_take. replace (lo `min` length l)%nat with lo by lia.
    case_decide as Hin.
    + by rewrite lookup_app_l by lia.
    + rewrite lookup_app_r by lia. rewrite lookup_drop. f_equal. lia.
Qed.

End SliceFacts.

(** ** Regions of a frame *)

Section FrameFacts.

Implicit Types (f v : Frame).

Lemma Forall_slice {A} (P : A → Prop) (l : list A) start stop :
  Forall P l → Forall P (Py.slice l start stop).
Proof.
  intros Hl. unfold Py.slice. destruct (Py.indices _ _ _) as [lo hi].
  by apply Forall_take, Forall_drop.
Qed.

Lemma rectangular_shape h w f :
  rectangular h w f → (0 < h)%nat →
  shape0 f = Z.of_nat h ∧ shape1 f = Z.of_nat w.
Proof.
  intros [Hlen Hrows] Hh. unfold shape0, shape1. rewrite Hlen.
  split; [done|]. destruct f as [|row f]; cbn in *; [lia|].
  by rewrite (Forall_inv Hrows).
Qed.

(** The slice [f[y1:y2, x1:x2]] of a rectangular frame is rectangular. *)
Lemma roi_of_rectangular h w f y1 y2 x1 x2 :
  rectangular h w f →
  rectangular
    ((Py.indices h y1 y2).2 - (Py.indices h y1 y2).1)
    ((Py.indices w x1 x2).2 - (Py.indices w x1 x2).1)
    (roi_of f y1 y2 x1 x2).
Proof.
  intros [Hlen Hrows]. unfold roi_of. split.
  - by rewrite length_fmap, length_slice, Hlen.
  - apply Forall_fmap.
    eapply Forall_impl; [by apply Forall_slice|].
    intros row Hrow. unfold compose. by rewrite length_slice, Hrow.
Qed.

Lemma same_shape_rectangular h w f v :
  rectangular h w f → same_shape f v → rectangular h w v.
Proof.
  intros [Hlen Hrows] Hsame. split.
  - by rewrite <- (Forall2_length _ _ _ Hsame).
  - clear Hlen. induction Hsame as [|row row' f v Hrow _ IH]; [done|].
    apply Forall_cons in Hrows as [Hw Hrows].
    apply Forall_cons. split; [congruence | by apply IH].
Qed.

(** The rows that replace [f[y1:y2]] in [f[y1:y2, x1:x2] = v]. *)
Lemma set_roi_rows_lookup h w f y1 y2 x1 x2 v k :
  rectangular h w f →
  rectangular
    ((Py.indices h y1 y2).2 - (Py.indices h y1 y2).1)
    ((Py.indices w x1 x2).2 - (Py.indices w x1 x2).1) v →
  (k < (Py.indices h y1 y2).2 - (Py.indices h y1 y2).1)%nat →
  ∃ row vrow,
    f !! ((Py.indices h y1 y2).1 + k)%nat = Some row
    ∧ v !! k = Some vrow
    ∧ length row = w
    ∧ length vrow
      = ((Py.indices w x1 x2).2 - (Py.indices w x1 x2).1)%nat
    ∧ zip_with (λ row vrow, Py.slice_assign row x1 x2 vrow)
        (Py.slice f y1 y2) v !! k
      = Some (Py.slice_assign row x1 x2 vrow).
Proof.
  intros [Hlen Hrows] [Hvlen Hvrows] Hk.
  pose proof (indices_le h y1 y2) as [Hlo Hhi].
  destruct (lookup_lt_is_Some_2 f ((Py.indices h y1 y2).1 + k)%nat)
    as [row Hrow]; [lia|].
  destruct (lookup_lt_is_Some_2 v k) as [vrow Hvrow]; [lia|].
  exists row, vrow. split_and!; try done.
  - by apply (Forall_lookup_1 _ _ _ _ Hrows Hrow).
  - by apply (Forall_lookup_1 _ _ _ _ Hvrows Hvrow).
  - rewrite lookup_zip_with, slice_lookup, Hlen.
    rewrite decide_True by done. by rewrite Hrow, Hvrow.
Qed.

(** [f[y1:y2, x1:x2] = v] keeps the shape of [f]. *)
Lemma set_roi_rectangular h w f y1 y2 x1 x2 v :
  rectangular h w f →
  same_shape (roi_of f y1 y2 x1 x2) v →
  rectangular h w (set_roi f y1 y2 x1 x2 v).
Proof.
  intros Hf Hsame.
  pose proof (same_shape_rectangular _ _ _ _
                (roi_of_rectangular h w f y1 y2 x1 x2 Hf) Hsame) as Hv.
  pose proof Hf as [Hlen Hrows]. pose proof Hv as [Hvlen Hvrows].
  assert (length (zip_with (λ row vrow, Py.slice_assign row x1 x2 vrow)
                    (Py.slice f y1 y2) v)
          = length (Py.slice f y1 y2)) as Hzip.
  { rewrite length_zip_with, length_slice, Hlen, Hvlen. lia. }
  unfold set_roi. split.
  - by rewrite length_slice_assign.
  - apply Forall_lookup_2. intros i row' Hi.
    rewrite slice_assign_lookup in Hi by done. rewrite Hlen in Hi.
    case_decide as Hin.
    + destruct (set_roi_rows_lookup h w f y1 y2 x1 x2 v
                  (i - (Py.indices h y1 y2).1) Hf Hv)
        as (row & vrow & _ & _ & Hw & Hvw & Hz); [lia|].
      rewrite Hz in Hi. injection Hi as <-.
      rewrite length_slice_assign; [done|]. by rewrite length_slice, Hw.
    + by apply (Forall_lookup_1 _ _ _ _ Hrows Hi).
Qed.

(** After [f[y1:y2, x1:x2] = v] the pixels of the slice are those of [v]
    and all others are those of [f]. *)
Lemma set_roi_pixel h w f y1 y2 x1 x2 v i j :
  rectangular h w f →
  same_shape (roi_of f y1 y2 x1 x2) v →
  pixel_at (set_roi f y1 y2 x1 x2 v) i j
  = if decide (((Py.indices h y1 y2).1 ≤ i < (Py.indices h y1 y2).2)
               ∧ ((Py.indices w x1 x2).1 ≤ j < (Py.indices w x1 x2).2))%nat
    then pixel_at v (i - (Py.indices h y1 y2).1)
                    (j - (Py.indices w x1 x2).1)
    else pixel_at f i j.
Proof.
  intros Hf Hsame.
  pose proof (same_shape_rectangular _ _ _ _
                (roi_of_rectangular h w f y1 y2 x1 x2 Hf) Hsame) as Hv.
  pose proof Hf as [Hlen Hrows]. pose proof Hv as [Hvlen Hvrows].
  assert (length (zip_with (λ row vrow, Py.slice_assign row x1 x2 vrow)
                    (Py.slice f y1 y2) v)
          = length (Py.slice f y1 y2)) as Hzip.
  { rewrite length_zip_with, length_slice, Hlen, Hvlen. lia. }
  unfold pixel_at, set_roi, Frame in *.
  rewrite slice_assign_lookup by done. rewrite Hlen.
  destruct (decide ((Py.indices h y1 y2).1 ≤ i < (Py.indices h y1 y2).2)%nat)
    as [Hi|Hi].
  - destruct (set_roi_rows_lookup h w f y1 y2 x1 x2 v
                (i - (Py.indices h y1 y2).1) Hf Hv)
      as (row & vrow & Hrow & Hvrow & Hw & Hvw & Hz); [lia|].
    replace ((Py.indices h y1 y2).1 + (i - (Py.indices h y1 y2).1))%nat
      with i in Hrow by lia.
    unfold Frame in *. rewrite Hz, Hrow, Hvrow. cbn [mbind option_bind].
    rewrite slice_assign_lookup by (by rewrite length_slice, Hw).
    rewrite Hw. repeat case_decide; (done || lia).
  - rewrite decide_False by tauto. done.
Qed.

End FrameFacts.

(** ** Region blur (C3, C4) *)

Section BlurFacts.

Variable GaussianBlur : Frame → Z → Frame.

(** The loop of [apply_blur_to_frame] is a left fold over the masks, also
    when there is none. *)
Lemma apply_blur_to_frame_foldl frame masks blur_strength :
  apply_blur_to_frame GaussianBlur frame masks blur_strength =
  foldl (blur_mask GaussianBlur frame blur_strength) frame masks.
Proof. by destruct masks. Qed.

(** A further mask is applied to the outcome of the masks before it. *)
Lemma apply_blur_to_frame_snoc frame masks mask blur_strength :
  apply_blur_to_frame GaussianBlur frame (masks ++ [mask]) blur_strength =
  blur_mask GaussianBlur frame blur_strength
    (apply_blur_to_frame GaussianBlur frame masks blur_strength) mask.
Proof. by rewrite !apply_blur_to_frame_foldl, foldl_app. Qed.

End BlurFacts.

(** ** The blur inside the frame *)

Section BlurInside.

Variable GaussianBlur : Frame → Z → Frame.

(** [cv2.GaussianBlur] returns an array of the shape of its source. *)
Hypothesis GaussianBlur_shape :
  ∀ roi ksize, same_shape roi (GaussianBlur roi ksize).

Variables (h w : nat) (frame : Frame).
Hypothesis frame_rows : (0 < h)%nat.
Hypothesis frame_shape : rectangular h w frame.

Lemma blur_mask_rectangular blur_strength result_frame mask :
  rectangular h w result_frame →
  rectangular h w
    (blur_mask GaussianBlur frame blur_strength result_frame mask).
Proof.
  intros Hres. unfold blur_mask. destruct (0 <? np_size _); [|done].
  by apply set_roi_rectangular.
Qed.

Lemma length_concat_rectangular a b (roi : Frame) :
  rectangular a b roi → length (concat roi) = (a * b)%nat.
Proof.
  intros [<- Hrows]. induction Hrows as [|row roi Hrow _ IH]; [done|].
  cbn. rewrite length_app, IH, Hrow. lia.
Qed.

(** The window the code cuts for a mask whose right and bottom edges are
    not negative is the clipped rectangle. *)
Lemma window_in_clipped mask (i j : nat) :
  0 ≤ mask.(FaceBoundingBox.x) + mask.(FaceBoundingBox.width) →
  0 ≤ mask.(FaceBoundingBox.y) + mask.(FaceBoundingBox.height) →
  let '(x1, x2, y1, y2) := Spec.clipped frame mask in
  ((Py.indices h y1 y2).1 ≤ i < (Py.indices h y1 y2).2)%nat
  ∧ ((Py.indices w x1 x2).1 ≤ j < (Py.indices w x1 x2).2)%nat →
  Spec.in_clipped frame mask (Z.of_nat i) (Z.of_nat j) = true.
Proof.
  intros Hx Hy. unfold Spec.in_clipped, Spec.clipped.
  destruct (rectangular_shape h w frame frame_shape frame_rows)
    as [-> ->].
  rewrite !indices_in_range by lia. cbn [fst snd]. intros [Hi Hj].
  repeat (apply andb_true_intro; split);
    first [apply Z.leb_le | apply Z.ltb_lt]; lia.
Qed.

(** One mask leaves every pixel outside its clipped rectangle as it
    was. *)
Lemma blur_mask_outside blur_strength result_frame mask (i j : nat) :
  rectangular h w result_frame →
  0 ≤ mask.(FaceBoundingBox.x) + mask.(FaceBoundingBox.width) →
  0 ≤ mask.(FaceBoundingBox.y) + mask.(FaceBoundingBox.height) →
  Spec.in_clipped frame mask (Z.of_nat i) (Z.of_nat j) = false →
  pixel_at (blur_mask GaussianBlur frame blur_strength result_frame mask)
           i j
  = pixel_at result_frame i j.
Proof.
  intros Hres Hx Hy Hout. unfold blur_mask.
  destruct (0 <? np_size _); [|done].
  rewrite (set_roi_pixel h w) by done.
  case_decide as Hin; [|done].
  pose proof (window_in_clipped mask i j Hx Hy) as Hclip.
  unfold Spec.clipped in Hclip. rewrite Hclip in Hout; done.
Qed.

(** A mask whose clipped area is empty is skipped. *)
Lemma blur_mask_clipped_empty blur_strength result_frame mask :
  rectangular h w result_frame →
  0 ≤ mask.(FaceBoundingBox.x) + mask.(FaceBoundingBox.width) →
  0 ≤ mask.(FaceBoundingBox.y) + mask.(FaceBoundingBox.height) →
  Spec.clipped_empty frame mask = true →
  blur_mask GaussianBlur frame blur_strength result_frame mask
  = result_frame.
Proof.
  intros Hres Hx Hy Hempty. unfold blur_mask.
  match goal with |- (if 0 <? ?n then _ else _) = _ =>
    assert (n = 0) as ->; [|done]
  end.
  unfold np_size.
  rewrite (length_concat_rectangular _ _ _
             (roi_of_rectangular h w result_frame _ _ _ _ Hres)).
  unfold Spec.clipped_empty, Spec.clipped in Hempty.
  destruct (rectangular_shape h w frame frame_shape frame_rows)
    as [Hh Hw]. rewrite Hh, Hw in *.
  rewrite !indices_in_range by lia. cbn [fst snd].
  apply orb_prop in Hempty as [Hle%Z.leb_le | Hle%Z.leb_le];
    match goal with |- Z.of_nat ((?a - ?b) * (?c - ?d)) * 3 = 0 =>
      first [ assert (c - d = 0)%nat as -> by lia
            | assert (a - b = 0)%nat as -> by lia ]
    end; lia.
Qed.

(** All masks together: the frame keeps its shape, and a pixel outside
    every clipped rectangle is as in the input. *)
Lemma apply_blur_to_frame_outside masks blur_strength :
  Forall (λ mask,
            0 ≤ mask.(FaceBoundingBox.x) + mask.(FaceBoundingBox.width)
            ∧ 0 ≤ mask.(FaceBoundingBox.y) + mask.(FaceBoundingBox.height))
         masks →
  rectangular h w (apply_blur_to_frame GaussianBlur frame masks blur_strength)
  ∧ ∀ i j : nat,
      Forall (λ mask,
                Spec.in_clipped frame mask (Z.of_nat i) (Z.of_nat j) = false)
             masks →
      pixel_at (apply_blur_to_frame GaussianBlur frame masks blur_strength)
               i j
      = pixel_at frame i j.
Proof.
  rewrite apply_blur_to_frame_foldl.
  induction masks as [|mask masks IH] using rev_ind; intros Hmasks.
  { by split. }
  apply Forall_app in Hmasks as [Hmasks [[Hx Hy] _]%Forall_cons].
  destruct (IH Hmasks) as [Hrect Hpix]. rewrite foldl_app. cbn [foldl].
  split.
  - by apply blur_mask_rectangular.
  - intros i j [Hout [Hlast _]%Forall_cons]%Forall_app.
    rewrite blur_mask_outside by done. by apply Hpix.
Qed.

End BlurInside.

Lemma mean_blur_shape roi ksize : same_shape roi (Toy.mean_blur roi ksize).
Proof.
  unfold same_shape, Toy.mean_blur. apply Forall2_fmap_r, Forall_Forall2_diag.
  apply Forall_forall. intros row _. unfold compose.
  by rewrite length_fmap.
Qed.

(** X1: the part of C3 that the code does keep. For a blur that returns an
    array of the shape of its source, a rectangular frame and masks whose
    right and bottom edges are not negative ([x + width >= 0],
    [y + height >= 0]): the result has the shape of the input, every
    pixel outside all clipped rectangles is the pixel of the input, and a
    mask whose clipped area is empty is skipped. *)
Theorem blur_changes_clipped_regions_only
    (GaussianBlur : Frame → Z → Frame) (h w : nat) (frame : Frame)
    (masks : list FaceBoundingBox.t) (blur_strength : Z) :
  (∀ roi ksize, same_shape roi (GaussianBlur roi ksize)) →
  (0 < h)%nat →
  rectangular h w frame →
  Forall (λ mask,
            0 ≤ mask.(FaceBoundingBox.x) + mask.(FaceBoundingBox.width)
            ∧ 0 ≤ mask.(FaceBoundingBox.y) + mask.(FaceBoundingBox.height))
         masks →
  rectangular h w (apply_blur_to_frame GaussianBlur frame masks blur_strength)
  ∧ (∀ i j : nat,
       Forall (λ mask,
                 Spec.in_clipped frame mask (Z.of_nat i) (Z.of_nat j) = false)
              masks →
       pixel_at (apply_blur_to_frame GaussianBlur frame masks blur_strength)
                i j
       = pixel_at frame i j)
  ∧ (∀ mask result_frame,
       mask ∈ masks →
       rectangular h w result_frame →
       Spec.clipped_empty frame mask = true →
       blur_mask GaussianBlur frame blur_strength result_frame mask
       = result_frame).
Proof.
  intros Hshape Hh Hframe Hmasks.
  destruct (apply_blur_to_frame_outside GaussianBlur Hshape h w frame Hh
              Hframe masks blur_strength Hmasks) as [Hrect Hpix].
  split_and!; [done | done |].
  intros mask result_frame Hin Hres Hempty.
  destruct (proj1 (Forall_forall _ _) Hmasks mask Hin) as [Hx Hy].
  by apply (blur_mask_clipped_empty GaussianBlur h w frame Hh Hframe).
Qed.

(** The statement above on [Examples.strip] and its two overlapping
    regions. *)
Lemma blur_changes_clipped_regions_only_witness :
  rectangular 2 4
    (apply_blur_to_frame Toy.mean_blur Examples.strip
       [Examples.first_region; Examples.second_region] 15)
  ∧ (∀ i j : nat,
       Forall (λ mask,
                 Spec.in_clipped Examples.strip mask (Z.of_nat i) (Z.of_nat j)
                 = false)
              [Examples.first_region; Examples.second_region] →
       pixel_at (apply_blur_to_frame Toy.mean_blur Examples.strip
                   [Examples.first_region; Examples.second_region] 15) i j
       = pixel_at Examples.strip i j)
  ∧ (∀ mask result_frame,
       mask ∈ [Examples.first_region; Examples.second_region] →
       rectangular 2 4 result_frame →
       Spec.clipped_empty Examples.strip mask = true →
       blur_mask Toy.mean_blur Examples.strip 15 result_frame mask
       = result_frame).
Proof.
  apply (blur_changes_clipped_regions_only Toy.mean_blur 2 4 Examples.strip
           [Examples.first_region; Examples.second_region] 15).
  - apply mean_blur_shape.
  - lia.
  - split; [reflexivity | repeat constructor].
  - repeat constructor; cbn; lia.
Defined.

(** ** The input buffer *)

Section BufferFacts.

Variable GaussianBlur : Frame → Z → Frame.

(** The loop writes into [result_frame] only, and what it leaves there is
    what the loop on values computes. *)
Lemma buffers_foldl blur_strength (frame result_frame : nat)
    (heap : gmap nat Frame) content working masks :
  frame ≠ result_frame →
  heap !! frame = Some content →
  heap !! result_frame = Some working →
  let heap' :=
    foldl (Buffers.blur_mask GaussianBlur blur_strength frame result_frame)
          heap masks in
  heap' !! result_frame
  = Some (foldl (blur_mask GaussianBlur content blur_strength) working masks)
  ∧ ∀ arr, arr ≠ result_frame → heap' !! arr = heap !! arr.
Proof.
  intros Hne. revert heap working.
  induction masks as [|mask masks IH]; intros heap working Hframe Hres.
  { by split. }
  cbn [foldl]. unfold Buffers.blur_mask at 2 4. rewrite Hframe, Hres.
  destruct (IH (<[result_frame :=
                    blur_mask GaussianBlur content blur_strength working mask]>
                  heap)
               (blur_mask GaussianBlur content blur_strength working mask))
    as [Hr Hothers].
  - by rewrite lookup_insert_ne.
  - by rewrite lookup_insert_eq.
  - cbn zeta in *. split; [done|].
    intros arr Harr. rewrite Hothers by done. by rewrite lookup_insert_ne.
Qed.

End BufferFacts.

(** X2: the third part of C3, which the code keeps: [apply_blur_to_frame]
    never writes into the buffer it is given. With no mask it returns
    that very buffer; otherwise it returns a buffer that did not exist
    before, holding the blurred frame, and every buffer that existed
    before the call, the input among them, holds what it held. *)
Theorem input_buffer_not_mutated
    (GaussianBlur : Frame → Z → Frame) (heap : gmap nat Frame)
    (frame : nat) (content : Frame) (masks : list FaceBoundingBox.t)
    (blur_strength : Z) :
  heap !! frame = Some content →
  ∃ heap' result,
    Buffers.apply_blur_to_frame GaussianBlur heap frame masks blur_strength
    = Some (heap', result)
    ∧ heap' !! frame = Some content
    ∧ heap' !! result
      = Some (apply_blur_to_frame GaussianBlur content masks blur_strength)
    ∧ (∀ arr, is_Some (heap !! arr) → heap' !! arr = heap !! arr)
    ∧ (masks = [] → result = frame)
    ∧ (masks ≠ [] → heap !! result = None).
Proof.
  intros Hframe. destruct masks as [|mask masks].
  { exists heap, frame. by split_and!. }
  unfold Buffers.apply_blur_to_frame, Buffers.copy. rewrite Hframe. cbn.
  set (result := fresh (dom heap)).
  assert (heap !! result = None) as Hfresh.
  { apply not_elem_of_dom, is_fresh. }
  assert (frame ≠ result) as Hne by congruence.
  eexists _, result. split; [reflexivity|].
  assert (Buffers.blur_mask GaussianBlur blur_strength frame result
            (<[result := content]> heap) mask
          = <[result := blur_mask GaussianBlur content blur_strength
                          content mask]> (<[result := content]> heap))
    as ->.
  { unfold Buffers.blur_mask.
    by rewrite lookup_insert_ne, Hframe, lookup_insert_eq by done. }
  destruct (buffers_foldl GaussianBlur blur_strength frame result
              (<[result := blur_mask GaussianBlur content blur_strength
                             content mask]> (<[result := content]> heap))
              content
              (blur_mask GaussianBlur content blur_strength content mask)
              masks Hne) as [Hr Hothers].
  - by rewrite !lookup_insert_ne.
  - by rewrite lookup_insert_eq.
  - cbn zeta in *. split_and!; try done.
    + rewrite Hothers by done. by rewrite !lookup_insert_ne.
    + intros arr [v Harr]. rewrite Hothers by congruence.
      by rewrite !lookup_insert_ne by congruence.
Qed.

(** The statement above for a store that holds [Examples.strip] at
    address 0. *)
Lemma input_buffer_not_mutated_witness :
  ∃ heap' result,
    Buffers.apply_blur_to_frame Toy.mean_blur {[0%nat := Examples.strip]}
      0%nat [Examples.first_region; Examples.second_region] 15
    = Some (heap', result)
    ∧ heap' !! 0%nat = Some Examples.strip
    ∧ heap' !! result
      = Some (apply_blur_to_frame Toy.mean_blur Examples.strip
                [Examples.first_region; Examples.second_region] 15)
    ∧ (∀ arr, is_Some (({[0%nat := Examples.strip]} : gmap nat Frame) !! arr) →
         heap' !! arr = ({[0%nat := Examples.strip]} : gmap nat Frame) !! arr)
    ∧ ([Examples.first_region; Examples.second_region] = [] → result = 0%nat)
    ∧ ([Examples.first_region; Examples.second_region] ≠ [] →
       ({[0%nat := Examples.strip]} : gmap nat Frame) !! result = None).
Proof.
  apply (input_buffer_not_mutated Toy.mean_blur {[0%nat := Examples.strip]}
           0%nat Examples.strip
           [Examples.first_region; Examples.second_region] 15).
  reflexivity.
Defined.

(** C4. Two regions of one frame are blurred one after the other, in list
    order, on the single working frame: the region of interest handed to
    the blur for the second region is cut out of the frame as the first
    blur left it. This is not the same as blurring each region from the
    input and merging: on [Examples.strip], with two regions that share
    column 1, the compounded result and the merged one differ at that
    column. *)
Theorem overlapping_regions_compound :
  (∀ (GaussianBlur : Frame → Z → Frame) frame mask1 mask2 blur_strength,
     let after_first :=
       blur_mask GaussianBlur frame blur_strength frame mask1 in
     let '(x1, x2, y1, y2) := Spec.clipped frame mask2 in
     let roi := roi_of after_first y1 y2 x1 x2 in
     apply_blur_to_frame GaussianBlur frame [mask1; mask2] blur_strength =
     if 0 <? np_size roi
     then set_roi after_first y1 y2 x1 x2
            (GaussianBlur roi (kernel_size blur_strength))
     else after_first)
  ∧ apply_blur_to_frame Toy.mean_blur Examples.strip
      [Examples.first_region; Examples.second_region] 15
    = [[(5, 0, 0); (12, 0, 1); (12, 0, 1); (30, 0, 3)];
       [(0, 10, 1); (10, 10, 2); (20, 10, 3); (30, 10, 4)]]
  ∧ Spec.blur_independent Toy.mean_blur Examples.strip
      [Examples.first_region; Examples.second_region] 15
    = [[(5, 0, 0); (15, 0, 1); (15, 0, 1); (30, 0, 3)];
       [(0, 10, 1); (10, 10, 2); (20, 10, 3); (30, 10, 4)]].
Proof.
  split_and!.
  - intros. reflexivity.
  - by vm_compute.
  - by vm_compute.
Qed.

(** C3, at the failing input. The region [Examples.left_of_frame] lies
    wholly to the left of the two-by-four frame [Examples.strip], so its
    clipped area is empty and no pixel of the frame belongs to it. The
    code computes [x1 = 0], [x2 = min(4, -2) = -2] and cuts
    [result_frame[0:2, 0:-2]], which is columns 0 and 1: that block is
    blurred and written back, whatever the blur. *)
Theorem region_left_of_frame_is_blurred :
  Spec.clipped_empty Examples.strip Examples.left_of_frame = true
  ∧ (∀ i j, Spec.in_clipped Examples.strip Examples.left_of_frame i j = false)
  ∧ (∀ GaussianBlur : Frame → Z → Frame,
       apply_blur_to_frame GaussianBlur Examples.strip
         [Examples.left_of_frame] 15
       = set_roi Examples.strip 0 2 0 2
           (GaussianBlur [[(0, 0, 0); (10, 0, 1)]; [(0, 10, 1); (10, 10, 2)]]
                         31))
  ∧ apply_blur_to_frame Toy.mean_blur Examples.strip
      [Examples.left_of_frame] 15
    = [[(5, 5, 1); (5, 5, 1); (20, 0, 2); (30, 0, 3)];
       [(5, 5, 1); (5, 5, 1); (20, 10, 3); (30, 10, 4)]]
  ∧ Examples.strip
    = [[(0, 0, 0); (10, 0, 1); (20, 0, 2); (30, 0, 3)];
       [(0, 10, 1); (10, 10, 2); (20, 10, 3); (30, 10, 4)]].
Proof.
  split_and!.
  - by vm_compute.
  - intros i j. unfold Spec.in_clipped, Spec.clipped.
    change (shape1 Examples.strip) with 4.
    change (FaceBoundingBox.x Examples.left_of_frame) with (-3).
    change (FaceBoundingBox.width Examples.left_of_frame) with 1.
    destruct (Z.leb_spec (0 `max` (-3)) j), (Z.ltb_spec j (4 `min` (-3 + 1)));
      try done; lia.
  - intros GaussianBlur. reflexivity.
  - by vm_compute.
  - by vm_compute.
Qed.

(** The same on a 100x100 frame: a 10x10 region at x = -30 ends at
    column -20, and the code blurs rows 0 to 9 of columns 0 to 79. *)
Example region_left_of_large_frame :
  let frame := Examples.ramp 100 100 in
  let mask := FaceBoundingBox.make (-30) 0 10 10 1.0%float in
  let result := apply_blur_to_frame Toy.mean_blur frame [mask] 15 in
  Spec.clipped_empty frame mask = true
  ∧ pixel_at frame 0 0 = Some (0, 0, 0)
  ∧ pixel_at result 0 0 = Some (395, 45, 44)
  ∧ pixel_at result 9 79 = Some (395, 45, 44)
  ∧ pixel_at result 9 80 = pixel_at frame 9 80
  ∧ pixel_at result 10 0 = pixel_at frame 10 0.
Proof. by vm_compute. Qed.

(** ** Render loop (C5, C6, C7) *)

Section RenderFacts.

Variable GaussianBlur : Frame → Z → Frame.

Implicit Types (masks_data : gmap PyKey (list MaskDict)) (run : Run).

Lemma blurred_stream_length to_box masks_data blur_strength n stream :
  length (Spec.blurred_stream GaussianBlur to_box masks_data blur_strength
            n stream) = length stream.
Proof.
  revert n. induction stream as [|f stream IH]; intros n; cbn; [done|].
  by rewrite IH.
Qed.

Lemma write_opened (w : VideoWriter) frame :
  out_isOpened w = true →
  out_isOpened (write w frame) = true
  ∧ encoded (write w frame) = encoded w ++ [frame].
Proof. unfold write. by intros ->. Qed.

(** What the loop of [process_video] leaves behind, started at frame
    [n] on an opened writer: [k] frames were read and the same [k] frames
    were written, blurred, in the order read; the loop either went
    through the whole stream or stopped on the division by a reported
    frame count of zero. *)
Lemma process_loop_trace masks_data blur_strength progress_callback
    total_frames stream n run :
  out_isOpened (out run) = true →
  let r := process_loop GaussianBlur masks_data blur_strength
             progress_callback total_frames stream n run in
  ∃ k : nat,
    (k ≤ length stream)%nat
    ∧ frames_read r = (frames_read run + k)%nat
    ∧ written r = written run ++
        Spec.blurred_stream GaussianBlur box_of_mask masks_data
          blur_strength n (take k stream)
    ∧ (outcome r = outcome run ∧ k = length stream
       ∨ outcome r = inl Py.ZeroDivisionError
         ∧ progress_callback = true ∧ total_frames = 0).
Proof.
  revert n run. induction stream as [|frame stream IH]; intros n run Hopen.
  - exists 0%nat. cbn. unfold written. rewrite app_nil_r.
    split_and!; [lia | lia | done | by left].
  - cbn [process_loop].
    destruct (write_opened (out run)
      (blurred_frame GaussianBlur box_of_mask masks_data blur_strength n frame)
      Hopen) as [Hopen' Henc].
    destruct (progress_callback && (n `mod` 10 =? 0)) eqn:Hcb.
    + unfold Py.truediv. case_decide as Htotal.
      * exists 1%nat. cbn. unfold written. cbn. rewrite Henc.
        apply andb_prop in Hcb as [-> _].
        split_and!; [lia | lia | done | by right].
      * cbn zeta.
        match goal with |- context [process_loop _ _ _ _ _ _ _ ?run'] =>
          destruct (IH (n + 1) run' Hopen') as (k & Hk & Hread & Hwr & Hout)
        end.
        exists (S k). cbn in Hread, Hwr, Hout |- *.
        rewrite Hread. unfold written in Hwr |- *. rewrite Hwr. cbn.
        rewrite Henc, <- app_assoc. cbn.
        split_and!; [lia | lia | done |].
        destruct Hout as [[-> ->] | ?]; [by left | by right].
    + match goal with |- context [process_loop _ _ _ _ _ _ _ ?run'] =>
        destruct (IH (n + 1) run' Hopen') as (k & Hk & Hread & Hwr & Hout)
      end.
      exists (S k). cbn in Hread, Hwr, Hout |- *.
      rewrite Hread. unfold written in Hwr |- *. rewrite Hwr. cbn.
      rewrite Henc, <- app_assoc. cbn.
      split_and!; [lia | lia | done |].
      destruct Hout as [[-> ->] | ?]; [by left | by right].
Qed.

End RenderFacts.

Section RenderClaims.

Variable GaussianBlur : Frame → Z → Frame.

Implicit Types (masks_data : gmap PyKey (list MaskDict)) (run : Run).

(** With a callback and a reported frame count other than zero, the
    callback receives [(index + 1) / frame_count * 100] for every index
    that is a multiple of ten, in increasing order of index; without a
    callback nothing is reported. *)
Lemma process_loop_reported masks_data blur_strength progress_callback
    total_frames stream n run :
  total_frames ≠ 0 →
  reported (process_loop GaussianBlur masks_data blur_strength
              progress_callback total_frames stream n run)
  = reported run ++
      if progress_callback
      then Spec.progress_values total_frames n (length stream)
      else [].
Proof.
  intros Htotal. revert n run.
  induction stream as [|frame stream IH]; intros n run.
  - cbn. by destruct progress_callback; rewrite app_nil_r.
  - cbn [process_loop length]. unfold Spec.progress_values.
    rewrite seqZ_cons by lia.
    replace (Z.pred (Z.of_nat (S (length stream))))
      with (Z.of_nat (length stream)) by lia.
    rewrite filter_cons. unfold Py.truediv.
    destruct progress_callback; cbn [andb].
    + destruct (Z.eqb_spec (n `mod` 10) 0) as [Hn|Hn].
      * rewrite decide_False by done. rewrite decide_True by done.
        cbn zeta. rewrite IH. cbn. by rewrite <- app_assoc.
      * rewrite decide_False by done. by rewrite IH.
    + by rewrite IH.
Qed.

End RenderClaims.

(** C5. Whatever the container reports as its frame count, a render
    writes exactly the frames it read, each blurred as the schedule says
    for its index, in the order read; when it returns [True] it has read
    the whole stream, so the output has as many frames as the reader
    yielded. It does return [True] as soon as source and sink open and
    either no callback is passed or the reported frame count is not
    zero. *)
Theorem render_writes_each_frame_read
    (GaussianBlur : Frame → Z → Frame) (cap : VideoCapture)
    (output_creatable : bool) (masks_data : gmap PyKey (list MaskDict))
    (blur_strength : Z) (progress_callback : bool) :
  let r := process_video GaussianBlur cap output_creatable masks_data
             blur_strength progress_callback in
  written r
  = Spec.blurred_stream GaussianBlur box_of_mask masks_data blur_strength 0
      (take (frames_read r) (stream cap))
  ∧ length (written r) = frames_read r
  ∧ (outcome r = inr true → frames_read r = length (stream cap))
  ∧ (path_exists cap = true → cap_isOpened cap = true →
     output_creatable = true →
     progress_callback = false ∨ CAP_PROP_FRAME_COUNT cap ≠ 0 →
     outcome r = inr true).
Proof.
  unfold process_video.
  destruct (path_exists cap); cbn [negb].
  2: { split_and!; [done | done | done | done]. }
  destruct (cap_isOpened cap); cbn [negb].
  2: { split_and!; [done | done | done | done]. }
  destruct output_creatable; cbn [VideoWriter_new out_isOpened negb].
  2: { split_and!; [done | done | done | done]. }
  match goal with |- context [process_loop _ _ _ _ ?t ?s ?n ?run] =>
    destruct (process_loop_trace GaussianBlur masks_data blur_strength
                progress_callback t s n run eq_refl)
      as (k & Hk & Hread & Hwr & Hout)
  end.
  cbn in Hread, Hwr, Hout. cbn zeta. rewrite Hread, Hwr.
  split_and!.
  - done.
  - rewrite blurred_stream_length, length_take. lia.
  - intros Hok. destruct Hout as [[_ ->] | [Hexn _]]; [done|].
    rewrite Hexn in Hok. discriminate Hok.
  - intros _ _ _ Hcb. destruct Hout as [[-> _] | (_ & Hcb' & Hzero)]; [done|].
    destruct Hcb; congruence.
Qed.

(** The render of a source that yields eleven frames while its container
    reports five has eleven frames. *)
Example render_of_underreported_clip :
  let r := process_video Toy.mean_blur Examples.underreported_clip true ∅
             15 false in
  outcome r = inr true ∧ length (written r) = 11%nat.
Proof. by vm_compute. Qed.

(** C6, at the failing input: a source that yields eleven frames while
    its container reports five. The callback is called at frames 0 and
    10; the second value is [11 / 5 * 100], above 100. With a reported
    count of zero the division raises at frame 0, after that frame was
    written. *)
Theorem progress_exceeds_hundred :
  reported (process_video Toy.mean_blur Examples.underreported_clip true ∅
              15 true)
  = [20%float; 220.00000000000003%float]
  ∧ PrimFloat.ltb 100%float 220.00000000000003%float = true
  ∧ (let r := process_video Toy.mean_blur Examples.uncounted_clip true ∅
                15 true in
     outcome r = inl Py.ZeroDivisionError
     ∧ reported r = []
     ∧ frames_read r = 1%nat
     ∧ length (written r) = 1%nat).
Proof. by vm_compute. Qed.

(** X3: the part of C6 that the code does keep: with a callback and a
    reported frame count other than zero, the values reported are
    [(index + 1) / frame_count * 100] for the indices 0, 10, 20, ... of
    the frames read, in that order; without a callback nothing is
    reported. *)
Theorem progress_stride_and_formula
    (GaussianBlur : Frame → Z → Frame) (cap : VideoCapture)
    (masks_data : gmap PyKey (list MaskDict)) (blur_strength : Z) :
  path_exists cap = true →
  cap_isOpened cap = true →
  CAP_PROP_FRAME_COUNT cap ≠ 0 →
  reported (process_video GaussianBlur cap true masks_data blur_strength true)
  = Spec.progress_values (CAP_PROP_FRAME_COUNT cap) 0 (length (stream cap))
  ∧ reported (process_video GaussianBlur cap true masks_data blur_strength
                false)
    = [].
Proof.
  intros Hexists Hopen Htotal. unfold process_video.
  rewrite Hexists, Hopen. cbn [negb VideoWriter_new out_isOpened].
  by rewrite !process_loop_reported.
Qed.

(** The statement above on [Examples.underreported_clip]: indices 0 and
    10 of eleven frames. *)
Lemma progress_stride_and_formula_witness :
  reported (process_video Toy.mean_blur Examples.underreported_clip true ∅
              15 true)
  = Spec.progress_values 5 0 11
  ∧ reported (process_video Toy.mean_blur Examples.underreported_clip true ∅
                15 false)
    = [].
Proof.
  apply (progress_stride_and_formula Toy.mean_blur
           Examples.underreported_clip ∅ 15);
    [reflexivity | reflexivity | by vm_compute].
Defined.

(** ** Preview loop (C2, C7) *)

Section PreviewFacts.

Variable GaussianBlur : Frame → Z → Frame.
Variable resize : Frame → Z → Z → Frame.

Implicit Types (masks_data : gmap PyKey (list MaskDict)) (run : Run).

(** With a target size that [cv2.resize] accepts, the loop of
    [generate_preview] reads [min(remaining, len(stream))] frames and
    hands each, blurred and then resized, to the writer; it never raises.
    A writer that could not be created stays as it was. *)
Lemma preview_loop_trace masks_data blur_strength preview_width
    preview_height remaining stream n run :
  0 < preview_width → 0 < preview_height →
  let r := preview_loop GaussianBlur resize masks_data blur_strength
             preview_width preview_height remaining stream n run in
  let k := Nat.min remaining (length stream) in
  outcome r = outcome run
  ∧ reported r = reported run
  ∧ frames_read r = (frames_read run + k)%nat
  ∧ out_isOpened (out r) = out_isOpened (out run)
  ∧ written r =
      if out_isOpened (out run)
      then written run ++
           ((λ frame, resize frame preview_width preview_height) <$>
            Spec.blurred_stream GaussianBlur box_of_mask_preview masks_data
              blur_strength n (take k stream))
      else written run.
Proof.
  intros Hw Hh. revert stream n run.
  induction remaining as [|remaining IH]; intros stream n run.
  - cbn. unfold written. destruct (out_isOpened (out run));
      rewrite ?app_nil_r; split_and!; (done || lia).
  - destruct stream as [|frame stream].
    + cbn. unfold written. destruct (out_isOpened (out run));
        rewrite ?app_nil_r; split_and!; (done || lia).
    + cbn [preview_loop].
      rewrite (proj2 (Z.ltb_lt 0 preview_width) Hw).
      rewrite (proj2 (Z.ltb_lt 0 preview_height) Hh). cbn [andb].
      match goal with |- context [preview_loop _ _ _ _ _ _ _ _ _ ?run'] =>
        destruct (IH stream (n + 1) run') as (Ho & Hrep & Hread & Hop & Hwr)
      end.
      cbn zeta in *. cbn [outcome reported frames_read out] in *.
      rewrite Ho, Hrep, Hread, Hop, Hwr.
      unfold written, write. cbn [length Nat.min take].
      destruct (out_isOpened (out run)) eqn:Hopen; cbn; rewrite ?Hopen.
      * rewrite <- app_assoc. split_and!; (done || lia).
      * split_and!; (done || lia).
Qed.

End PreviewFacts.

(** C7, at the failing input: an output path at which no writer can be
    created. [process_video] checks [out.isOpened()] and raises
    [ValueError] before a frame is read, for every source, schedule and
    strength. [generate_preview] makes no such check: on the five-frame
    source [Examples.clip] it reads the five frames, the writer ignores
    every [write], and the call returns [True] with nothing written. *)
Theorem preview_returns_true_without_sink :
  (∀ (GaussianBlur : Frame → Z → Frame) cap masks_data blur_strength
     progress_callback,
     let r := process_video GaussianBlur cap false masks_data blur_strength
                progress_callback in
     (outcome r = inl Py.FileNotFoundError ∨ outcome r = inl Py.ValueError)
     ∧ frames_read r = 0%nat ∧ written r = [])
  ∧ (let r := generate_preview Toy.mean_blur Toy.nearest_resize
                Examples.clip false ∅ 15 5 in
     outcome r = inr true
     ∧ out_isOpened (out r) = false
     ∧ frames_read r = 5%nat
     ∧ written r = []).
Proof.
  split.
  - intros GaussianBlur cap masks_data blur_strength progress_callback.
    unfold process_video.
    destruct (path_exists cap); cbn; [|by split_and!; [left|..]].
    destruct (cap_isOpened cap); cbn; by split_and!; [right|..].
  - by vm_compute.
Qed.

(** [Toy.nearest_resize] returns a frame of the size asked for. *)
Lemma nearest_resize_shape frame w h :
  0 < w → 0 < h →
  shape1 (Toy.nearest_resize frame w h) = w
  ∧ shape0 (Toy.nearest_resize frame w h) = h.
Proof.
  intros Hw Hh. unfold Toy.nearest_resize, shape0, shape1.
  rewrite length_fmap, length_seqZ. split; [|lia].
  rewrite (seqZ_cons 0 h) by lia. cbn [fmap list_fmap].
  rewrite length_fmap, length_seqZ. lia.
Qed.

(** C2, as stated, fails. At 29.97 frames per second a ten-second
    preview of a 300-frame source has [int(299.7) = 299] frames, not
    [round(299.7) = 300]; and an 854x480 source is previewed at
    [int(359.71...) = 359] rows, not 360. *)
Lemma preview_truncates :
  ¬ (∀ cap preview_duration,
       let r := generate_preview Toy.mean_blur Toy.nearest_resize cap true ∅
                  15 preview_duration in
       outcome r = inr true →
       Spec.preview_frame_count (length (stream cap)) preview_duration
         (CAP_PROP_FPS cap)
       = inr (length (written r)))
  ∧ ¬ (∀ width height, Spec.preview_dimensions width height
                       = preview_size width height)
  ∧ (let r := generate_preview Toy.mean_blur Toy.nearest_resize
                Examples.ntsc_clip true ∅ 15 10 in
     outcome r = inr true
     ∧ length (stream Examples.ntsc_clip) = 300%nat
     ∧ length (written r) = 299%nat
     ∧ Spec.preview_frame_count 300 10 (CAP_PROP_FPS Examples.ntsc_clip)
       = inr 300%nat)
  ∧ preview_size 854 480 = inr (640, 359)
  ∧ Spec.preview_dimensions 854 480 = inr (640, 360).
Proof.
  split_and!.
  - intros H. specialize (H Examples.ntsc_clip 10 eq_refl).
    vm_compute in H. discriminate H.
  - intros H. specialize (H 854 480). vm_compute in H. discriminate H.
  - by vm_compute.
  - by vm_compute.
  - by vm_compute.
Qed.

(** C2, amended. For a preview whose source opens, whose sink is created
    and whose target size is not empty: the call returns [True]; the
    number of frames written is the least of the number of frames the
    source yields, the frame count the container reports and
    [preview_duration * fps] truncated toward zero (none if that bound is
    negative); every written frame has [min(640, width)] columns and
    [preview_width * height / width], truncated toward zero, rows. The
    resize is any function that returns a frame of the size asked for. *)
Theorem preview_frame_count_and_size
    (GaussianBlur : Frame → Z → Frame) (resize : Frame → Z → Z → Frame)
    (cap : VideoCapture) (masks_data : gmap PyKey (list MaskDict))
    (blur_strength preview_duration : Z) (n preview_height : Z)
    (q : float) :
  (∀ frame w h, 0 < w → 0 < h →
     shape1 (resize frame w h) = w ∧ shape0 (resize frame w h) = h) →
  cap_isOpened cap = true →
  Py.int (PrimFloat.mul (Py.float_of_int preview_duration)
                        (CAP_PROP_FPS cap)) = inr n →
  Py.truediv (Z.min 640 (CAP_PROP_FRAME_WIDTH cap)
              * CAP_PROP_FRAME_HEIGHT cap)
             (CAP_PROP_FRAME_WIDTH cap) = inr q →
  Py.int q = inr preview_height →
  0 < Z.min 640 (CAP_PROP_FRAME_WIDTH cap) →
  0 < preview_height →
  let r := generate_preview GaussianBlur resize cap true masks_data
             blur_strength preview_duration in
  outcome r = inr true
  ∧ length (written r)
    = Nat.min (length (stream cap))
        (Z.to_nat (Z.min (CAP_PROP_FRAME_COUNT cap) n))
  ∧ Forall (λ frame,
              shape1 frame = Z.min 640 (CAP_PROP_FRAME_WIDTH cap)
              ∧ shape0 frame = preview_height)
           (written r).
Proof.
  intros Hresize Hopen Hn Hq Hph Hw Hh. unfold generate_preview.
  rewrite Hopen. cbn [negb]. unfold preview_frames, preview_size.
  rewrite Hn, Hq. cbn [mbind Py.exn_bind mret Py.exn_ret]. rewrite Hph.
  cbn [mbind Py.exn_bind mret Py.exn_ret].
  match goal with |- context [preview_loop _ _ ?md ?s ?pw ?ph ?rem ?st ?i ?run] =>
    destruct (preview_loop_trace GaussianBlur resize md s pw ph rem st i run
                Hw Hh) as (Ho & _ & _ & _ & Hwr)
  end.
  cbn zeta in *. cbn [out outcome VideoWriter_new out_isOpened] in Ho, Hwr.
  unfold written at 2 in Hwr.
  cbn [out encoded VideoWriter_new app] in Hwr.
  rewrite Ho, Hwr.
  split_and!.
  - done.
  - rewrite length_fmap, blurred_stream_length, length_take. lia.
  - apply Forall_fmap, Forall_forall. intros frame _. cbn.
    by apply Hresize.
Qed.

(** The amended C2 on [Examples.clip]: five frames of 8x8. *)
Lemma preview_frame_count_and_size_witness :
  let r := generate_preview Toy.mean_blur Toy.nearest_resize Examples.clip
             true ∅ 15 5 in
  outcome r = inr true
  ∧ length (written r) = Nat.min 5 (Z.to_nat (Z.min 5 50))
  ∧ Forall (λ frame, shape1 frame = Z.min 640 8 ∧ shape0 frame = 8)
           (written r).
Proof.
  apply (preview_frame_count_and_size Toy.mean_blur Toy.nearest_resize
           Examples.clip ∅ 15 5 50 8 8%float).
  - apply nearest_resize_shape.
  - reflexivity.
  - by vm_compute.
  - by vm_compute.
  - by vm_compute.
  - by vm_compute.
  - lia.
Defined.

(** ** Detection adapter (C8, C9, C10) *)

Section DetectionFacts.

Implicit Types (faces : list FaceBoundingBox.t).

(** What [add_margin] returns, when no conversion raises: the four
    truncations and the clamps of the source. *)
Lemma add_margin_inr margin width height r x y w h :
  add_margin margin width height r = inr (x, y, w, h) ↔
  ∃ tx ty tw th,
    Py.int (PrimFloat.sub (Py.float_of_int (left r))
              (PrimFloat.mul (Py.float_of_int (rect_width r)) margin))
      = inr tx
    ∧ Py.int (PrimFloat.sub (Py.float_of_int (top r))
                (PrimFloat.mul (Py.float_of_int (rect_height r)) margin))
      = inr ty
    ∧ Py.int (PrimFloat.mul (Py.float_of_int (rect_width r))
                (PrimFloat.add (Py.float_of_int 1)
                   (PrimFloat.mul (Py.float_of_int 2) margin)))
      = inr tw
    ∧ Py.int (PrimFloat.mul (Py.float_of_int (rect_height r))
                (PrimFloat.add (Py.float_of_int 1)
                   (PrimFloat.mul (Py.float_of_int 2) margin)))
      = inr th
    ∧ x = Z.max 0 tx
    ∧ y = Z.max 0 ty
    ∧ w = Z.min (width - x) tw
    ∧ h = Z.min (height - y) th.
Proof.
  unfold add_margin.
  destruct (Py.int (PrimFloat.sub _ (PrimFloat.mul (Py.float_of_int (rect_width r)) _)))
    as [e|tx]; cbn.
  { split; [done | by intros (? & ? & ? & ? & ? & _)]. }
  destruct (Py.int (PrimFloat.sub _ _)) as [e|ty]; cbn.
  { split; [done | by intros (? & ? & ? & ? & _ & ? & _)]. }
  destruct (Py.int (PrimFloat.mul (Py.float_of_int (rect_width r)) _))
    as [e|tw]; cbn.
  { split; [done | by intros (? & ? & ? & ? & _ & _ & ? & _)]. }
  destruct (Py.int (PrimFloat.mul _ _)) as [e|th]; cbn.
  { split; [done | by intros (? & ? & ? & ? & _ & _ & _ & ? & _)]. }
  split.
  - intros [= <- <- <- <-]. by exists tx, ty, tw, th.
  - intros (? & ? & ? & ? & [= <-] & [= <-] & [= <-] & [= <-]
            & -> & -> & -> & ->). done.
Qed.

(** A box with its margin added lies inside the frame. *)
Lemma add_margin_in_bounds margin width height r x y w h confidence :
  add_margin margin width height r = inr (x, y, w, h) →
  Spec.in_bounds width height (FaceBoundingBox.make x y w h confidence).
Proof.
  intros (tx & ty & tw & th & _ & _ & _ & _ & -> & -> & -> & ->)
    %add_margin_inr.
  unfold Spec.in_bounds. cbn. lia.
Qed.

Lemma cnn_loop_until_raise width height dets faces :
  cnn_loop width height dets faces =
  faces ++ Spec.until_raise
             (Spec.cnn_box width height <$> filter Spec.kept dets).
Proof.
  revert faces. induction dets as [|d dets IH]; intros faces.
  { cbn. by rewrite app_nil_r. }
  cbn [cnn_loop].
  destruct (PrimFloat.ltb (det_confidence d) 0.5) eqn:Hconf.
  - rewrite filter_cons_False; [apply IH|].
    unfold Spec.kept. rewrite Hconf. exact id.
  - rewrite filter_cons_True by (unfold Spec.kept; rewrite Hconf; exact I).
    rewrite fmap_cons. unfold Spec.cnn_box at 1.
    destruct (add_margin _ width height (rect d)) as [e|[[[x y] w] h]]; cbn.
    + by rewrite app_nil_r.
    + rewrite IH. by rewrite <- app_assoc.
Qed.

Lemma hog_loop_until_raise width height dets faces :
  hog_loop width height dets faces =
  faces ++ Spec.until_raise (Spec.hog_box width height <$> dets).
Proof.
  revert faces. induction dets as [|d dets IH]; intros faces; cbn.
  { by rewrite app_nil_r. }
  unfold Spec.hog_box at 1.
  destruct (add_margin _ width height d) as [e|[[[x y] w] h]]; cbn.
  - by rewrite app_nil_r.
  - rewrite IH. by rewrite <- app_assoc.
Qed.

Lemma cnn_loop_in_bounds width height dets faces :
  Forall (Spec.in_bounds width height) faces →
  Forall (Spec.in_bounds width height) (cnn_loop width height dets faces).
Proof.
  revert faces. induction dets as [|d dets IH]; intros faces Hfaces; cbn.
  { done. }
  destruct (PrimFloat.ltb _ _); [by apply IH|].
  destruct (add_margin _ width height (rect d)) as [e|[[[x y] w] h]] eqn:Hm.
  - done.
  - apply IH, Forall_app. split; [done|].
    apply Forall_singleton. by eapply add_margin_in_bounds.
Qed.

Lemma hog_loop_in_bounds width height dets faces :
  Forall (Spec.in_bounds width height) faces →
  Forall (Spec.in_bounds width height) (hog_loop width height dets faces).
Proof.
  revert faces. induction dets as [|d dets IH]; intros faces Hfaces; cbn.
  { done. }
  destruct (add_margin _ width height d) as [e|[[[x y] w] h]] eqn:Hm.
  - done.
  - apply IH, Forall_app. split; [done|].
    apply Forall_singleton. by eapply add_margin_in_bounds.
Qed.

(** When the detector raises, the frame has no detection. *)
Lemma detect_faces_raises self frame :
  Spec.detector_raises self frame → detect_faces self frame = [].
Proof.
  unfold Spec.detector_raises, detect_faces.
  destruct (cnn_detector self) as [cnn|].
  - by intros [e ->].
  - destruct (detector self) as [hog|]; [|done]. by intros [e ->].
Qed.

End DetectionFacts.

(** C10. Every box returned by [detect_faces] lies within the frame:
    [x >= 0], [y >= 0], [x + width <= frame_width] and
    [y + height <= frame_height], whatever the frame, the detector mode
    and the raw detections. *)
Theorem detected_boxes_in_bounds (self : VideoProcessor) (frame : Frame) :
  Forall (λ box,
            0 ≤ box.(FaceBoundingBox.x)
            ∧ 0 ≤ box.(FaceBoundingBox.y)
            ∧ box.(FaceBoundingBox.x) + box.(FaceBoundingBox.width)
              ≤ shape1 frame
            ∧ box.(FaceBoundingBox.y) + box.(FaceBoundingBox.height)
              ≤ shape0 frame)
         (detect_faces self frame).
Proof.
  change (Forall (Spec.in_bounds (shape1 frame) (shape0 frame))
            (detect_faces self frame)).
  unfold detect_faces.
  destruct (cnn_detector self) as [cnn|].
  - destruct (cnn _) as [e|dets]; [done|]. by apply cnn_loop_in_bounds.
  - destruct (detector self) as [hog|]; [|done].
    destruct (hog _) as [e|dets]; [done|]. by apply hog_loop_in_bounds.
Qed.

(** The bound is tight on a face next to the border: a 10x10 detection at
    (35, 35) of a 40x40 frame is cut to 6 columns and 6 rows. *)
Example detected_box_at_border :
  detect_faces (Examples.hog_reporting (mkRect 35 35 10 10))
    (Toy.grey 40 40 128)
  = [FaceBoundingBox.make 33 33 7 7 1.0%float].
Proof. by vm_compute. Qed.

Section AnalysisFacts.

Variable self : VideoProcessor.

(** The entry of frame [m] after the loop of [analyze_video], started at
    frame [n]: the faces of that frame when it is in the stream and has
    any, else whatever was there before. *)
Lemma analyze_loop_lookup stream n
    (faces_by_frame : gmap PyKey (list MaskDict)) m :
  analyze_loop self stream n faces_by_frame !! KStr (Py.str m) =
  match (if decide (n ≤ m) then stream !! Z.to_nat (m - n) else None) with
  | Some frame =>
      match detect_faces self frame with
      | [] => faces_by_frame !! KStr (Py.str m)
      | faces => Some (mask_of_box <$> faces)
      end
  | None => faces_by_frame !! KStr (Py.str m)
  end.
Proof.
  revert n faces_by_frame.
  induction stream as [|frame stream IH]; intros n faces_by_frame.
  { cbn. by case_decide. }
  cbn [analyze_loop]. rewrite IH.
  destruct (decide (m = n)) as [->|Hne].
  - rewrite decide_False by lia. rewrite decide_True by lia.
    rewrite Z.sub_diag. change (Z.to_nat 0) with 0%nat.
    change ((frame :: stream) !! 0%nat) with (Some frame). cbv beta iota.
    destruct (detect_faces self frame); [done|].
    by rewrite lookup_insert_eq.
  - assert (KStr (Py.str n) ≠ KStr (Py.str m)) as Hkey.
    { intros [= Heq]. apply (inj pretty) in Heq. lia. }
    assert ((match detect_faces self frame with
             | [] => faces_by_frame
             | _ => <[KStr (Py.str n) := mask_of_box <$> detect_faces self frame]>
                      faces_by_frame
             end) !! KStr (Py.str m) = faces_by_frame !! KStr (Py.str m))
      as Hacc.
    { destruct (detect_faces self frame); [done|].
      by rewrite lookup_insert_ne. }
    destruct (decide (n ≤ m)) as [Hle|Hgt].
    + rewrite decide_True by lia.
      replace (Z.to_nat (m - n)) with (S (Z.to_nat (m - (n + 1)))) by lia.
      change ((frame :: stream) !! S (Z.to_nat (m - (n + 1))))
        with (stream !! Z.to_nat (m - (n + 1))).
      destruct (stream !! _) as [frame'|]; [|done].
      by destruct (detect_faces self frame').
    + rewrite decide_False by lia. done.
Qed.

End AnalysisFacts.

(** C9. When the detector raises on a frame, [detect_faces] returns no
    face for it. [analyze_video] on a source that exists and opens always
    returns a result; in it a frame on which the detector raised has no
    entry, and every other frame of the stream, before or after, has
    exactly the faces detected on it (no entry when there is none). *)
Theorem detector_failure_is_not_fatal
    (self : VideoProcessor) (cap : VideoCapture) :
  path_exists cap = true →
  cap_isOpened cap = true →
  ∃ result,
    analyze_video self cap = inr result
    ∧ ∀ (i : nat) frame,
        stream cap !! i = Some frame →
        (Spec.detector_raises self frame →
           detect_faces self frame = []
           ∧ faces_by_frame result !! KStr (Py.str (Z.of_nat i)) = None)
        ∧ faces_by_frame result !! KStr (Py.str (Z.of_nat i))
          = match detect_faces self frame with
            | [] => None
            | faces => Some (mask_of_box <$> faces)
            end.
Proof.
  intros Hexists Hopen. unfold analyze_video. rewrite Hexists, Hopen.
  cbn [negb]. eexists. split; [reflexivity|].
  intros i frame Hi. cbn [faces_by_frame].
  assert (analyze_loop self (stream cap) 0 ∅ !! KStr (Py.str (Z.of_nat i))
          = match detect_faces self frame with
            | [] => None
            | faces => Some (mask_of_box <$> faces)
            end) as Hentry.
  { rewrite analyze_loop_lookup. rewrite decide_True by lia.
    replace (Z.to_nat (Z.of_nat i - 0)) with i by lia. rewrite Hi.
    destruct (detect_faces self frame); [apply lookup_empty | done]. }
  split; [|done].
  intros Hraise. apply detect_faces_raises in Hraise.
  split; [done|]. by rewrite Hentry, Hraise.
Qed.

(** C9 on [Examples.three_frames] with [Examples.flaky_cnn]: the detector
    raises on the middle frame only. *)
Lemma detector_failure_is_not_fatal_witness :
  ∃ result,
    analyze_video Examples.flaky_cnn Examples.three_frames = inr result
    ∧ ∀ (i : nat) frame,
        stream Examples.three_frames !! i = Some frame →
        (Spec.detector_raises Examples.flaky_cnn frame →
           detect_faces Examples.flaky_cnn frame = []
           ∧ faces_by_frame result !! KStr (Py.str (Z.of_nat i)) = None)
        ∧ faces_by_frame result !! KStr (Py.str (Z.of_nat i))
          = match detect_faces Examples.flaky_cnn frame with
            | [] => None
            | faces => Some (mask_of_box <$> faces)
            end.
Proof.
  apply (detector_failure_is_not_fatal Examples.flaky_cnn
           Examples.three_frames); reflexivity.
Defined.

(** On that source the detector does raise on frame 1, and frames 0 and 2
    keep their face. *)
Example analysis_of_three_frames :
  Spec.detector_raises Examples.flaky_cnn (Examples.ramp 40 40)
  ∧ (faces_by_frame <$>
       analyze_video Examples.flaky_cnn Examples.three_frames)
    = inr {[ KStr "0" := [mkMask 8 8 13 13 (Some 0.9%float)];
             KStr "2" := [mkMask 8 8 13 13 (Some 0.9%float)] ]}.
Proof.
  split.
  - exists Py.DetectorError. by vm_compute.
  - by vm_compute.
Qed.

(** C8, as stated, fails: the fields of a box are integers. A 10x10
    detection at (10, 10) with confidence 0.6 becomes, in CNN mode, the
    box at x = [int(10 - 10 * 0.15)] = [int(8.5)] = 8, while
    [max(0, x - width * margin)] is 17/2. *)
Lemma margin_is_truncated :
  ¬ (∀ self frame cnn dets,
       cnn_detector self = Some cnn →
       cnn (cvtColor_BGR2RGB frame) = inr dets →
       Forall2 (λ detection box,
                  let '(new_x, new_y, new_w, new_h) :=
                    Spec.expanded_box (15 # 100) (shape1 frame) (shape0 frame)
                      (rect detection) in
                  (inject_Z box.(FaceBoundingBox.x) == new_x)%Q
                  ∧ (inject_Z box.(FaceBoundingBox.y) == new_y)%Q
                  ∧ (inject_Z box.(FaceBoundingBox.width) == new_w)%Q
                  ∧ (inject_Z box.(FaceBoundingBox.height) == new_h)%Q)
               (filter Spec.kept dets) (detect_faces self frame))
  ∧ detect_faces (Examples.cnn_reporting 0.6%float) (Toy.grey 40 40 128)
    = [FaceBoundingBox.make 8 8 13 13 0.6%float]
  ∧ (let '(new_x, new_y, new_w, new_h) :=
       Spec.expanded_box (15 # 100) 40 40 Examples.face_rect in
     (new_x == 17 # 2)%Q ∧ (new_y == 17 # 2)%Q
     ∧ (new_w == 13 # 1)%Q ∧ (new_h == 13 # 1)%Q
     ∧ ¬ (inject_Z 8 == new_x)%Q).
Proof.
  split_and!.
  - intros H.
    specialize (H (Examples.cnn_reporting 0.6%float) (Toy.grey 40 40 128)
                  _ _ eq_refl eq_refl).
    vm_compute in H. apply Forall2_cons_1 in H as [(Hx & _) _].
    discriminate Hx.
  - by vm_compute.
  - cbn -[Qeq].
    split_and!;
      first [by vm_compute | intros H; vm_compute in H; discriminate H].
Qed.

(** C8, amended. In CNN mode the boxes are those of the detections whose
    confidence is not below 0.5, in the order reported, each with margin
    0.15 and its reported confidence; in HOG mode every detection is
    kept, with margin 0.2 and confidence 1.0. Adding the margin is
    [new_x = max(0, int(x - width * margin))],
    [new_w = min(frame_width - new_x, int(width * (1 + 2 * margin)))] and
    the same for y and height, where the arithmetic is that of binary64
    floats and [int] truncates toward zero (a conversion that raises ends
    the loop with the boxes made so far). A detection of confidence 0.4
    yields no region, one of confidence 0.6 yields one region. *)
Theorem detection_filter_and_margin
    (self : VideoProcessor) (frame : Frame) :
  (∀ cnn dets,
     cnn_detector self = Some cnn →
     cnn (cvtColor_BGR2RGB frame) = inr dets →
     detect_faces self frame =
     Spec.until_raise
       (Spec.cnn_box (shape1 frame) (shape0 frame) <$>
        filter Spec.kept dets))
  ∧ (∀ hog dets,
       cnn_detector self = None →
       detector self = Some hog →
       hog (cvtColor_BGR2RGB frame) = inr dets →
       detect_faces self frame =
       Spec.until_raise
         (Spec.hog_box (shape1 frame) (shape0 frame) <$> dets))
  ∧ (∀ margin r x y w h,
       add_margin margin (shape1 frame) (shape0 frame) r = inr (x, y, w, h) ↔
       ∃ tx ty tw th,
         Py.int (PrimFloat.sub (Py.float_of_int (left r))
                   (PrimFloat.mul (Py.float_of_int (rect_width r)) margin))
           = inr tx
         ∧ Py.int (PrimFloat.sub (Py.float_of_int (top r))
                     (PrimFloat.mul (Py.float_of_int (rect_height r)) margin))
           = inr ty
         ∧ Py.int (PrimFloat.mul (Py.float_of_int (rect_width r))
                     (PrimFloat.add (Py.float_of_int 1)
                        (PrimFloat.mul (Py.float_of_int 2) margin)))
           = inr tw
         ∧ Py.int (PrimFloat.mul (Py.float_of_int (rect_height r))
                     (PrimFloat.add (Py.float_of_int 1)
                        (PrimFloat.mul (Py.float_of_int 2) margin)))
           = inr th
         ∧ x = Z.max 0 tx
         ∧ y = Z.max 0 ty
         ∧ w = Z.min (shape1 frame - x) tw
         ∧ h = Z.min (shape0 frame - y) th)
  ∧ detect_faces (Examples.cnn_reporting 0.4%float) (Toy.grey 40 40 128) = []
  ∧ detect_faces (Examples.cnn_reporting 0.6%float) (Toy.grey 40 40 128)
    = [FaceBoundingBox.make 8 8 13 13 0.6%float]
  ∧ detect_faces (Examples.hog_reporting Examples.face_rect)
      (Toy.grey 40 40 128)
    = [FaceBoundingBox.make 8 8 14 14 1.0%float].
Proof.
  split_and!.
  - intros cnn dets Hcnn Hdets. unfold detect_faces.
    rewrite Hcnn, Hdets. apply cnn_loop_until_raise.
  - intros hog dets Hcnn Hhog Hdets. unfold detect_faces.
    rewrite Hcnn, Hhog, Hdets. apply hog_loop_until_raise.
  - intros. apply add_margin_inr.
  - by vm_compute.
  - by vm_compute.
  - by vm_compute.
Qed.

(** Binary rounding shows in the result: in HOG mode a detection 45
    pixels wide gets [int(45 * 1.4)] = [int(62.99999999999999)] = 62
    columns, not 63. *)
Example hog_width_of_45 :
  detect_faces (Examples.hog_reporting (mkRect 20 20 45 45))
    (Toy.grey 80 80 128)
  = [FaceBoundingBox.make 11 11 62 62 1.0%float].
Proof. by vm_compute. Qed.

(** * Further properties of the code *)

(** ** Kernel size *)

(** X4. The kernel handed to [cv2.GaussianBlur] is odd and at least 3
    for every integer strength, so the blur never rejects it; it is
    [2 s + 1] from strength 1 on and 3 for every smaller strength, and
    between 3 and 101 for the strengths 1 to 50 that the request models
    accept. *)
Theorem kernel_size_odd_at_least_3 (blur_strength : Z) :
  Z.odd (kernel_size blur_strength) = true
  ∧ 3 ≤ kernel_size blur_strength
  ∧ kernel_size blur_strength
    = (if decide (1 ≤ blur_strength) then 2 * blur_strength + 1 else 3)
  ∧ (if decide (1 ≤ blur_strength ≤ 50)
     then bool_decide (3 ≤ kernel_size blur_strength ≤ 101)
     else true) = true.
Proof.
  unfold kernel_size. split_and!.
  - destruct (Z.max_spec 3 (blur_strength * 2 + 1)) as [[_ ->]|[_ ->]];
      [|done].
    rewrite Z.add_comm, Z.mul_comm. by rewrite Z.odd_add_mul_2.
  - lia.
  - case_decide; lia.
  - case_decide; [|done]. apply bool_decide_eq_true. lia.
Qed.

(** ** Render, preview and the schedule *)

Section ScheduleFacts.

Variable GaussianBlur : Frame → Z → Frame.

Implicit Types (masks_data : gmap PyKey (list MaskDict)).

(** The blur of one mask reads its position and size only. *)
Lemma blur_mask_geometry frame blur_strength result_frame mask mask' :
  More.geometry mask = More.geometry mask' →
  blur_mask GaussianBlur frame blur_strength result_frame mask
  = blur_mask GaussianBlur frame blur_strength result_frame mask'.
Proof.
  unfold More.geometry, blur_mask. intros [= Hx Hy Hw Hh].
  by rewrite Hx, Hy, Hw, Hh.
Qed.

Lemma apply_blur_to_frame_geometry frame blur_strength masks masks' :
  More.geometry <$> masks = More.geometry <$> masks' →
  apply_blur_to_frame GaussianBlur frame masks blur_strength
  = apply_blur_to_frame GaussianBlur frame masks' blur_strength.
Proof.
  rewrite !apply_blur_to_frame_foldl. generalize frame at 2 4.
  revert masks'. induction masks as [|mask masks IH];
    intros [|mask' masks'] result_frame Hgeo; try done.
  rewrite !fmap_cons in Hgeo.
  assert (More.geometry mask = More.geometry mask') as Hmask by congruence.
  assert (More.geometry <$> masks = More.geometry <$> masks') as Hmasks
    by congruence.
  cbn [foldl].
  rewrite (blur_mask_geometry _ _ _ mask mask') by done. by apply IH.
Qed.

(** Render and preview blur a frame alike: the confidence that the
    preview drops does not enter the blur. *)
Lemma blurred_frame_preview masks_data blur_strength frame_number frame :
  blurred_frame GaussianBlur box_of_mask_preview masks_data blur_strength
    frame_number frame
  = blurred_frame GaussianBlur box_of_mask masks_data blur_strength
      frame_number frame.
Proof.
  unfold blurred_frame. destruct (frame_masks _ _) as [|mask masks]; [done|].
  apply apply_blur_to_frame_geometry. rewrite <- !list_fmap_compose.
  by apply list_fmap_ext.
Qed.

Lemma blurred_stream_preview masks_data blur_strength n stream :
  Spec.blurred_stream GaussianBlur box_of_mask_preview masks_data
    blur_strength n stream
  = Spec.blurred_stream GaussianBlur box_of_mask masks_data blur_strength
      n stream.
Proof.
  revert n. induction stream as [|frame stream IH]; intros n; [done|].
  cbn. by rewrite blurred_frame_preview, IH.
Qed.

Lemma blurred_stream_take to_box masks_data blur_strength n k stream :
  take k (Spec.blurred_stream GaussianBlur to_box masks_data blur_strength
            n stream)
  = Spec.blurred_stream GaussianBlur to_box masks_data blur_strength n
      (take k stream).
Proof.
  revert n k. induction stream as [|frame stream IH]; intros n [|k];
    try done.
  cbn. by rewrite IH.
Qed.

Lemma blurred_stream_lookup to_box masks_data blur_strength n stream
    (i : nat) :
  Spec.blurred_stream GaussianBlur to_box masks_data blur_strength n stream
    !! i
  = blurred_frame GaussianBlur to_box masks_data blur_strength
      (n + Z.of_nat i) <$> stream !! i.
Proof.
  revert n i. induction stream as [|frame stream IH]; intros n [|i];
    try done.
  - cbn. by rewrite Z.add_0_r.
  - cbn [Spec.blurred_stream]. rewrite !lookup_cons. rewrite IH.
    by replace (n + 1 + Z.of_nat i) with (n + Z.of_nat (S i)) by lia.
Qed.

(** What a render that goes through writes. *)
Lemma process_video_written cap masks_data blur_strength progress_callback :
  path_exists cap = true →
  cap_isOpened cap = true →
  progress_callback = false ∨ CAP_PROP_FRAME_COUNT cap ≠ 0 →
  let r := process_video GaussianBlur cap true masks_data blur_strength
             progress_callback in
  outcome r = inr true
  ∧ written r
    = Spec.blurred_stream GaussianBlur box_of_mask masks_data blur_strength
        0 (stream cap).
Proof.
  intros Hexists Hopen Hcb. unfold process_video.
  rewrite Hexists, Hopen. cbn [negb VideoWriter_new out_isOpened].
  match goal with |- context [process_loop _ _ _ _ ?t ?s ?n ?run] =>
    destruct (process_loop_trace GaussianBlur masks_data blur_strength
                progress_callback t s n run eq_refl)
      as (k & Hk & _ & Hwr & Hout)
  end.
  cbn zeta in *. unfold written at 2 in Hwr.
  cbn [out encoded VideoWriter_new app] in Hwr. rewrite Hwr.
  cbn [outcome] in Hout.
  destruct Hout as [[-> ->] | (_ & Hcb' & Hzero)].
  - by rewrite firstn_all.
  - destruct Hcb; congruence.
Qed.

End ScheduleFacts.

(** X5. A preview is the resized beginning of the render: when source
    and sinks open and the target size is not empty, the frames of the
    preview are the first [min(frame_count, int(preview_duration * fps))]
    frames of the render of the same source with the same schedule and
    strength, each passed through [cv2.resize]. In particular the
    confidence of a mask, which the preview drops, changes nothing. *)
Theorem preview_is_resized_start_of_render
    (GaussianBlur : Frame → Z → Frame) (resize : Frame → Z → Z → Frame)
    (cap : VideoCapture) (masks_data : gmap PyKey (list MaskDict))
    (blur_strength preview_duration : Z) (n preview_width preview_height : Z) :
  path_exists cap = true →
  cap_isOpened cap = true →
  preview_frames (CAP_PROP_FRAME_COUNT cap) preview_duration
    (CAP_PROP_FPS cap) = inr n →
  preview_size (CAP_PROP_FRAME_WIDTH cap) (CAP_PROP_FRAME_HEIGHT cap)
    = inr (preview_width, preview_height) →
  0 < preview_width →
  0 < preview_height →
  written (generate_preview GaussianBlur resize cap true masks_data
             blur_strength preview_duration)
  = (λ frame, resize frame preview_width preview_height)
    <$> take (Z.to_nat n)
          (written (process_video GaussianBlur cap true masks_data
                      blur_strength false)).
Proof.
  intros Hexists Hopen Hn Hsize Hw Hh.
  destruct (process_video_written GaussianBlur cap masks_data blur_strength
              false Hexists Hopen (or_introl eq_refl)) as [_ ->].
  unfold generate_preview. rewrite Hopen, Hn, Hsize. cbn [negb].
  match goal with |- context [preview_loop _ _ ?md ?s ?pw ?ph ?rem ?st ?i ?run] =>
    destruct (preview_loop_trace GaussianBlur resize md s pw ph rem st i run
                Hw Hh) as (_ & _ & _ & _ & Hwr)
  end.
  cbn zeta in Hwr. cbn [out VideoWriter_new out_isOpened] in Hwr.
  unfold written at 2 in Hwr. cbn [out encoded VideoWriter_new app] in Hwr.
  rewrite Hwr, blurred_stream_preview, blurred_stream_take.
  do 2 f_equal. rewrite <- take_take.
  by rewrite firstn_all.
Qed.

(** X5 on [Examples.ntsc_clip]: the 299 frames of a ten-second preview. *)
Lemma preview_is_resized_start_of_render_witness :
  written (generate_preview Toy.mean_blur Toy.nearest_resize
             Examples.ntsc_clip true ∅ 15 10)
  = (λ frame, Toy.nearest_resize frame 2 2)
    <$> take (Z.to_nat 299)
          (written (process_video Toy.mean_blur Examples.ntsc_clip true ∅
                      15 false)).
Proof.
  apply (preview_is_resized_start_of_render Toy.mean_blur Toy.nearest_resize
           Examples.ntsc_clip ∅ 15 10 299 2 2);
    first [reflexivity | by vm_compute | lia].
Defined.

(** X6. A render that goes through writes one frame per frame of the
    source, and a frame for whose index the schedule holds no region
    (no entry under [str(index)], or an empty list) is written exactly as
    read. With an empty schedule the output is the source, frame for
    frame. *)
Theorem unscheduled_frames_are_written_as_read
    (GaussianBlur : Frame → Z → Frame) (cap : VideoCapture)
    (masks_data : gmap PyKey (list MaskDict)) (blur_strength : Z)
    (progress_callback : bool) :
  path_exists cap = true →
  cap_isOpened cap = true →
  progress_callback = false ∨ CAP_PROP_FRAME_COUNT cap ≠ 0 →
  let r := process_video GaussianBlur cap true masks_data blur_strength
             progress_callback in
  length (written r) = length (stream cap)
  ∧ (∀ (i : nat) frame,
       stream cap !! i = Some frame →
       frame_masks masks_data (Z.of_nat i) = [] →
       written r !! i = Some frame)
  ∧ ((∀ i : nat, frame_masks masks_data (Z.of_nat i) = []) →
     written r = stream cap).
Proof.
  intros Hexists Hopen Hcb.
  destruct (process_video_written GaussianBlur cap masks_data blur_strength
              progress_callback Hexists Hopen Hcb) as [_ Hwr].
  cbn zeta in *. rewrite Hwr.
  assert (∀ (i : nat) frame,
            stream cap !! i = Some frame →
            frame_masks masks_data (Z.of_nat i) = [] →
            Spec.blurred_stream GaussianBlur box_of_mask masks_data
              blur_strength 0 (stream cap) !! i = Some frame) as Hsame.
  { intros i frame Hi Hnone. rewrite blurred_stream_lookup, Hi. cbn.
    unfold blurred_frame. by rewrite Z.add_0_l, Hnone. }
  split_and!.
  - apply blurred_stream_length.
  - done.
  - intros Hnone. apply list_eq. intros i.
    destruct (stream cap !! i) as [frame|] eqn:Hi.
    + by apply Hsame.
    + apply lookup_ge_None. rewrite blurred_stream_length.
      by apply lookup_ge_None.
Qed.

(** X6 on [Examples.clip] with the schedule [{"3": [centre_mask]}]. *)
Lemma unscheduled_frames_are_written_as_read_witness :
  let r := process_video Toy.mean_blur Examples.clip true
             {[ KStr "3" := [Examples.centre_mask] ]} 15 true in
  length (written r) = length (stream Examples.clip)
  ∧ (∀ (i : nat) frame,
       stream Examples.clip !! i = Some frame →
       frame_masks {[ KStr "3" := [Examples.centre_mask] ]} (Z.of_nat i) = [] →
       written r !! i = Some frame)
  ∧ ((∀ i : nat,
        frame_masks {[ KStr "3" := [Examples.centre_mask] ]} (Z.of_nat i) = []) →
     written r = stream Examples.clip).
Proof.
  apply (unscheduled_frames_are_written_as_read Toy.mean_blur Examples.clip
           {[ KStr "3" := [Examples.centre_mask] ]} 15 true);
    [reflexivity | reflexivity | right; by vm_compute].
Defined.

(** The scenario of the schedule above: five frames out, frame 3 changed
    inside the region, the four others as read. *)
Example render_of_clip_with_one_region :
  let r := process_video Toy.mean_blur Examples.clip true
             {[ KStr "3" := [Examples.centre_mask] ]} 15 true in
  outcome r = inr true
  ∧ length (written r) = 5%nat
  ∧ (written r !! 3%nat ≫= λ f, pixel_at f 2 2) = Some (35, 35, 7)
  ∧ (stream Examples.clip !! 3%nat ≫= λ f, pixel_at f 2 2) = Some (20, 20, 4).
Proof. by vm_compute. Qed.

(** ** From analysis to render *)

Lemma box_of_mask_of_box (box : FaceBoundingBox.t) :
  box_of_mask (mask_of_box box) = box.
Proof. by destruct box. Qed.

Section AnalysisRender.

Variable GaussianBlur : Frame → Z → Frame.
Variable self : VideoProcessor.

(** What a render wrote is the blurred beginning of the stream, as long
    as the number of frames it read. *)
Lemma process_video_read cap output_creatable
    (masks_data : gmap PyKey (list MaskDict)) blur_strength
    progress_callback :
  let r := process_video GaussianBlur cap output_creatable masks_data
             blur_strength progress_callback in
  written r
  = take (frames_read r)
      (Spec.blurred_stream GaussianBlur box_of_mask masks_data blur_strength
         0 (stream cap)).
Proof.
  cbn zeta. rewrite blurred_stream_take. unfold process_video.
  destruct (path_exists cap); cbn [negb]; [|done].
  destruct (cap_isOpened cap); cbn [negb]; [|done].
  destruct output_creatable; cbn [VideoWriter_new out_isOpened negb];
    [|done].
  match goal with |- context [process_loop _ _ _ _ ?t ?s ?n ?run] =>
    destruct (process_loop_trace GaussianBlur masks_data blur_strength
                progress_callback t s n run eq_refl)
      as (k & _ & Hread & Hwr & _)
  end.
  cbn in Hread, Hwr. by rewrite Hread, Hwr.
Qed.

(** With the schedule of the analysis, the blurred stream is the stream
    blurred on the faces detected on each frame. *)
Lemma blurred_stream_of_analysis stream blur_strength :
  Spec.blurred_stream GaussianBlur box_of_mask
    (analyze_loop self stream 0 ∅) blur_strength 0 stream
  = (λ frame,
       apply_blur_to_frame GaussianBlur frame (detect_faces self frame)
         blur_strength)
    <$> stream.
Proof.
  apply list_eq. intros i. rewrite blurred_stream_lookup, list_lookup_fmap.
  destruct (stream !! i) as [frame|] eqn:Hi; [|done]. cbn. f_equal.
  unfold blurred_frame, frame_masks. rewrite Z.add_0_l.
  rewrite analyze_loop_lookup. rewrite decide_True by lia.
  replace (Z.to_nat (Z.of_nat i - 0)) with i by lia. rewrite Hi.
  destruct (detect_faces self frame) as [|face faces] eqn:Hfaces.
  - by rewrite lookup_empty.
  - cbn [default fmap list_fmap]. unfold id. cbv iota.
    rewrite box_of_mask_of_box. f_equal. f_equal.
    rewrite <- list_fmap_compose. rewrite <- (list_fmap_id faces) at 2.
    apply list_fmap_ext. intros ? box _. apply box_of_mask_of_box.
Qed.

End AnalysisRender.

(** X7. Analysis and render compose. When [analyze_video] returned a
    result for a source, a render of that source with the result's
    [faces_by_frame] as the schedule writes, for the frames it reads, in
    order, each frame blurred on exactly the boxes [detect_faces] finds on
    it (unchanged when it finds none). When the sink is created and either
    no callback is passed or the reported frame count is not zero, it
    returns [True] and has written every frame of the source. When the
    sink cannot be created it raises [ValueError] with nothing written.
    With a callback and a reported frame count of zero it raises
    [ZeroDivisionError] after the first frame was written (and returns
    [True] with nothing written when the source yields no frame). *)
Theorem render_of_analysis_blurs_detected_faces
    (GaussianBlur : Frame → Z → Frame) (self : VideoProcessor)
    (cap : VideoCapture) (output_creatable : bool) (blur_strength : Z)
    (progress_callback : bool) (result : AnalysisResult) :
  analyze_video self cap = inr result →
  let r := process_video GaussianBlur cap output_creatable
             (faces_by_frame result) blur_strength progress_callback in
  let blurred :=
    (λ frame,
       apply_blur_to_frame GaussianBlur frame (detect_faces self frame)
         blur_strength)
    <$> stream cap in
  written r = take (frames_read r) blurred
  ∧ (output_creatable = true →
     progress_callback = false ∨ CAP_PROP_FRAME_COUNT cap ≠ 0 →
     outcome r = inr true ∧ written r = blurred)
  ∧ (output_creatable = false →
     outcome r = inl Py.ValueError ∧ written r = [])
  ∧ (output_creatable = true → progress_callback = true →
     CAP_PROP_FRAME_COUNT cap = 0 →
     outcome r
     = (if bool_decide (stream cap = []) then inr true
        else inl Py.ZeroDivisionError)
     ∧ written r = take 1 blurred).
Proof.
  intros Hanalysis. unfold analyze_video in Hanalysis.
  destruct (path_exists cap) eqn:Hexists; [|done].
  destruct (cap_isOpened cap) eqn:Hopen; [|done].
  cbn [negb] in Hanalysis. injection Hanalysis as <-. cbn [faces_by_frame].
  cbn zeta.
  assert (∀ creatable callback,
            let r := process_video GaussianBlur cap creatable
                       (analyze_loop self (stream cap) 0 ∅) blur_strength
                       callback in
            written r
            = take (frames_read r)
                ((λ frame,
                    apply_blur_to_frame GaussianBlur frame
                      (detect_faces self frame) blur_strength)
                 <$> stream cap)) as Hread.
  { intros creatable callback. cbn zeta.
    by rewrite process_video_read, blurred_stream_of_analysis. }
  split_and!.
  - apply Hread.
  - intros -> Hcb.
    destruct (process_video_written GaussianBlur cap
                (analyze_loop self (stream cap) 0 ∅) blur_strength
                progress_callback Hexists Hopen Hcb) as [Hout Hwr].
    cbn zeta in *. split; [done|].
    by rewrite Hwr, blurred_stream_of_analysis.
  - intros ->. unfold process_video. rewrite Hexists, Hopen. done.
  - intros -> -> Hzero.
    specialize (Hread true true). cbn zeta in Hread. rewrite Hread.
    unfold process_video. rewrite Hexists, Hopen, Hzero.
    cbn [negb VideoWriter_new out_isOpened].
    destruct (stream cap) as [|frame stream]; [done|].
    cbn [process_loop]. done.
Qed.

(** X7 on [Examples.three_frames] with [Examples.flaky_cnn]. *)
Lemma render_of_analysis_blurs_detected_faces_witness :
  let r := process_video Toy.mean_blur Examples.three_frames true
             (faces_by_frame More.three_frames_analysis) 15 true in
  let blurred :=
    (λ frame,
       apply_blur_to_frame Toy.mean_blur frame
         (detect_faces Examples.flaky_cnn frame) 15)
    <$> stream Examples.three_frames in
  written r = take (frames_read r) blurred
  ∧ (true = true →
     true = false ∨ CAP_PROP_FRAME_COUNT Examples.three_frames ≠ 0 →
     outcome r = inr true ∧ written r = blurred)
  ∧ (true = false →
     outcome r = inl Py.ValueError ∧ written r = [])
  ∧ (true = true → true = true →
     CAP_PROP_FRAME_COUNT Examples.three_frames = 0 →
     outcome r
     = (if bool_decide (stream Examples.three_frames = []) then inr true
        else inl Py.ZeroDivisionError)
     ∧ written r = take 1 blurred).
Proof.
  apply (render_of_analysis_blurs_detected_faces Toy.mean_blur
           Examples.flaky_cnn Examples.three_frames true 15 true
           More.three_frames_analysis).
  by vm_compute.
Defined.

(** The three outcomes on [Examples.three_frames]: a sink that cannot be
    created, and a container that reports no frame count. *)
Example render_of_analysis_without_sink_or_count :
  let uncounted :=
    {| path_exists := true;
       cap_isOpened := true;
       CAP_PROP_FPS := 10%float;
       CAP_PROP_FRAME_COUNT := 0;
       CAP_PROP_FRAME_WIDTH := 40;
       CAP_PROP_FRAME_HEIGHT := 40;
       stream := stream Examples.three_frames |} in
  let schedule := faces_by_frame More.three_frames_analysis in
  let no_sink := process_video Toy.mean_blur Examples.three_frames false
                   schedule 15 true in
  let no_count := process_video Toy.mean_blur uncounted true schedule 15
                    true in
  (faces_by_frame <$> analyze_video Examples.flaky_cnn uncounted)
  = inr schedule
  ∧ outcome no_sink = inl Py.ValueError
  ∧ written no_sink = []
  ∧ outcome no_count = inl Py.ZeroDivisionError
  ∧ length (written no_count) = 1%nat.
Proof. by vm_compute. Qed.

(** ** The key conversion of the API layer, continued *)

Section ConversionFacts.

Implicit Types (items : list (PyKey * list FaceBoundingBox.t)).
Implicit Types (acc : gmap PyKey (list MaskDict)).

Lemma conversion_lookup_int items acc n :
  foldl (λ masks_dict '(frame_key, face_boxes),
           <[KStr (str_key frame_key) := mask_of_box <$> face_boxes]>
             masks_dict) acc items !! KInt n
  = acc !! KInt n.
Proof.
  revert acc. induction items as [|[k bs] items IH]; intros acc; [done|].
  cbn [foldl]. rewrite IH. by rewrite lookup_insert_ne.
Qed.

Lemma conversion_lookup_absent items acc s :
  s ∉ str_key <$> items.*1 →
  foldl (λ masks_dict '(frame_key, face_boxes),
           <[KStr (str_key frame_key) := mask_of_box <$> face_boxes]>
             masks_dict) acc items !! KStr s
  = acc !! KStr s.
Proof.
  revert acc. induction items as [|[k bs] items IH]; intros acc Hs; [done|].
  cbn [foldl]. cbn in Hs. apply not_elem_of_cons in Hs as [Hne Hs].
  rewrite IH by done. rewrite lookup_insert_ne; [done|]. congruence.
Qed.

Lemma conversion_lookup_present items acc k bs :
  NoDup (str_key <$> items.*1) →
  (k, bs) ∈ items →
  foldl (λ masks_dict '(frame_key, face_boxes),
           <[KStr (str_key frame_key) := mask_of_box <$> face_boxes]>
             masks_dict) acc items !! KStr (str_key k)
  = Some (mask_of_box <$> bs).
Proof.
  revert acc. induction items as [|[k' bs'] items IH]; intros acc Hnodup Hin.
  { by apply elem_of_nil in Hin. }
  cbn in Hnodup. apply NoDup_cons in Hnodup as [Hfresh Hnodup].
  cbn [foldl]. apply elem_of_cons in Hin as [[= <- <-] | Hin].
  - rewrite conversion_lookup_absent by done. by rewrite lookup_insert_eq.
  - by apply IH.
Qed.

End ConversionFacts.

(** X8. The schedule that the endpoints hand to the processor has string
    keys only. When no two keys of the request have the same [str], it
    holds under [str(key)] the boxes the request held under [key], field
    for field, and nothing under any other string; so a frame [n] of the
    request, keyed ["n"] or [n], is blurred on those boxes. *)
Theorem converted_schedule_holds_the_request
    (items : list (PyKey * list FaceBoundingBox.t)) :
  NoDup (str_key <$> items.*1) →
  (∀ n, masks_dict_of items !! KInt n = None)
  ∧ (∀ k bs, (k, bs) ∈ items →
       masks_dict_of items !! KStr (str_key k) = Some (mask_of_box <$> bs)
       ∧ box_of_mask <$> (mask_of_box <$> bs) = bs)
  ∧ (∀ s, s ∉ str_key <$> items.*1 → masks_dict_of items !! KStr s = None)
  ∧ (∀ n bs, (KInt n, bs) ∈ items ∨ (KStr (Py.str n), bs) ∈ items →
       frame_masks (masks_dict_of items) n = mask_of_box <$> bs).
Proof.
  intros Hnodup. unfold masks_dict_of. split_and!.
  - intros n. by rewrite conversion_lookup_int.
  - intros k bs Hin. split; [by apply conversion_lookup_present|].
    rewrite <- list_fmap_compose. rewrite <- (list_fmap_id bs) at 2.
    apply list_fmap_ext. intros ? box _. apply box_of_mask_of_box.
  - intros s Hs. by rewrite conversion_lookup_absent.
  - intros n bs [Hin|Hin]; unfold frame_masks.
    + by rewrite (conversion_lookup_present items ∅ (KInt n) bs).
    + by rewrite (conversion_lookup_present items ∅ (KStr (Py.str n)) bs).
Qed.

(** X8 on a request with one integer and one string key. *)
Lemma converted_schedule_holds_the_request_witness :
  let items :=
    [(KInt 3, [Examples.first_region]); (KStr "7", [Examples.second_region])] in
  (∀ n, masks_dict_of items !! KInt n = None)
  ∧ (∀ k bs, (k, bs) ∈ items →
       masks_dict_of items !! KStr (str_key k) = Some (mask_of_box <$> bs)
       ∧ box_of_mask <$> (mask_of_box <$> bs) = bs)
  ∧ (∀ s, s ∉ str_key <$> items.*1 → masks_dict_of items !! KStr s = None)
  ∧ (∀ n bs, (KInt n, bs) ∈ items ∨ (KStr (Py.str n), bs) ∈ items →
       frame_masks (masks_dict_of items) n = mask_of_box <$> bs).
Proof.
  apply (converted_schedule_holds_the_request
           [(KInt 3, [Examples.first_region]);
            (KStr "7", [Examples.second_region])]).
  apply (bool_decide_unpack _). by vm_compute.
Defined.

(** Two keys with the same [str] collide: the later item of the request
    replaces the earlier one. *)
Example colliding_keys_later_wins :
  frame_masks
    (masks_dict_of [(KInt 3, [Examples.first_region]);
                    (KStr "3", [Examples.second_region])]) 3
  = [mask_of_box Examples.second_region].
Proof. by vm_compute. Qed.

(** ** The constructor and the model lookup *)

Lemma first_existing_Some path_exists paths path :
  first_existing path_exists paths = Some path →
  ∃ i : nat,
    paths !! i = Some path
    ∧ path_exists path = true
    ∧ ∀ (j : nat) earlier,
        (j < i)%nat → paths !! j = Some earlier → path_exists earlier = false.
Proof.
  induction paths as [|p paths IH]; [done|]. cbn [first_existing].
  destruct (path_exists p) eqn:Hp.
  - intros [= <-]. exists 0%nat. split_and!; [done|done|]. lia.
  - intros Hrest. destruct (IH Hrest) as (i & Hi & Hex & Hearlier).
    exists (S i). split_and!; [done|done|].
    intros [|j] earlier Hj Hlook.
    + cbn in Hlook. by injection Hlook as <-.
    + cbn in Hlook. apply (Hearlier j); [lia|done].
Qed.

Lemma first_existing_None path_exists paths :
  first_existing path_exists paths = None →
  ∀ path, path ∈ paths → path_exists path = false.
Proof.
  induction paths as [|p paths IH]; intros Hnone path Hin.
  { by apply elem_of_nil in Hin. }
  cbn [first_existing] in Hnone. destruct (path_exists p) eqn:Hp; [done|].
  apply elem_of_cons in Hin as [->|Hin]; [done|]. by apply IH.
Qed.

(** X9. [_find_cnn_model] returns the first of its five candidates that
    exists, in the order written: the three names relative to the working
    directory come before the two beside the module; it returns [None]
    exactly when none of the five exists. *)
Theorem cnn_model_is_first_candidate_found
    (path_exists : string → bool) (module_dir : string) :
  match _find_cnn_model path_exists module_dir with
  | Some path =>
      ∃ i : nat,
        possible_paths module_dir !! i = Some path
        ∧ path_exists path = true
        ∧ ∀ (j : nat) earlier,
            (j < i)%nat →
            possible_paths module_dir !! j = Some earlier →
            path_exists earlier = false
  | None =>
      ∀ path, path ∈ possible_paths module_dir → path_exists path = false
  end.
Proof.
  unfold _find_cnn_model.
  destruct (first_existing _ _) as [path|] eqn:Hfound.
  - by apply first_existing_Some.
  - by apply first_existing_None.
Qed.

(** A working-directory copy of the model shadows the one beside the
    module. *)
Example cwd_model_shadows_module_model :
  _find_cnn_model
    (λ path, bool_decide (path = "./mmod_human_face_detector.dat")
             || bool_decide (path = "/app/backend/mmod_human_face_detector.dat"))
    "/app/backend"
  = Some "./mmod_human_face_detector.dat"
  ∧ _find_cnn_model
      (λ path, bool_decide (path = "/app/backend/models/mmod_human_face_detector.dat"))
      "/app/backend"
    = Some "/app/backend/models/mmod_human_face_detector.dat".
Proof. by vm_compute. Qed.

(** X10. A constructor call that returns has set exactly one of the two
    detectors: the CNN one when [use_cnn] is set and a model file is
    found, the HOG one otherwise, so [use_cnn=True] without a model file
    falls back to HOG without an error. It raises only [ImportError], when
    [dlib] cannot be imported, or what loading the model file raised. *)
Theorem constructor_sets_exactly_one_detector
    (dlib : option Dlib) (path_exists : string → bool)
    (module_dir : string) (use_cnn : bool) :
  match VideoProcessor_init dlib path_exists module_dir use_cnn with
  | inr self =>
      (is_Some (cnn_detector self) ↔ detector self = None)
      ∧ (is_Some (cnn_detector self)
         ↔ use_cnn = true
           ∧ ∃ path, path ∈ possible_paths module_dir
                     ∧ path_exists path = true)
      ∧ (∀ hog, detector self = Some hog →
           ∃ d, dlib = Some d ∧ hog = get_frontal_face_detector d)
  | inl e =>
      (dlib = None ∧ e = ImportError)
      ∨ (use_cnn = true
         ∧ ∃ d path,
             dlib = Some d
             ∧ _find_cnn_model path_exists module_dir = Some path
             ∧ cnn_face_detection_model_v1 d path = inl e)
  end.
Proof.
  unfold VideoProcessor_init. destruct dlib as [d|]; [|by left].
  destruct use_cnn.
  - destruct (_find_cnn_model path_exists module_dir) as [path|] eqn:Hpath.
    + apply first_existing_Some in Hpath as (i & Hi & Hex & _).
      destruct (cnn_face_detection_model_v1 d path) as [e|cnn] eqn:Hload.
      * right. split; [done|]. exists d, path. split_and!; try done.
      * cbn. split_and!.
        -- split; [done|]. intros _. by eexists.
        -- split; [|intros _; by eexists]. intros _. split; [done|].
           exists path. split; [|done]. by eapply list_elem_of_lookup_2.
        -- intros hog [=].
    + pose proof (first_existing_None _ _ Hpath) as Hnone.
      cbn. split_and!.
      * split; [by intros [? [=]]|done].
      * split; [by intros [? [=]]|]. intros [_ (path & Hin & Hex)].
        by rewrite (Hnone path Hin) in Hex.
      * intros hog [= <-]. by exists d.
  - cbn. split_and!.
    + split; [by intros [? [=]]|done].
    + split; [by intros [? [=]]|]. by intros [[=] _].
    + intros hog [= <-]. by exists d.
Qed.

(** ** What the analysis holds *)

Section AnalysisFacts.

Variable self : VideoProcessor.

Implicit Types (faces_by_frame : gmap PyKey (list MaskDict)).

(** Every entry of the schedule was there before the loop or was stored
    for a frame of the stream on which faces were found. *)
Lemma analyze_loop_entries stream n faces_by_frame k masks :
  analyze_loop self stream n faces_by_frame !! k = Some masks →
  faces_by_frame !! k = Some masks
  ∨ ∃ (i : nat) frame,
      k = KStr (Py.str (n + Z.of_nat i))
      ∧ stream !! i = Some frame
      ∧ masks = mask_of_box <$> detect_faces self frame
      ∧ detect_faces self frame ≠ [].
Proof.
  revert n faces_by_frame.
  induction stream as [|frame stream IH]; intros n faces_by_frame Hk.
  { by left. }
  cbn [analyze_loop] in Hk. apply IH in Hk as [Hk | (i & frame' & -> & Hi & -> & Hne)].
  - destruct (detect_faces self frame) as [|face faces] eqn:Hfaces.
    { by left. }
    apply lookup_insert_Some in Hk as [[<- <-] | [_ Hk]]; [|by left].
    right. exists 0%nat, frame. rewrite Z.add_0_r, Hfaces.
    split_and!; done.
  - right. exists (S i), frame'. split_and!; try done.
    f_equal. f_equal. lia.
Qed.

(** The loop adds one entry per frame with a face. *)
Lemma analyze_loop_size stream n faces_by_frame :
  (∀ m, n ≤ m → faces_by_frame !! KStr (Py.str m) = None) →
  size (analyze_loop self stream n faces_by_frame)
  = (size faces_by_frame
     + length (filter (λ frame, More.has_faces self frame = true) stream))%nat.
Proof.
  revert n faces_by_frame.
  induction stream as [|frame stream IH]; intros n faces_by_frame Hfresh.
  { cbn. lia. }
  cbn [analyze_loop].
  destruct (detect_faces self frame) as [|face faces] eqn:Hfaces.
  - rewrite filter_cons_False.
    2:{ unfold More.has_faces. by rewrite Hfaces. }
    apply IH. intros m Hm. apply Hfresh. lia.
  - rewrite filter_cons_True.
    2:{ unfold More.has_faces. by rewrite Hfaces. }
    rewrite IH.
    + rewrite map_size_insert_None by (apply Hfresh; lia). cbn [length]. lia.
    + intros m Hm. rewrite lookup_insert_ne; [apply Hfresh; lia|].
      intros [= Heq]. apply (inj pretty) in Heq. lia.
Qed.

End AnalysisFacts.

(** X11. In the result of [analyze_video] every entry of [faces_by_frame]
    is keyed by [str(i)] for a frame [i] of the source and holds the
    non-empty list of faces detected on that frame; a frame without faces
    has no entry. [total_analyzed_frames] is therefore the number of
    frames on which at least one face was found, not the number of frames
    analysed, and never exceeds the number of frames read. *)
Theorem analysis_counts_frames_with_faces
    (self : VideoProcessor) (cap : VideoCapture) (result : AnalysisResult) :
  analyze_video self cap = inr result →
  (∀ k masks,
     faces_by_frame result !! k = Some masks →
     ∃ (i : nat) frame,
       k = KStr (Py.str (Z.of_nat i))
       ∧ stream cap !! i = Some frame
       ∧ masks = mask_of_box <$> detect_faces self frame
       ∧ masks ≠ [])
  ∧ (∀ (i : nat) frame,
       stream cap !! i = Some frame →
       detect_faces self frame = [] →
       faces_by_frame result !! KStr (Py.str (Z.of_nat i)) = None)
  ∧ total_analyzed_frames result
    = length (filter (λ frame, More.has_faces self frame = true) (stream cap))
  ∧ (total_analyzed_frames result ≤ length (stream cap))%nat.
Proof.
  intros Hanalysis. unfold analyze_video in Hanalysis.
  destruct (path_exists cap); [|done]. destruct (cap_isOpened cap); [|done].
  cbn [negb] in Hanalysis. injection Hanalysis as <-.
  cbn [faces_by_frame total_analyzed_frames].
  assert (size (analyze_loop self (stream cap) 0 ∅)
          = length (filter (λ frame, More.has_faces self frame = true)
                      (stream cap))) as Hsize.
  { rewrite analyze_loop_size by (intros; apply lookup_empty).
    by rewrite map_size_empty. }
  split_and!.
  - intros k masks Hk.
    apply analyze_loop_entries in Hk as [Hk | (i & frame & -> & Hi & -> & Hne)].
    { by rewrite lookup_empty in Hk. }
    exists i, frame. rewrite Z.add_0_l. split_and!; try done.
    by destruct (detect_faces self frame).
  - intros i frame Hi Hnone. rewrite analyze_loop_lookup.
    rewrite decide_True by lia.
    replace (Z.to_nat (Z.of_nat i - 0)) with i by lia.
    rewrite Hi, Hnone. apply lookup_empty.
  - done.
  - rewrite Hsize. apply length_filter.
Qed.

(** X11 on [Examples.three_frames] with [Examples.flaky_cnn]: three
    frames analysed, two counted. *)
Lemma analysis_counts_frames_with_faces_witness :
  (∀ k masks,
     faces_by_frame More.three_frames_analysis !! k = Some masks →
     ∃ (i : nat) frame,
       k = KStr (Py.str (Z.of_nat i))
       ∧ stream Examples.three_frames !! i = Some frame
       ∧ masks = mask_of_box <$> detect_faces Examples.flaky_cnn frame
       ∧ masks ≠ [])
  ∧ (∀ (i : nat) frame,
       stream Examples.three_frames !! i = Some frame →
       detect_faces Examples.flaky_cnn frame = [] →
       faces_by_frame More.three_frames_analysis
         !! KStr (Py.str (Z.of_nat i)) = None)
  ∧ total_analyzed_frames More.three_frames_analysis
    = length (filter (λ frame, More.has_faces Examples.flaky_cnn frame = true)
                (stream Examples.three_frames))
  ∧ (total_analyzed_frames More.three_frames_analysis
     ≤ length (stream Examples.three_frames))%nat.
Proof.
  apply (analysis_counts_frames_with_faces Examples.flaky_cnn
           Examples.three_frames More.three_frames_analysis).
  by vm_compute.
Defined.

(** ** Schedule keys in render and preview (C1) *)

Section KeyFacts.

Variable GaussianBlur : Frame → Z → Frame.
Variable resize : Frame → Z → Z → Frame.

Implicit Types (masks_data other : gmap PyKey (list MaskDict)).

(** The frame handed to the writer depends on the schedule through its
    string keys only. *)
Lemma blurred_frame_ext to_box masks_data other blur_strength n frame :
  (∀ key, masks_data !! KStr key = other !! KStr key) →
  blurred_frame GaussianBlur to_box masks_data blur_strength n frame
  = blurred_frame GaussianBlur to_box other blur_strength n frame.
Proof. intros Hkeys. unfold blurred_frame, frame_masks. by rewrite Hkeys. Qed.

Lemma process_loop_ext masks_data other blur_strength progress_callback
    total_frames stream n run :
  (∀ key, masks_data !! KStr key = other !! KStr key) →
  process_loop GaussianBlur masks_data blur_strength progress_callback
    total_frames stream n run
  = process_loop GaussianBlur other blur_strength progress_callback
      total_frames stream n run.
Proof.
  intros Hkeys. revert n run.
  induction stream as [|frame stream IH]; intros n run; [done|].
  cbn [process_loop].
  rewrite (blurred_frame_ext _ masks_data other) by done. cbn zeta.
  destruct (progress_callback && (n `mod` 10 =? 0)).
  - destruct (Py.truediv (n + 1) total_frames); [done|]. apply IH.
  - apply IH.
Qed.

Lemma preview_loop_ext masks_data other blur_strength preview_width
    preview_height remaining stream n run :
  (∀ key, masks_data !! KStr key = other !! KStr key) →
  preview_loop GaussianBlur resize masks_data blur_strength preview_width
    preview_height remaining stream n run
  = preview_loop GaussianBlur resize other blur_strength preview_width
      preview_height remaining stream n run.
Proof.
  intros Hkeys. revert stream n run.
  induction remaining as [|remaining IH]; intros [|frame stream] n run;
    try done.
  cbn [preview_loop].
  rewrite (blurred_frame_ext _ masks_data other) by done. cbn zeta.
  destruct ((0 <? preview_width) && (0 <? preview_height)); [|done].
  apply IH.
Qed.

Lemma process_video_ext cap output_creatable masks_data other blur_strength
    progress_callback :
  (∀ key, masks_data !! KStr key = other !! KStr key) →
  process_video GaussianBlur cap output_creatable masks_data blur_strength
    progress_callback
  = process_video GaussianBlur cap output_creatable other blur_strength
      progress_callback.
Proof.
  intros Hkeys. unfold process_video.
  by rewrite (process_loop_ext masks_data other).
Qed.

Lemma generate_preview_ext cap output_creatable masks_data other
    blur_strength preview_duration :
  (∀ key, masks_data !! KStr key = other !! KStr key) →
  generate_preview GaussianBlur resize cap output_creatable masks_data
    blur_strength preview_duration
  = generate_preview GaussianBlur resize cap output_creatable other
      blur_strength preview_duration.
Proof.
  intros Hkeys. unfold generate_preview.
  destruct (negb (cap_isOpened cap)); [done|].
  destruct (preview_frames _ _ _); [done|].
  destruct (preview_size _ _) as [|[preview_width preview_height]]; [done|].
  by rewrite (preview_loop_ext masks_data other).
Qed.

(** A dict built from integer keys has nothing under a string key. *)
Lemma dict_of_int_keyed_str {V} (schedule : list (Z * V)) key :
  Spec.dict_of (Spec.int_keyed schedule) !! KStr key = None.
Proof.
  unfold Spec.dict_of. rewrite <- (lookup_empty (KStr key)).
  generalize (∅ : gmap PyKey V).
  induction schedule as [|[n v] schedule IH]; intros acc; [done|].
  cbn. rewrite IH. by rewrite lookup_insert_ne.
Qed.

(** What a render wrote is the blurred beginning of the stream. *)
Lemma process_video_prefix cap output_creatable masks_data blur_strength
    progress_callback :
  ∃ k : nat,
    written (process_video GaussianBlur cap output_creatable masks_data
               blur_strength progress_callback)
    = Spec.blurred_stream GaussianBlur box_of_mask masks_data blur_strength
        0 (take k (stream cap)).
Proof.
  unfold process_video.
  destruct (path_exists cap); cbn [negb]; [|by exists 0%nat].
  destruct (cap_isOpened cap); cbn [negb]; [|by exists 0%nat].
  destruct output_creatable; cbn [VideoWriter_new out_isOpened negb];
    [|by exists 0%nat].
  match goal with |- context [process_loop _ _ _ _ ?t ?s ?n ?run] =>
    destruct (process_loop_trace GaussianBlur masks_data blur_strength
                progress_callback t s n run eq_refl)
      as (k & _ & _ & Hwr & _)
  end.
  exists k. cbn zeta in Hwr. by rewrite Hwr.
Qed.

Lemma process_video_written_lookup cap output_creatable masks_data
    blur_strength progress_callback (n : nat) written_frame :
  written (process_video GaussianBlur cap output_creatable masks_data
             blur_strength progress_callback) !! n = Some written_frame →
  ∃ frame,
    stream cap !! n = Some frame
    ∧ written_frame
      = blurred_frame GaussianBlur box_of_mask masks_data blur_strength
          (Z.of_nat n) frame.
Proof.
  destruct (process_video_prefix cap output_creatable masks_data
              blur_strength progress_callback) as [k ->].
  rewrite blurred_stream_lookup, Z.add_0_l.
  destruct (take k (stream cap) !! n) as [frame|] eqn:Hframe; [|done].
  intros [= <-]. apply lookup_take_Some in Hframe as [Hframe _].
  by exists frame.
Qed.

(** A target size that [cv2.resize] rejects: nothing is written. *)
Lemma preview_loop_bad_size masks_data blur_strength preview_width
    preview_height remaining stream n run :
  (0 <? preview_width) && (0 <? preview_height) = false →
  written (preview_loop GaussianBlur resize masks_data blur_strength
             preview_width preview_height remaining stream n run)
  = written run.
Proof.
  intros Hbad. destruct remaining as [|remaining]; [done|].
  destruct stream as [|frame stream]; [done|].
  cbn [preview_loop]. by rewrite Hbad.
Qed.

(** What a preview wrote is nothing, or the blurred and resized beginning
    of the stream. *)
Lemma generate_preview_prefix cap output_creatable masks_data blur_strength
    preview_duration :
  let p := generate_preview GaussianBlur resize cap output_creatable
             masks_data blur_strength preview_duration in
  written p = []
  ∨ ∃ preview_width preview_height (k : nat),
      preview_size (CAP_PROP_FRAME_WIDTH cap) (CAP_PROP_FRAME_HEIGHT cap)
      = inr (preview_width, preview_height)
      ∧ written p
        = (λ frame, resize frame preview_width preview_height)
          <$> Spec.blurred_stream GaussianBlur box_of_mask_preview masks_data
                blur_strength 0 (take k (stream cap)).
Proof.
  cbn zeta. unfold generate_preview.
  destruct (cap_isOpened cap); cbn [negb]; [|by left].
  destruct (preview_frames _ _ _) as [e|count]; [by left|].
  destruct (preview_size _ _) as [e|[preview_width preview_height]]
    eqn:Hsize; [by left|].
  destruct ((0 <? preview_width) && (0 <? preview_height)) eqn:Hgood.
  - apply andb_prop in Hgood as [Hw%Z.ltb_lt Hh%Z.ltb_lt].
    match goal with |- context [preview_loop _ _ ?md ?s ?pw ?ph ?rem ?st ?i ?run] =>
      destruct (preview_loop_trace GaussianBlur resize md s pw ph rem st i run
                  Hw Hh) as (_ & _ & _ & _ & Hwr)
    end.
    cbn zeta in Hwr. cbn [out VideoWriter_new out_isOpened] in Hwr.
    destruct output_creatable; [|by left].
    right. eexists preview_width, preview_height, _. split; [done|].
    by rewrite Hwr.
  - left. by rewrite preview_loop_bad_size.
Qed.

Lemma generate_preview_written_lookup cap output_creatable masks_data
    blur_strength preview_duration (n : nat) written_frame :
  written (generate_preview GaussianBlur resize cap output_creatable
             masks_data blur_strength preview_duration) !! n
  = Some written_frame →
  ∃ frame preview_width preview_height,
    stream cap !! n = Some frame
    ∧ preview_size (CAP_PROP_FRAME_WIDTH cap) (CAP_PROP_FRAME_HEIGHT cap)
      = inr (preview_width, preview_height)
    ∧ written_frame
      = resize
          (blurred_frame GaussianBlur box_of_mask_preview masks_data
             blur_strength (Z.of_nat n) frame)
          preview_width preview_height.
Proof.
  destruct (generate_preview_prefix cap output_creatable masks_data
              blur_strength preview_duration)
    as [-> | (preview_width & preview_height & k & Hsize & ->)]; [done|].
  rewrite list_lookup_fmap, blurred_stream_lookup, Z.add_0_l.
  destruct (take k (stream cap) !! n) as [frame|] eqn:Hframe; [|done].
  intros [= <-]. apply lookup_take_Some in Hframe as [Hframe _].
  by exists frame, preview_width, preview_height.
Qed.

(** What a preview that goes through writes. *)
Lemma generate_preview_written cap masks_data blur_strength preview_duration
    count preview_width preview_height :
  cap_isOpened cap = true →
  preview_frames (CAP_PROP_FRAME_COUNT cap) preview_duration
    (CAP_PROP_FPS cap) = inr count →
  preview_size (CAP_PROP_FRAME_WIDTH cap) (CAP_PROP_FRAME_HEIGHT cap)
    = inr (preview_width, preview_height) →
  0 < preview_width →
  0 < preview_height →
  written (generate_preview GaussianBlur resize cap true masks_data
             blur_strength preview_duration)
  = (λ frame, resize frame preview_width preview_height)
    <$> Spec.blurred_stream GaussianBlur box_of_mask_preview masks_data
          blur_strength 0 (take (Z.to_nat count) (stream cap)).
Proof.
  intros Hopen Hcount Hsize Hw Hh. unfold generate_preview.
  rewrite Hopen, Hcount, Hsize. cbn [negb].
  match goal with |- context [preview_loop _ _ ?md ?s ?pw ?ph ?rem ?st ?i ?run] =>
    destruct (preview_loop_trace GaussianBlur resize md s pw ph rem st i run
                Hw Hh) as (_ & _ & _ & _ & Hwr)
  end.
  cbn zeta in Hwr. cbn [out VideoWriter_new out_isOpened] in Hwr.
  unfold written at 2 in Hwr. cbn [out encoded VideoWriter_new app] in Hwr.
  rewrite Hwr. do 2 f_equal. rewrite <- take_take. by rewrite firstn_all.
Qed.

End KeyFacts.

(** C1, amended. For every source, sink, schedule and strength, the frame
    that render and preview write for index [n] is the frame read at [n],
    blurred on the regions the schedule holds under the string key
    [str(n)] and left as read when there is no such entry or it is empty
    (the preview then resizes it); when the run goes through, every frame
    read is written so. An entry under an integer key is never consulted:
    two schedules that agree on their string keys give the same run, and
    a schedule with integer keys only, handed to the core directly, gives
    the run of the empty schedule, every frame written as read. Once they
    have gone through the conversion of the API layer
    ([masks_dict[str(frame_key)] = ...]), an integer-keyed schedule and
    its stringified copy give the same render and the same preview, and
    frame [n] is blurred on the boxes the request held under [n]. *)
Theorem schedule_keys_agree_after_conversion
    (GaussianBlur : Frame → Z → Frame) (resize : Frame → Z → Z → Frame)
    (cap : VideoCapture) (output_creatable : bool)
    (blur_strength preview_duration : Z) (progress_callback : bool)
    (entries : list (Z * list FaceBoundingBox.t))
    (schedule : list (Z * list MaskDict))
    (masks_data other : gmap PyKey (list MaskDict)) :
  let render masks_data :=
    process_video GaussianBlur cap output_creatable masks_data blur_strength
      progress_callback in
  let preview masks_data :=
    generate_preview GaussianBlur resize cap output_creatable masks_data
      blur_strength preview_duration in
  let blurred (to_box : MaskDict → FaceBoundingBox.t) (n : nat)
      (frame : Frame) :=
    match default [] (masks_data !! KStr (Py.str (Z.of_nat n))) with
    | [] => frame
    | regions =>
        apply_blur_to_frame GaussianBlur frame (to_box <$> regions)
          blur_strength
    end in
  (∀ (n : nat) written_frame,
     written (render masks_data) !! n = Some written_frame →
     ∃ frame,
       stream cap !! n = Some frame
       ∧ written_frame = blurred box_of_mask n frame)
  ∧ (path_exists cap = true → cap_isOpened cap = true →
     output_creatable = true →
     progress_callback = false ∨ CAP_PROP_FRAME_COUNT cap ≠ 0 →
     ∀ (n : nat) frame,
       stream cap !! n = Some frame →
       written (render masks_data) !! n = Some (blurred box_of_mask n frame))
  ∧ (∀ (n : nat) written_frame,
       written (preview masks_data) !! n = Some written_frame →
       ∃ frame preview_width preview_height,
         stream cap !! n = Some frame
         ∧ preview_size (CAP_PROP_FRAME_WIDTH cap)
             (CAP_PROP_FRAME_HEIGHT cap)
           = inr (preview_width, preview_height)
         ∧ written_frame
           = resize (blurred box_of_mask_preview n frame)
               preview_width preview_height)
  ∧ (∀ count preview_width preview_height,
       cap_isOpened cap = true → output_creatable = true →
       preview_frames (CAP_PROP_FRAME_COUNT cap) preview_duration
         (CAP_PROP_FPS cap) = inr count →
       preview_size (CAP_PROP_FRAME_WIDTH cap) (CAP_PROP_FRAME_HEIGHT cap)
       = inr (preview_width, preview_height) →
       0 < preview_width → 0 < preview_height →
       ∀ (n : nat) frame,
         stream cap !! n = Some frame → Z.of_nat n < count →
         written (preview masks_data) !! n
         = Some (resize (blurred box_of_mask_preview n frame)
                   preview_width preview_height))
  ∧ ((∀ key, masks_data !! KStr key = other !! KStr key) →
     render masks_data = render other
     ∧ preview masks_data = preview other)
  ∧ (render (Spec.dict_of (Spec.int_keyed schedule)) = render ∅
     ∧ preview (Spec.dict_of (Spec.int_keyed schedule)) = preview ∅
     ∧ ∀ (n : nat) written_frame,
         written (render (Spec.dict_of (Spec.int_keyed schedule))) !! n
         = Some written_frame →
         stream cap !! n = Some written_frame)
  ∧ (render (masks_dict_of (Spec.stringified (Spec.int_keyed entries)))
     = render (masks_dict_of (Spec.int_keyed entries))
     ∧ preview (masks_dict_of (Spec.stringified (Spec.int_keyed entries)))
       = preview (masks_dict_of (Spec.int_keyed entries)))
  ∧ (∀ (n : nat) written_frame,
       written (render (masks_dict_of (Spec.int_keyed entries))) !! n
       = Some written_frame →
       ∃ frame,
         stream cap !! n = Some frame
         ∧ written_frame
           = match default []
                     (Spec.dict_of (Spec.int_keyed entries)
                        !! KInt (Z.of_nat n)) with
             | [] => frame
             | boxes =>
                 apply_blur_to_frame GaussianBlur frame boxes blur_strength
             end).
Proof.
  cbn zeta.
  assert (∀ key,
            Spec.dict_of (Spec.int_keyed schedule) !! KStr key
            = (∅ : gmap PyKey (list MaskDict)) !! KStr key) as Hint_keys.
  { intros key. by rewrite dict_of_int_keyed_str, lookup_empty. }
  split_and!.
  - intros n written_frame Hwritten.
    apply process_video_written_lookup in Hwritten as (frame & Hframe & ->).
    by exists frame.
  - intros Hexists Hopen -> Hcb n frame Hframe.
    destruct (process_video_written GaussianBlur cap masks_data blur_strength
                progress_callback Hexists Hopen Hcb) as [_ Hwr].
    cbn zeta in Hwr. rewrite Hwr, blurred_stream_lookup, Hframe.
    by rewrite Z.add_0_l.
  - intros n written_frame Hwritten.
    apply generate_preview_written_lookup in Hwritten
      as (frame & preview_width & preview_height & Hframe & Hsize & ->).
    by exists frame, preview_width, preview_height.
  - intros count preview_width preview_height Hopen -> Hcount Hsize Hw Hh
      n frame Hframe Hn.
    rewrite (generate_preview_written GaussianBlur resize cap masks_data
               blur_strength preview_duration count preview_width
               preview_height) by done.
    rewrite list_lookup_fmap, blurred_stream_lookup, Z.add_0_l.
    rewrite lookup_take_lt by lia. by rewrite Hframe.
  - intros Hkeys. split.
    + by apply process_video_ext.
    + by apply generate_preview_ext.
  - by apply process_video_ext.
  - by apply generate_preview_ext.
  - intros n written_frame Hwritten.
    apply process_video_written_lookup in Hwritten as (frame & Hframe & ->).
    rewrite Hframe. f_equal. unfold blurred_frame, frame_masks.
    by rewrite dict_of_int_keyed_str.
  - by rewrite masks_dict_of_stringified.
  - by rewrite masks_dict_of_stringified.
  - intros n written_frame Hwritten.
    apply process_video_written_lookup in Hwritten as (frame & Hframe & ->).
    exists frame. split; [done|]. unfold blurred_frame.
    rewrite frame_masks_masks_dict_of_int_keyed.
    destruct (default [] _) as [|box boxes]; [done|].
    cbn [fmap list_fmap]. rewrite box_of_mask_of_box. do 2 f_equal.
    rewrite <- list_fmap_compose. rewrite <- (list_fmap_id boxes) at 2.
    apply list_fmap_ext. intros ? b _. apply box_of_mask_of_box.
Qed.

(** The scenario of C1 after the conversion: the schedule [{3: [b]}] of a
    request, keyed by the integer or by ["3"], blurs frame 3 of the render
    and no other. *)
Example converted_schedule_blurs_frame_three :
  let boxes := [FaceBoundingBox.make 2 2 4 4 1.0%float] in
  let converted := masks_dict_of (Spec.int_keyed [(3, boxes)]) in
  let r := process_video Toy.mean_blur Examples.clip true converted 15
             false in
  converted = masks_dict_of [(KStr "3", boxes)]
  ∧ length (written r) = 5%nat
  ∧ (written r !! 3%nat ≫= λ f, pixel_at f 2 2) = Some (35, 35, 7)
  ∧ (stream Examples.clip !! 3%nat ≫= λ f, pixel_at f 2 2) = Some (20, 20, 4)
  ∧ written r !! 2%nat = stream Examples.clip !! 2%nat.
Proof. by vm_compute. Qed.

(** * Properties of the session store and the API layer *)

(** ** Dicts *)

Section DictFacts.

Context {V : Type}.

Implicit Types (d : list (string * V)) (k : string) (v : V).

Lemma eqb_ne k k' : k ≠ k' → String.eqb k k' = false.
Proof. intros Hne. by apply String.eqb_neq. Qed.

Lemma get_setitem d k v : PyDict.get (PyDict.setitem d k v) k = Some v.
Proof.
  induction d as [|[k' v'] d IH]; cbn; [by rewrite String.eqb_refl|].
  destruct (String.eqb_spec k' k) as [->|Hne]; cbn.
  - by rewrite String.eqb_refl.
  - by rewrite eqb_ne.
Qed.

Lemma get_setitem_ne d k k' v :
  k ≠ k' → PyDict.get (PyDict.setitem d k v) k' = PyDict.get d k'.
Proof.
  intros Hne. induction d as [|[k0 v0] d IH]; cbn.
  - by rewrite eqb_ne.
  - destruct (String.eqb_spec k0 k) as [->|Hk0]; cbn.
    + by rewrite !eqb_ne.
    + by rewrite IH.
Qed.

Lemma get_None d k : PyDict.get d k = None ↔ k ∉ PyDict.keys d.
Proof.
  unfold PyDict.keys. induction d as [|[k' v'] d IH]; cbn.
  - split; [intros _; apply not_elem_of_nil|done].
  - rewrite not_elem_of_cons. destruct (String.eqb_spec k' k) as [->|Hne].
    + split; [done|]. by intros [? _].
    + rewrite IH. split; [by intros ?; split|by intros [_ ?]].
Qed.

Lemma keys_setitem_Some d k v :
  is_Some (PyDict.get d k) →
  PyDict.keys (PyDict.setitem d k v) = PyDict.keys d.
Proof.
  unfold PyDict.keys. induction d as [|[k' v'] d IH]; cbn.
  - by intros [? [=]].
  - destruct (String.eqb_spec k' k) as [->|Hne]; cbn; [done|].
    intros Hk. by rewrite IH.
Qed.

Lemma setitem_None d k v :
  PyDict.get d k = None → PyDict.setitem d k v = d ++ [(k, v)].
Proof.
  induction d as [|[k' v'] d IH]; cbn; [done|].
  destruct (String.eqb_spec k' k) as [->|Hne]; [done|].
  intros Hk. by rewrite IH.
Qed.

Lemma get_delitem_ne d k k' :
  k ≠ k' → PyDict.get (PyDict.delitem d k) k' = PyDict.get d k'.
Proof.
  intros Hne. induction d as [|[k0 v0] d IH]; cbn; [done|].
  destruct (String.eqb_spec k0 k) as [->|Hk0]; cbn.
  - by rewrite eqb_ne.
  - by rewrite IH.
Qed.

Lemma get_app_r kept k v rest :
  k ∉ PyDict.keys kept → PyDict.get (kept ++ (k, v) :: rest) k = Some v.
Proof.
  unfold PyDict.keys. induction kept as [|[k' v'] kept IH]; cbn.
  - intros _. by rewrite String.eqb_refl.
  - rewrite not_elem_of_cons. intros [Hne Hk].
    rewrite eqb_ne by done. by apply IH.
Qed.

Lemma delitem_app_r kept k v rest :
  k ∉ PyDict.keys kept →
  PyDict.delitem (kept ++ (k, v) :: rest) k = kept ++ rest.
Proof.
  unfold PyDict.keys. induction kept as [|[k' v'] kept IH]; cbn.
  - intros _. by rewrite String.eqb_refl.
  - rewrite not_elem_of_cons. intros [Hne Hk].
    rewrite eqb_ne by done. by rewrite IH.
Qed.

Lemma get_delitem d k :
  NoDup (PyDict.keys d) → PyDict.get (PyDict.delitem d k) k = None.
Proof.
  unfold PyDict.keys. induction d as [|[k' v'] d IH]; cbn; [done|].
  intros [Hfresh Hnodup]%NoDup_cons.
  destruct (String.eqb_spec k' k) as [->|Hne]; cbn.
  - by apply get_None.
  - rewrite eqb_ne by done. by apply IH.
Qed.

End DictFacts.

(** ** The store: an identifier without a session *)

(** X12. For an identifier without a session the getters return [None],
    [update_session_status] and [cleanup_session] do nothing,
    [get_analysis_result] returns [None] without reading a file,
    [save_uploaded_file] raises [ValueError] before it writes anything,
    and [save_preview_video] and [save_output_video] raise [KeyError];
    none of these calls changes the store or the file system. *)
Theorem unknown_session_changes_nothing {os : Os} (w : World)
    (video_id : string) :
  PyDict.get (sessions (temp_storage w)) video_id = None →
  Storage.get_session_info (temp_storage w) video_id = None
  ∧ Storage.get_video_path (temp_storage w) video_id = None
  ∧ Storage.get_preview_path (temp_storage w) video_id = None
  ∧ Storage.get_output_path (temp_storage w) video_id = None
  ∧ (∀ status message progress,
       Storage.update_session_status (temp_storage w) video_id status
         message progress = temp_storage w)
  ∧ Storage.get_analysis_result video_id w = (inr None, w)
  ∧ Storage.cleanup_session video_id w = (inr tt, w)
  ∧ (∀ file_content,
       Storage.save_uploaded_file video_id file_content w
       = (inl (Core Py.ValueError), w))
  ∧ (∀ path, Storage.save_preview_video video_id path w = (inl KeyError, w))
  ∧ (∀ path, Storage.save_output_video video_id path w = (inl KeyError, w)).
Proof.
  intros Hnone.
  unfold Storage.get_session_info, Storage.get_video_path,
    Storage.get_preview_path, Storage.get_output_path,
    Storage.update_session_status, Storage.get_analysis_result,
    Storage.cleanup_session, Storage.save_uploaded_file,
    Storage.save_preview_video, Storage.save_output_video, Storage.set_file.
  unfold mbind, mret, eff_mbind, eff_mret, eff_bind, eff_ret, raise,
    try_except, self_, modify, writing, reading, of_core;
    cbn beta iota zeta.
  rewrite Hnone. by split_and!.
Qed.

(** X12 on a store without sessions. *)
Lemma unknown_session_changes_nothing_witness :
  Storage.get_session_info (temp_storage ToyOs.fresh) ToyOs.an_id = None
  ∧ Storage.get_video_path (temp_storage ToyOs.fresh) ToyOs.an_id = None
  ∧ Storage.get_preview_path (temp_storage ToyOs.fresh) ToyOs.an_id = None
  ∧ Storage.get_output_path (temp_storage ToyOs.fresh) ToyOs.an_id = None
  ∧ (∀ status message progress,
       Storage.update_session_status (temp_storage ToyOs.fresh) ToyOs.an_id
         status message progress = temp_storage ToyOs.fresh)
  ∧ Storage.get_analysis_result ToyOs.an_id ToyOs.fresh
    = (inr None, ToyOs.fresh)
  ∧ Storage.cleanup_session ToyOs.an_id ToyOs.fresh = (inr tt, ToyOs.fresh)
  ∧ (∀ file_content,
       Storage.save_uploaded_file ToyOs.an_id file_content ToyOs.fresh
       = (inl (Core Py.ValueError), ToyOs.fresh))
  ∧ (∀ path,
       Storage.save_preview_video ToyOs.an_id path ToyOs.fresh
       = (inl KeyError, ToyOs.fresh))
  ∧ (∀ path,
       Storage.save_output_video ToyOs.an_id path ToyOs.fresh
       = (inl KeyError, ToyOs.fresh)).
Proof.
  apply (unknown_session_changes_nothing ToyOs.fresh ToyOs.an_id).
  reflexivity.
Defined.

(** X13. [save_analysis_result] checks the session only after it has
    written: for an identifier without a session it never returns a path.
    It raises what the dump raised, or else [KeyError], and then the file
    system is the one the dump left, the JSON file written, while the
    store is unchanged. *)
Theorem analysis_of_unknown_session_is_written_then_refused {os : Os}
    (w : World) (video_id : string) (analysis_data : AnalysisDict) :
  PyDict.get (sessions (temp_storage w)) video_id = None →
  let json_path :=
    PyOs.path_join (PyOs.path_join (base_temp_dir (temp_storage w)) video_id)
      "analysis_result.json" in
  let dumped := json_dump json_path analysis_data (disk w) in
  Storage.save_analysis_result video_id analysis_data w
  = (inl (default KeyError dumped.1),
     {| disk := dumped.2; temp_storage := temp_storage w |}).
Proof.
  intros Hnone. unfold Storage.save_analysis_result, Storage.set_file,
    Storage.get_session_dir.
  unfold mbind, mret, eff_mbind, eff_mret, eff_bind, eff_ret, raise,
    try_except, self_, modify, writing, reading, of_core;
    cbn beta iota zeta.
  destruct (json_dump _ _ _) as [[e|] new_disk]; cbn; [done|].
  by rewrite Hnone.
Qed.

(** X13 on a store without sessions: the file is there afterwards. *)
Lemma analysis_of_unknown_session_is_written_then_refused_witness :
  let data := {| file_path := "v.mp4"; analysis := More.three_frames_analysis |} in
  let json_path :=
    PyOs.path_join
      (PyOs.path_join (base_temp_dir (temp_storage ToyOs.fresh)) ToyOs.an_id)
      "analysis_result.json" in
  let dumped := json_dump json_path data (disk ToyOs.fresh) in
  Storage.save_analysis_result ToyOs.an_id data ToyOs.fresh
  = (inl (default KeyError dumped.1),
     {| disk := dumped.2; temp_storage := temp_storage ToyOs.fresh |}).
Proof.
  apply (analysis_of_unknown_session_is_written_then_refused ToyOs.fresh
           ToyOs.an_id
           {| file_path := "v.mp4"; analysis := More.three_frames_analysis |}).
  reflexivity.
Defined.

Example stray_analysis_file :
  let data := {| file_path := "v.mp4"; analysis := More.three_frames_analysis |} in
  let after := (Storage.save_analysis_result ToyOs.an_id data ToyOs.fresh).2 in
  (Storage.save_analysis_result ToyOs.an_id data ToyOs.fresh).1 = inl KeyError
  ∧ os_path_exists (disk after)
      "web_temp_uploads/0f0e5c1c-6f0b-4c55-9a43-0d3a4f0f2b11/analysis_result.json"
    = true
  ∧ sessions (temp_storage after) = [].
Proof. cbn zeta. split_and!; reflexivity. Qed.

(** ** The store: status updates *)

(** X14. [update_session_status] on an existing session replaces its
    status, message and progress and nothing else: the files, the other
    fields and every other session are as before, and the sessions keep
    their order. *)
Theorem status_update_touches_three_fields (self : TempStorage)
    (video_id : string) (session : Session.t) (status : ProcessingStatus.t)
    (message : Message) (progress : PyNum) :
  PyDict.get (sessions self) video_id = Some session →
  let updated :=
    Storage.update_session_status self video_id status message progress in
  Storage.get_session_info updated video_id
  = Some (Session.set_status session status message progress)
  ∧ (∀ other, other ≠ video_id →
       Storage.get_session_info updated other
       = Storage.get_session_info self other)
  ∧ PyDict.keys (sessions updated) = PyDict.keys (sessions self)
  ∧ base_temp_dir updated = base_temp_dir self
  ∧ (∀ any,
       Storage.get_video_path updated any = Storage.get_video_path self any
       ∧ Storage.get_preview_path updated any
         = Storage.get_preview_path self any
       ∧ Storage.get_output_path updated any
         = Storage.get_output_path self any).
Proof.
  intros Hsession. cbn zeta.
  unfold Storage.update_session_status, Storage.get_session_info,
    Storage.get_video_path, Storage.get_preview_path,
    Storage.get_output_path.
  rewrite Hsession. cbn [sessions base_temp_dir Storage.with_sessions].
  split_and!.
  - apply get_setitem.
  - intros other Hother. by apply get_setitem_ne.
  - apply keys_setitem_Some. by rewrite Hsession.
  - done.
  - intros any. destruct (decide (any = video_id)) as [->|Hany].
    + by rewrite get_setitem, Hsession.
    + by rewrite get_setitem_ne.
Qed.

(** X14 on the session of [ToyOs.uploaded]. *)
Lemma status_update_touches_three_fields_witness :
  let self := temp_storage ToyOs.uploaded in
  let updated :=
    Storage.update_session_status self ToyOs.an_id
      ProcessingStatus.ANALYZING (Text "Analyzing video...") (PyInt 10) in
  Storage.get_session_info updated ToyOs.an_id
  = Some (Session.set_status ToyOs.uploaded_session
            ProcessingStatus.ANALYZING (Text "Analyzing video...") (PyInt 10))
  ∧ (∀ other, other ≠ ToyOs.an_id →
       Storage.get_session_info updated other
       = Storage.get_session_info self other)
  ∧ PyDict.keys (sessions updated) = PyDict.keys (sessions self)
  ∧ base_temp_dir updated = base_temp_dir self
  ∧ (∀ any,
       Storage.get_video_path updated any = Storage.get_video_path self any
       ∧ Storage.get_preview_path updated any
         = Storage.get_preview_path self any
       ∧ Storage.get_output_path updated any
         = Storage.get_output_path self any).
Proof.
  apply (status_update_touches_three_fields (temp_storage ToyOs.uploaded)
           ToyOs.an_id ToyOs.uploaded_session ProcessingStatus.ANALYZING
           (Text "Analyzing video...") (PyInt 10)).
  reflexivity.
Defined.

(** ** The store: round trips *)

Lemma append_nonempty (a b : string) : b ≠ "" → a +:+ b ≠ "".
Proof. intros Hb. destruct a; cbn; [done|discriminate]. Qed.

Lemma path_join_nonempty (a b : string) : b ≠ "" → PyOs.path_join a b ≠ "".
Proof.
  intros Hb. unfold PyOs.path_join.
  destruct (String.prefix "/" b); [done|].
  destruct (bool_decide (a = "") || PyOs.ends_with_slash a).
  - by apply append_nonempty.
  - apply append_nonempty. by apply append_nonempty.
Qed.

(** X15. Creating a session and saving the uploaded bytes, when the
    directory can be made and the file written, returns the path
    [<base>/<id>/original_video.mp4], which [get_video_path] then gives
    back. The session is the one just created, with status [UPLOADED],
    progress [0.0] and no other file, whatever was stored under the
    identifier before; the other sessions are untouched. *)
Theorem upload_round_trip {os : Os} (w : World)
    (video_id original_filename file_content : string) (now : Z)
    (disk1 disk2 : FS) :
  let session_dir :=
    PyOs.path_join (base_temp_dir (temp_storage w)) video_id in
  let file_path := PyOs.path_join session_dir "original_video.mp4" in
  os_makedirs session_dir (disk w) = (None, disk1) →
  open_wb_write file_path file_content disk1 = (None, disk2) →
  let r :=
    (Storage.create_session video_id original_filename now;;
     Storage.save_uploaded_file video_id file_content) w in
  r.1 = inr file_path
  ∧ disk r.2 = disk2
  ∧ Storage.get_video_path (temp_storage r.2) video_id = Some file_path
  ∧ Storage.get_session_info (temp_storage r.2) video_id
    = Some {| Session.video_id := video_id;
              Session.original_filename := original_filename;
              Session.session_dir := session_dir;
              Session.created_at := now;
              Session.status := ProcessingStatus.UPLOADED;
              Session.progress := PyFloat 0%float;
              Session.message := Text "Video uploaded successfully";
              Session.files :=
                {| Session.uploaded_video := Some file_path;
                   Session.analysis_json := None;
                   Session.preview_video := None;
                   Session.output_video := None |} |}
  ∧ (∀ other, other ≠ video_id →
       Storage.get_session_info (temp_storage r.2) other
       = Storage.get_session_info (temp_storage w) other).
Proof.
  cbn zeta. intros Hmkdir Hwrite.
  unfold Storage.create_session, Storage.save_uploaded_file,
    Storage.set_file, Storage.get_session_dir, Storage.update_session_status.
  unfold mbind, mret, eff_mbind, eff_mret, eff_bind, eff_ret, raise,
    try_except, self_, modify, writing, reading, of_core;
    cbn beta iota zeta.
  rewrite Hmkdir.
  repeat progress
      (cbn [temp_storage disk sessions base_temp_dir Storage.with_sessions
            fst snd]).
  rewrite !get_setitem.
  repeat progress
      (cbn [temp_storage disk sessions base_temp_dir Storage.with_sessions
            fst snd]).
  rewrite Hwrite.
  repeat progress
      (cbn [temp_storage disk sessions base_temp_dir Storage.with_sessions
            fst snd]).
  rewrite !get_setitem.
  repeat progress
      (cbn [temp_storage disk sessions base_temp_dir Storage.with_sessions
            fst snd]).
  rewrite ?get_setitem.
  repeat progress
      (cbn [temp_storage disk sessions base_temp_dir Storage.with_sessions
            fst snd]).
  unfold Storage.get_video_path, Storage.get_session_info.
  repeat progress
      (cbn [temp_storage disk sessions base_temp_dir Storage.with_sessions
            fst snd]).
  rewrite ?get_setitem. split_and!; try done.
  intros other Hother. by rewrite !get_setitem_ne.
Qed.

(** X15 on the toy file system. *)
Lemma upload_round_trip_witness :
  let session_dir :=
    PyOs.path_join (base_temp_dir (temp_storage ToyOs.fresh)) ToyOs.an_id in
  let file_path := PyOs.path_join session_dir "original_video.mp4" in
  let r :=
    (Storage.create_session ToyOs.an_id "a.mp4" 0;;
     Storage.save_uploaded_file ToyOs.an_id "abc") ToyOs.fresh in
  r.1 = inr file_path
  ∧ disk r.2 = [(session_dir, ToyOs.Dir); (file_path, ToyOs.Bytes "abc")]
  ∧ Storage.get_video_path (temp_storage r.2) ToyOs.an_id = Some file_path
  ∧ Storage.get_session_info (temp_storage r.2) ToyOs.an_id
    = Some {| Session.video_id := ToyOs.an_id;
              Session.original_filename := "a.mp4";
              Session.session_dir := session_dir;
              Session.created_at := 0;
              Session.status := ProcessingStatus.UPLOADED;
              Session.progress := PyFloat 0%float;
              Session.message := Text "Video uploaded successfully";
              Session.files :=
                {| Session.uploaded_video := Some file_path;
                   Session.analysis_json := None;
                   Session.preview_video := None;
                   Session.output_video := None |} |}
  ∧ (∀ other, other ≠ ToyOs.an_id →
       Storage.get_session_info (temp_storage r.2) other
       = Storage.get_session_info (temp_storage ToyOs.fresh) other).
Proof.
  apply (upload_round_trip ToyOs.fresh ToyOs.an_id "a.mp4" "abc" 0
           [(PyOs.path_join "web_temp_uploads" ToyOs.an_id, ToyOs.Dir)]);
    reflexivity.
Defined.

(** ** The store: cleaning up *)

Lemma cleanup_session_run {os : Os} (w : World) video_id session :
  PyDict.get (sessions (temp_storage w)) video_id = Some session →
  Storage.cleanup_session video_id w
  = let session_dir := Storage.get_session_dir (temp_storage w) video_id in
    let forgotten :=
      Storage.with_sessions (temp_storage w)
        (PyDict.delitem (sessions (temp_storage w)) video_id) in
    if os_path_exists (disk w) session_dir then
      match shutil_rmtree session_dir (disk w) with
      | (Some e, new_disk) =>
          (inl e, {| disk := new_disk; temp_storage := temp_storage w |})
      | (None, new_disk) =>
          (inr tt, {| disk := new_disk; temp_storage := forgotten |})
      end
    else (inr tt, {| disk := disk w; temp_storage := forgotten |}).
Proof.
  intros Hsession. unfold Storage.cleanup_session.
  unfold mbind, mret, eff_mbind, eff_mret, eff_bind, eff_ret, raise,
    try_except, self_, modify, writing, reading, of_core;
    cbn beta iota zeta.
  rewrite Hsession.
  destruct (os_path_exists _ _); [|done].
  by destruct (shutil_rmtree _ _) as [[e|] new_disk].
Qed.

Lemma cleanup_loop_cons {os : Os} cutoff_time video_id video_ids (w : World) :
  Storage.cleanup_loop cutoff_time (video_id :: video_ids) w
  = match PyDict.get (sessions (temp_storage w)) video_id with
    | None => (inl KeyError, w)
    | Some session =>
        if bool_decide (Session.created_at session < cutoff_time) then
          match Storage.cleanup_session video_id w with
          | (inl e, w) => (inl e, w)
          | (inr _, w) => Storage.cleanup_loop cutoff_time video_ids w
          end
        else Storage.cleanup_loop cutoff_time video_ids w
    end.
Proof.
  cbn [Storage.cleanup_loop].
  unfold mbind, mret, eff_mbind, eff_mret, eff_bind, eff_ret, raise, self_;
    cbn beta iota zeta.
  destruct (PyDict.get _ _) as [session|]; [|done].
  by destruct (bool_decide _).
Qed.

Lemma keys_app {V} (kept rest : list (string * V)) :
  PyDict.keys (kept ++ rest) = PyDict.keys kept ++ PyDict.keys rest.
Proof. unfold PyDict.keys. apply fmap_app. Qed.

(** The loop of [_cleanup_old_files] on the sessions not yet visited. *)
Lemma cleanup_loop_run {os : Os} cutoff_time kept rest (w : World) :
  sessions (temp_storage w) = kept ++ rest →
  NoDup (PyDict.keys (kept ++ rest)) →
  let r := Storage.cleanup_loop cutoff_time (PyDict.keys rest) w in
  base_temp_dir (temp_storage r.2) = base_temp_dir (temp_storage w)
  ∧ match r.1 with
    | inr _ =>
        sessions (temp_storage r.2)
        = kept ++ filter (λ entry,
                            ¬ Session.created_at entry.2 < cutoff_time) rest
    | inl e =>
        ∃ visited video_id session later,
          rest = visited ++ (video_id, session) :: later
          ∧ sessions (temp_storage r.2)
            = kept
              ++ filter (λ entry,
                           ¬ Session.created_at entry.2 < cutoff_time)
                        visited
              ++ (video_id, session) :: later
          ∧ Session.created_at session < cutoff_time
    end.
Proof.
  revert kept w.
  induction rest as [|[video_id session] rest IH]; intros kept w Hw Hnodup.
  { cbn. by rewrite Hw. }
  cbn zeta.
  change (PyDict.keys ((video_id, session) :: rest))
    with (video_id :: PyDict.keys rest).
  rewrite cleanup_loop_cons, Hw.
  assert (video_id ∉ PyDict.keys kept) as Hfresh.
  { rewrite keys_app in Hnodup. apply NoDup_app in Hnodup as (_ & Hdisj & _).
    intros Hin. apply (Hdisj _ Hin). unfold PyDict.keys. cbn. left. }
  assert (NoDup (PyDict.keys (kept ++ rest))) as Hnodup'.
  { rewrite keys_app in Hnodup |- *.
    apply NoDup_app in Hnodup as (Hkept & Hdisj & Hrest).
    apply NoDup_app. split_and!; [done| |].
    - intros k Hk Hin. apply (Hdisj k Hk). unfold PyDict.keys. cbn.
      by right.
    - unfold PyDict.keys in Hrest. cbn in Hrest.
      by apply NoDup_cons in Hrest as [_ ?]. }
  rewrite get_app_r by done.
  destruct (bool_decide (Session.created_at session < cutoff_time))
    eqn:Hold.
  - apply bool_decide_eq_true in Hold.
    rewrite (cleanup_session_run w video_id session)
      by (by rewrite Hw, get_app_r).
    cbn zeta. rewrite Hw, delitem_app_r by done.
    destruct (os_path_exists _ _).
    + destruct (shutil_rmtree _ _) as [[e|] new_disk].
      * cbn. split; [done|]. exists [], video_id, session, rest.
        split_and!; [done| |done].
        by rewrite Hw.
      * match goal with |- context [Storage.cleanup_loop _ _ ?w1] =>
          destruct (IH kept w1 eq_refl Hnodup') as [Hbase Hrun]
        end.
        cbn zeta in Hbase, Hrun. split; [done|].
        destruct (Storage.cleanup_loop _ _ _) as [[e|[]] w2]; cbn [fst snd] in *.
        -- destruct Hrun as (visited & id & s & later & -> & Hs & Hlt).
           exists ((video_id, session) :: visited), id, s, later.
           split_and!; [done| |done].
           rewrite filter_cons_False by (intros Hnew; by apply Hnew). done.
        -- by rewrite filter_cons_False by (intros Hnew; by apply Hnew).
    + match goal with |- context [Storage.cleanup_loop _ _ ?w1] =>
        destruct (IH kept w1 eq_refl Hnodup') as [Hbase Hrun]
      end.
      cbn zeta in Hbase, Hrun. split; [done|].
      destruct (Storage.cleanup_loop _ _ _) as [[e|[]] w2]; cbn [fst snd] in *.
      * destruct Hrun as (visited & id & s & later & -> & Hs & Hlt).
        exists ((video_id, session) :: visited), id, s, later.
        split_and!; [done| |done].
        rewrite filter_cons_False by (intros Hnew; by apply Hnew). done.
      * by rewrite filter_cons_False by (intros Hnew; by apply Hnew).
  - apply bool_decide_eq_false in Hold.
    assert (sessions (temp_storage w) = (kept ++ [(video_id, session)]) ++ rest)
      as Hw' by (by rewrite Hw, <- app_assoc).
    assert (NoDup (PyDict.keys ((kept ++ [(video_id, session)]) ++ rest)))
      as Hnodup'' by (by rewrite <- app_assoc).
    destruct (IH (kept ++ [(video_id, session)]) w Hw' Hnodup'')
      as [Hbase Hrun].
    cbn zeta in Hbase, Hrun. split; [done|].
    destruct (Storage.cleanup_loop _ _ _) as [[e|[]] w2]; cbn [fst snd] in *.
    + destruct Hrun as (visited & id & s & later & -> & Hs & Hlt).
      exists ((video_id, session) :: visited), id, s, later.
      split_and!; [done| |done].
      rewrite filter_cons_True by done. by rewrite Hs, <- app_assoc.
    + rewrite filter_cons_True by done. by rewrite Hrun, <- app_assoc.
Qed.

(** Nothing old: the loop makes no call and leaves the world as it is. *)
Lemma cleanup_loop_nothing_old {os : Os} cutoff_time kept rest (w : World) :
  sessions (temp_storage w) = kept ++ rest →
  NoDup (PyDict.keys (kept ++ rest)) →
  Forall (λ entry, ¬ Session.created_at entry.2 < cutoff_time) rest →
  Storage.cleanup_loop cutoff_time (PyDict.keys rest) w = (inr tt, w).
Proof.
  revert kept.
  induction rest as [|[video_id session] rest IH]; intros kept Hw Hnodup Hnew.
  { done. }
  apply Forall_cons in Hnew as [Hnew Hrest]. cbn in Hnew.
  change (PyDict.keys ((video_id, session) :: rest))
    with (video_id :: PyDict.keys rest).
  rewrite cleanup_loop_cons, Hw.
  assert (video_id ∉ PyDict.keys kept) as Hfresh.
  { rewrite keys_app in Hnodup. apply NoDup_app in Hnodup as (_ & Hdisj & _).
    intros Hin. apply (Hdisj _ Hin). unfold PyDict.keys. cbn. left. }
  rewrite get_app_r by done. rewrite bool_decide_eq_false_2 by done.
  apply (IH (kept ++ [(video_id, session)])).
  - by rewrite Hw, <- app_assoc.
  - by rewrite <- app_assoc.
  - done.
Qed.

(** X16. [cleanup_session] on an existing session calls [shutil.rmtree] on
    the session directory exactly when that directory exists. When the
    removal raises, the exception propagates and the session stays in the
    store; otherwise the session is gone, the store answers [None] for
    its identifier and every other session is as before. *)
Theorem cleanup_session_forgets_the_session {os : Os} (w : World)
    (video_id : string) (session : Session.t) :
  NoDup (PyDict.keys (sessions (temp_storage w))) →
  PyDict.get (sessions (temp_storage w)) video_id = Some session →
  let session_dir :=
    PyOs.path_join (base_temp_dir (temp_storage w)) video_id in
  let there := os_path_exists (disk w) session_dir in
  let removal := shutil_rmtree session_dir (disk w) in
  let r := Storage.cleanup_session video_id w in
  disk r.2 = (if there then removal.2 else disk w)
  ∧ match (if there then removal.1 else None) with
    | Some e => r.1 = inl e ∧ temp_storage r.2 = temp_storage w
    | None =>
        r.1 = inr tt
        ∧ Storage.get_session_info (temp_storage r.2) video_id = None
        ∧ Storage.get_video_path (temp_storage r.2) video_id = None
        ∧ (∀ other, other ≠ video_id →
             Storage.get_session_info (temp_storage r.2) other
             = Storage.get_session_info (temp_storage w) other)
        ∧ base_temp_dir (temp_storage r.2) = base_temp_dir (temp_storage w)
    end.
Proof.
  intros Hnodup Hsession. cbn zeta.
  rewrite (cleanup_session_run w video_id session Hsession). cbn zeta.
  unfold Storage.get_session_dir, Storage.get_session_info,
    Storage.get_video_path.
  destruct (os_path_exists _ _).
  - destruct (shutil_rmtree _ _) as [[e|] new_disk]; cbn; [done|].
    rewrite get_delitem by done. split_and!; try done.
    intros other Hother. by apply get_delitem_ne.
  - cbn. rewrite get_delitem by done. split_and!; try done.
    intros other Hother. by apply get_delitem_ne.
Qed.

(** X16 on the first session of [ToyOs.two_sessions]. *)
Lemma cleanup_session_forgets_the_session_witness :
  let w := ToyOs.two_sessions in
  let session_dir := PyOs.path_join (base_temp_dir (temp_storage w)) "old" in
  let there := os_path_exists (disk w) session_dir in
  let removal := shutil_rmtree session_dir (disk w) in
  let r := Storage.cleanup_session "old" w in
  disk r.2 = (if there then removal.2 else disk w)
  ∧ match (if there then removal.1 else None) with
    | Some e => r.1 = inl e ∧ temp_storage r.2 = temp_storage w
    | None =>
        r.1 = inr tt
        ∧ Storage.get_session_info (temp_storage r.2) "old" = None
        ∧ Storage.get_video_path (temp_storage r.2) "old" = None
        ∧ (∀ other, other ≠ "old" →
             Storage.get_session_info (temp_storage r.2) other
             = Storage.get_session_info (temp_storage w) other)
        ∧ base_temp_dir (temp_storage r.2) = base_temp_dir (temp_storage w)
    end.
Proof.
  apply (cleanup_session_forgets_the_session ToyOs.two_sessions "old"
           (ToyOs.session_at "old" 0)).
  - apply (bool_decide_unpack _). by vm_compute.
  - reflexivity.
Defined.

Example cleanup_of_old_session :
  let r := Storage.cleanup_session "old" ToyOs.two_sessions in
  r.1 = inr tt
  ∧ disk r.2 = [("web_temp_uploads", ToyOs.Dir)]
  ∧ PyDict.keys (sessions (temp_storage r.2)) = ["new"].
Proof. cbn zeta. split_and!; reflexivity. Qed.

(** X17. [_cleanup_old_files] visits the sessions in the order of the
    dict and cleans up those created before [now - hours_old]: when it
    returns, the store holds exactly the sessions that are not older, in
    their order. When a removal raises, the sessions visited before are
    cleaned up, the one whose directory could not be removed and the
    later ones stay. When no session is older, nothing is called and
    nothing changes. *)
Theorem old_sessions_are_forgotten {os : Os} (w : World)
    (now hours_old : Z) :
  NoDup (PyDict.keys (sessions (temp_storage w))) →
  let cutoff_time := now - hours_old * 3600000000 in
  let r := Storage._cleanup_old_files now hours_old w in
  base_temp_dir (temp_storage r.2) = base_temp_dir (temp_storage w)
  ∧ match r.1 with
    | inr _ =>
        sessions (temp_storage r.2)
        = filter (λ entry, ¬ Session.created_at entry.2 < cutoff_time)
            (sessions (temp_storage w))
    | inl e =>
        ∃ visited video_id session later,
          sessions (temp_storage w)
          = visited ++ (video_id, session) :: later
          ∧ sessions (temp_storage r.2)
            = filter (λ entry, ¬ Session.created_at entry.2 < cutoff_time)
                visited
              ++ (video_id, session) :: later
          ∧ Session.created_at session < cutoff_time
    end
  ∧ (Forall (λ entry, ¬ Session.created_at entry.2 < cutoff_time)
       (sessions (temp_storage w)) →
     r = (inr tt, w)).
Proof.
  intros Hnodup. cbn zeta. unfold Storage._cleanup_old_files.
  unfold mbind, eff_mbind, eff_bind, self_; cbn beta iota zeta.
  unfold timedelta_hours.
  destruct (cleanup_loop_run (now - hours_old * 3600000000) []
              (sessions (temp_storage w)) w eq_refl Hnodup) as [Hbase Hrun].
  cbn zeta in Hbase, Hrun. split_and!.
  - done.
  - done.
  - intros Hnew. by apply (cleanup_loop_nothing_old _ []).
Qed.

(** X17 on [ToyOs.two_sessions], a day and a half after the first
    session was created. *)
Lemma old_sessions_are_forgotten_witness :
  let w := ToyOs.two_sessions in
  let now := 36 * 3600000000 in
  let cutoff_time := now - 24 * 3600000000 in
  let r := Storage._cleanup_old_files now 24 w in
  base_temp_dir (temp_storage r.2) = base_temp_dir (temp_storage w)
  ∧ match r.1 with
    | inr _ =>
        sessions (temp_storage r.2)
        = filter (λ entry, ¬ Session.created_at entry.2 < cutoff_time)
            (sessions (temp_storage w))
    | inl e =>
        ∃ visited video_id session later,
          sessions (temp_storage w)
          = visited ++ (video_id, session) :: later
          ∧ sessions (temp_storage r.2)
            = filter (λ entry, ¬ Session.created_at entry.2 < cutoff_time)
                visited
              ++ (video_id, session) :: later
          ∧ Session.created_at session < cutoff_time
    end
  ∧ (Forall (λ entry, ¬ Session.created_at entry.2 < cutoff_time)
       (sessions (temp_storage w)) →
     r = (inr tt, w)).
Proof.
  apply (old_sessions_are_forgotten ToyOs.two_sessions (36 * 3600000000) 24).
  apply (bool_decide_unpack _). by vm_compute.
Defined.

Example cleanup_after_a_day_and_a_half :
  let r := Storage._cleanup_old_files (36 * 3600000000) 24
             ToyOs.two_sessions in
  r.1 = inr tt
  ∧ PyDict.keys (sessions (temp_storage r.2)) = ["new"]
  ∧ disk r.2 = [("web_temp_uploads", ToyOs.Dir)].
Proof. cbn zeta. split_and!; reflexivity. Qed.

(** X18. Constructing the store makes the base directory and nothing
    else: [_cleanup_old_files] runs on the sessions of the new object,
    which has none, so [shutil.rmtree] is never called and what earlier
    runs left below the base directory stays. The constructor raises only
    what [os.makedirs] raised. *)
Theorem store_start_up_removes_nothing {os : Os} (base_temp_dir : string)
    (now : Z) (disk0 : FS) :
  Storage.init base_temp_dir now disk0
  = (match (os_makedirs base_temp_dir disk0).1 with
     | Some e => inl e
     | None => inr tt
     end,
     {| disk := (os_makedirs base_temp_dir disk0).2;
        temp_storage :=
          {| base_temp_dir := base_temp_dir; sessions := [] |} |}).
Proof.
  unfold Storage.init, Storage._cleanup_old_files.
  unfold mbind, mret, eff_mbind, eff_mret, eff_bind, eff_ret, self_, writing;
    cbn beta iota zeta.
  cbn [disk temp_storage].
  by destruct (os_makedirs base_temp_dir disk0) as [[e|] new_disk].
Qed.

Example start_up_keeps_old_uploads :
  let r := Storage.init "web_temp_uploads" (1000 * 3600000000)
             (disk ToyOs.two_sessions) in
  r.1 = inr tt ∧ disk r.2 = disk ToyOs.two_sessions.
Proof. cbn zeta. split_and!; reflexivity. Qed.

(** ** The API layer: what the endpoints answer *)

Lemma get_analysis_result_reads {os : Os} video_id (w : World) :
  (Storage.get_analysis_result video_id w).2 = w.
Proof.
  unfold Storage.get_analysis_result.
  unfold mbind, mret, eff_mbind, eff_mret, eff_bind, eff_ret, raise, self_,
    reading; cbn beta iota zeta.
  destruct (PyDict.get _ _) as [session|]; [|done].
  destruct (Session.analysis_json _) as [path|]; [|done].
  destruct (negb _ || negb _); [done|].
  by destruct (json_load _ _).
Qed.

Lemma or_404_missing {os : Os} path (w : World) :
  path_truthy path = false →
  Main.or_404 path w = (inl (HTTPException 404), w).
Proof.
  intros Hpath. unfold Main.or_404. destruct path as [found|]; [|done].
  by rewrite Hpath.
Qed.

(** X19. The status endpoint reads only. It answers 404 exactly when the
    store has no session for the identifier; otherwise it reports the
    status, message and progress of the session, a download URL exactly
    when the status is [COMPLETED] and a preview URL exactly when a
    preview path is stored. A stored progress outside [0, 100] is
    rejected by the response model, and the request fails. *)
Theorem status_endpoint_reports_the_session {os : Os} (w : World)
    (video_id : string) :
  let r := Main.get_processing_status video_id w in
  r.2 = w
  ∧ match Storage.get_session_info (temp_storage w) video_id with
    | None => r.1 = inl (HTTPException 404)
    | Some session =>
        let progress := to_float (Session.progress session) in
        if PrimFloat.leb 0%float progress && PrimFloat.leb progress 100%float
        then
          r.1
          = inr (Main.Status
                   {| Main.status_video_id := video_id;
                      Main.status := Session.status session;
                      Main.progress := progress;
                      Main.message := Session.message session;
                      Main.download_url :=
                        match Session.status session with
                        | ProcessingStatus.COMPLETED =>
                            Some ("/api/download/" +:+ video_id)
                        | _ => None
                        end;
                      Main.preview_url :=
                        match Session.preview_video (Session.files session)
                        with
                        | Some path =>
                            if bool_decide (path = "") then None
                            else Some ("/api/preview-file/" +:+ video_id)
                        | None => None
                        end;
                      Main.error := None |})
        else r.1 = inl ValidationError
    end.
Proof.
  cbn zeta. unfold Main.get_processing_status, Storage.get_session_info,
    Storage.get_preview_path, Main.StatusResponse_new.
  unfold mbind, mret, eff_mbind, eff_mret, eff_bind, eff_ret, raise, self_;
    cbn beta iota zeta.
  destruct (PyDict.get _ _) as [session|]; [|done]. cbn.
  destruct (PrimFloat.leb 0 _ && PrimFloat.leb _ 100); [|done].
  cbn. split; [done|]. do 3 f_equal.
  - by destruct (Session.status session).
  - destruct (Session.preview_video _) as [path|]; [|done]. cbn.
    by destruct (bool_decide (path = "")).
Qed.

Example status_after_upload :
  (Main.get_processing_status ToyOs.an_id ToyOs.uploaded).1
  = inr (Main.Status
           {| Main.status_video_id := ToyOs.an_id;
              Main.status := ProcessingStatus.UPLOADED;
              Main.progress := 0%float;
              Main.message := Text "Video uploaded successfully";
              Main.download_url := None;
              Main.preview_url := None;
              Main.error := None |})
  ∧ (Main.get_processing_status "unknown" ToyOs.uploaded).1
    = inl (HTTPException 404).
Proof. cbn zeta. split_and!; reflexivity. Qed.

(** X20. The five endpoints whose body is inside
    [try: ... except Exception] never answer with anything but status
    500: the [HTTPException] with status 400 or 404 that the body raises
    is caught with the rest. An upload whose content type does not start
    with ["video/"] is answered with 500 and creates nothing. Without an
    uploaded video for the identifier, analysis, processing and preview
    are answered with 500; the first two also set the status of the
    session, when there is one, to [ERROR]. Without a stored analysis the
    endpoint that returns the analysis answers 500. *)
Theorem client_errors_are_answered_with_500 {os : Os}
    (GaussianBlur : Frame → Z → Frame) (resize : Frame → Z → Z → Frame)
    (w : World) (video_id : string) (file : Main.UploadFile)
    (uuid4 : string) (now : Z) (preview_request : Main.PreviewRequest)
    (process_request : Main.ProcessRequest) :
  (∀ e,
     (Main.upload_video file uuid4 now w).1 = inl e
     ∨ (Main.analyze_video video_id w).1 = inl e
     ∨ (Main.get_analysis_result video_id w).1 = inl e
     ∨ (Main.generate_preview GaussianBlur resize video_id preview_request
          w).1 = inl e
     ∨ (Main.process_video video_id process_request w).1 = inl e →
     e = HTTPException 500)
  ∧ ((∀ content_type,
        Main.content_type file = Some content_type →
        String.prefix "video/" content_type = false) →
     Main.upload_video file uuid4 now w = (inl (HTTPException 500), w))
  ∧ (path_truthy (Storage.get_video_path (temp_storage w) video_id) = false →
     let failed prefix :=
       {| disk := disk w;
          temp_storage :=
            Storage.update_session_status (temp_storage w) video_id
              ProcessingStatus.ERROR (Failure prefix (HTTPException 404))
              default_progress |} in
     Main.analyze_video video_id w
     = (inl (HTTPException 500), failed "Analysis error: ")
     ∧ Main.process_video video_id process_request w
       = (inl (HTTPException 500), failed "Processing error: ")
     ∧ Main.generate_preview GaussianBlur resize video_id preview_request w
       = (inl (HTTPException 500), w))
  ∧ ((Storage.get_analysis_result video_id w).1 = inr None →
     Main.get_analysis_result video_id w = (inl (HTTPException 500), w)).
Proof.
  split_and!.
  - intros e.
    unfold Main.upload_video, Main.analyze_video, Main.get_analysis_result,
      Main.generate_preview, Main.process_video.
    unfold try_except at 1 2 3 4 5.
    intros [H|[H|[H|[H|H]]]];
      match type of H with
      | (match ?body with _ => _ end).1 = _ =>
          destruct body as [[e'|a] w'];
            [ unfold mbind, eff_mbind, eff_bind, modify, raise in H;
              cbn in H; by injection H as <-
            | cbn in H; discriminate H ]
      end.
  - intros Hnot. unfold Main.upload_video, try_except.
    destruct (Main.content_type file) as [content_type|]; [|done].
    by rewrite (Hnot content_type eq_refl).
  - intros Hpath. cbn zeta.
    unfold Main.analyze_video, Main.process_video, Main.generate_preview.
    unfold mbind, mret, eff_mbind, eff_mret, eff_bind, eff_ret, try_except,
      self_; cbn beta iota zeta.
    rewrite !or_404_missing by done. done.
  - intros Hnone. unfold Main.get_analysis_result, try_except.
    unfold mbind, eff_mbind, eff_bind.
    pose proof (get_analysis_result_reads video_id w) as Hsame.
    destruct (Storage.get_analysis_result video_id w) as [result w'].
    cbn in Hnone, Hsame. by subst.
Qed.

Example unknown_video_is_answered_with_500 :
  (Main.analyze_video "unknown" ToyOs.uploaded).1 = inl (HTTPException 500)
  ∧ (Main.get_analysis_result ToyOs.an_id ToyOs.uploaded).1
    = inl (HTTPException 500)
  ∧ (Main.upload_video
       {| Main.content_type := Some "image/png";
          Main.filename := "a.png";
          Main.file_content := "abc" |} ToyOs.an_id 0 ToyOs.fresh)
    = (inl (HTTPException 500), ToyOs.fresh)
  ∧ (Main.get_processing_status "unknown" ToyOs.uploaded).1
    = inl (HTTPException 404).
Proof. cbn zeta. split_and!; reflexivity. Qed.

(** ** The API layer: the background tasks *)

Lemma update_session_status_get self video_id session status message
    progress :
  PyDict.get (sessions self) video_id = Some session →
  PyDict.get
    (sessions
       (Storage.update_session_status self video_id status message progress))
    video_id
  = Some (Session.set_status session status message progress).
Proof.
  intros Hsession. unfold Storage.update_session_status. rewrite Hsession.
  apply get_setitem.
Qed.

Lemma update_session_status_get_ne self video_id other status message
    progress :
  other ≠ video_id →
  PyDict.get
    (sessions
       (Storage.update_session_status self video_id status message progress))
    other
  = PyDict.get (sessions self) other.
Proof.
  intros Hother. unfold Storage.update_session_status.
  destruct (PyDict.get (sessions self) video_id); [|done].
  by apply get_setitem_ne.
Qed.

Lemma update_session_status_base self video_id status message progress :
  base_temp_dir
    (Storage.update_session_status self video_id status message progress)
  = base_temp_dir self.
Proof.
  unfold Storage.update_session_status.
  by destruct (PyDict.get (sessions self) video_id).
Qed.

(** X21. The analysis task never raises. It leaves the other sessions as
    they were and ends in one of two states: when [analyze_video] returns
    and the result can be written, the session has status [ANALYZED],
    progress 100 and the path of the JSON file; when either fails, the
    session has status [ERROR], progress [0.0], the message made of the
    exception, and its files as before. *)
Theorem analysis_task_ends_analyzed_or_error {os : Os}
    (processor : VideoProcessor) (w : World)
    (video_id video_path : string) (session : Session.t) :
  PyDict.get (sessions (temp_storage w)) video_id = Some session →
  let cap := cv2_VideoCapture (disk w) video_path in
  let json_path :=
    PyOs.path_join (PyOs.path_join (base_temp_dir (temp_storage w)) video_id)
      "analysis_result.json" in
  let r := Main.perform_analysis processor video_id video_path w in
  r.1 = inr tt
  ∧ (∀ other, other ≠ video_id →
       Storage.get_session_info (temp_storage r.2) other
       = Storage.get_session_info (temp_storage w) other)
  ∧ match analyze_video processor cap with
    | inl e =>
        disk r.2 = disk w
        ∧ Storage.get_session_info (temp_storage r.2) video_id
          = Some (Session.set_status session ProcessingStatus.ERROR
                    (Failure "Analysis failed: " (Core e)) default_progress)
    | inr result =>
        let dumped :=
          json_dump json_path
            {| file_path := video_path; analysis := result |} (disk w) in
        disk r.2 = dumped.2
        ∧ Storage.get_session_info (temp_storage r.2) video_id
          = Some
              match dumped.1 with
              | Some e =>
                  Session.set_status session ProcessingStatus.ERROR
                    (Failure "Analysis failed: " e) default_progress
              | None =>
                  Session.set_status
                    (Session.set_analysis_json session json_path)
                    ProcessingStatus.ANALYZED (Text "Analysis completed")
                    (PyInt 100)
              end
    end.
Proof.
  intros Hsession. cbn zeta.
  destruct (analyze_video processor (cv2_VideoCapture (disk w) video_path))
    as [e|result] eqn:Hanalysis.
  - assert (Main.perform_analysis processor video_id video_path w
            = (inr tt,
               {| disk := disk w;
                  temp_storage :=
                    Storage.update_session_status
                      (Storage.update_session_status (temp_storage w)
                         video_id ProcessingStatus.ANALYZING
                         (Text "Detecting faces...") (PyInt 30))
                      video_id ProcessingStatus.ERROR
                      (Failure "Analysis failed: " (Core e))
                      default_progress |})) as ->.
    { unfold Main.perform_analysis.
      unfold mbind, mret, eff_mbind, eff_mret, eff_bind, eff_ret, raise,
        try_except, self_, modify, writing, reading, of_core;
        cbn beta iota zeta.
      cbn [disk temp_storage]. by rewrite Hanalysis. }
    cbn [fst snd disk temp_storage]. unfold Storage.get_session_info.
    split_and!; try done.
    + intros other Hother. by rewrite !update_session_status_get_ne.
    + by rewrite (update_session_status_get _ _
                    (Session.set_status session ProcessingStatus.ANALYZING
                       (Text "Detecting faces...") (PyInt 30)))
        by (by apply update_session_status_get).
  - destruct (json_dump
                (PyOs.path_join
                   (PyOs.path_join (base_temp_dir (temp_storage w)) video_id)
                   "analysis_result.json")
                {| file_path := video_path; analysis := result |} (disk w))
      as [raised new_disk] eqn:Hdump.
    assert (Main.perform_analysis processor video_id video_path w
            = (inr tt,
               {| disk := new_disk;
                  temp_storage :=
                    match raised with
                    | Some e =>
                        Storage.update_session_status
                          (Storage.update_session_status (temp_storage w)
                             video_id ProcessingStatus.ANALYZING
                             (Text "Detecting faces...") (PyInt 30))
                          video_id ProcessingStatus.ERROR
                          (Failure "Analysis failed: " e) default_progress
                    | None =>
                        Storage.update_session_status
                          (Storage.with_sessions
                             (Storage.update_session_status (temp_storage w)
                                video_id ProcessingStatus.ANALYZING
                                (Text "Detecting faces...") (PyInt 30))
                             (PyDict.setitem
                                (sessions
                                   (Storage.update_session_status
                                      (temp_storage w) video_id
                                      ProcessingStatus.ANALYZING
                                      (Text "Detecting faces...") (PyInt 30)))
                                video_id
                                (Session.set_analysis_json
                                   (Session.set_status session
                                      ProcessingStatus.ANALYZING
                                      (Text "Detecting faces...") (PyInt 30))
                                   (PyOs.path_join
                                      (PyOs.path_join
                                         (base_temp_dir (temp_storage w))
                                         video_id)
                                      "analysis_result.json"))))
                          video_id ProcessingStatus.ANALYZED
                          (Text "Analysis completed") (PyInt 100)
                    end |})) as ->.
    { unfold Main.perform_analysis, Storage.save_analysis_result,
        Storage.set_file, Storage.get_session_dir.
      unfold mbind, mret, eff_mbind, eff_mret, eff_bind, eff_ret, raise,
        try_except, self_, modify, writing, reading, of_core;
        cbn beta iota zeta.
      cbn [disk temp_storage]. rewrite Hanalysis.
      unfold eff_ret. cbn beta iota zeta.
      cbn [disk temp_storage]. rewrite update_session_status_base, Hdump.
      destruct raised as [e|]; [done|]. cbn beta iota.
      cbn [disk temp_storage].
      by rewrite (update_session_status_get _ _ session). }
    cbn [fst snd disk temp_storage]. unfold Storage.get_session_info.
    split_and!; try done.
    + intros other Hother. destruct raised as [e|].
      * by rewrite !update_session_status_get_ne.
      * rewrite update_session_status_get_ne by done.
        cbn [sessions Storage.with_sessions].
        rewrite get_setitem_ne by done.
        by rewrite update_session_status_get_ne.
    + destruct raised as [e|].
      * by rewrite (update_session_status_get _ _
                      (Session.set_status session ProcessingStatus.ANALYZING
                         (Text "Detecting faces...") (PyInt 30)))
          by (by apply update_session_status_get).
      * by rewrite (update_session_status_get _ _
                      (Session.set_analysis_json
                         (Session.set_status session
                            ProcessingStatus.ANALYZING
                            (Text "Detecting faces...") (PyInt 30))
                         (PyOs.path_join
                            (PyOs.path_join (base_temp_dir (temp_storage w))
                               video_id)
                            "analysis_result.json")))
          by (cbn [sessions Storage.with_sessions]; by rewrite get_setitem).
Qed.

(** X21 on [ToyOs.uploaded], with a detector that reports one face on
    every frame. *)
Lemma analysis_task_ends_analyzed_or_error_witness :
  let processor := Examples.hog_reporting (mkRect 2 2 3 3) in
  let w := ToyOs.uploaded in
  let video_path :=
    "web_temp_uploads/0f0e5c1c-6f0b-4c55-9a43-0d3a4f0f2b11/original_video.mp4" in
  let cap := cv2_VideoCapture (disk w) video_path in
  let json_path :=
    PyOs.path_join
      (PyOs.path_join (base_temp_dir (temp_storage w)) ToyOs.an_id)
      "analysis_result.json" in
  let r := Main.perform_analysis processor ToyOs.an_id video_path w in
  r.1 = inr tt
  ∧ (∀ other, other ≠ ToyOs.an_id →
       Storage.get_session_info (temp_storage r.2) other
       = Storage.get_session_info (temp_storage w) other)
  ∧ match analyze_video processor cap with
    | inl e =>
        disk r.2 = disk w
        ∧ Storage.get_session_info (temp_storage r.2) ToyOs.an_id
          = Some (Session.set_status ToyOs.uploaded_session
                    ProcessingStatus.ERROR
                    (Failure "Analysis failed: " (Core e)) default_progress)
    | inr result =>
        let dumped :=
          json_dump json_path
            {| file_path := video_path; analysis := result |} (disk w) in
        disk r.2 = dumped.2
        ∧ Storage.get_session_info (temp_storage r.2) ToyOs.an_id
          = Some
              match dumped.1 with
              | Some e =>
                  Session.set_status ToyOs.uploaded_session
                    ProcessingStatus.ERROR
                    (Failure "Analysis failed: " e) default_progress
              | None =>
                  Session.set_status
                    (Session.set_analysis_json ToyOs.uploaded_session
                       json_path)
                    ProcessingStatus.ANALYZED (Text "Analysis completed")
                    (PyInt 100)
              end
    end.
Proof.
  apply (analysis_task_ends_analyzed_or_error
           (Examples.hog_reporting (mkRect 2 2 3 3)) ToyOs.uploaded
           ToyOs.an_id
           "web_temp_uploads/0f0e5c1c-6f0b-4c55-9a43-0d3a4f0f2b11/original_video.mp4"
           ToyOs.uploaded_session).
  reflexivity.
Defined.

(** The fields of a session that a status update leaves alone. *)
Lemma set_status_twice session status message progress status' message'
    progress' :
  Session.set_status (Session.set_status session status message progress)
    status' message' progress'
  = Session.set_status session status' message' progress'.
Proof. done. Qed.

(** The calls of the progress callback change the status, message and
    progress of the session and nothing else. *)
Lemma progress_callbacks_run video_id percents self session :
  PyDict.get (sessions self) video_id = Some session →
  let after := foldl (Main.progress_callback video_id) self percents in
  (∃ updated,
     PyDict.get (sessions after) video_id = Some updated
     ∧ ∀ status message progress,
         Session.set_status updated status message progress
         = Session.set_status session status message progress)
  ∧ (∀ other, other ≠ video_id →
       PyDict.get (sessions after) other = PyDict.get (sessions self) other)
  ∧ base_temp_dir after = base_temp_dir self.
Proof.
  revert self session.
  induction percents as [|percent percents IH]; intros self session Hsession.
  { cbn. split_and!; [by exists session|done|done]. }
  cbn [foldl]. cbn zeta.
  destruct (IH (Main.progress_callback video_id self percent)
              (Session.set_status session ProcessingStatus.PROCESSING
                 (ProcessingPercent percent)
                 (PyFloat
                    (PrimFloat.add (Py.float_of_int 50)
                       (PrimFloat.mul percent 0.5%float)))))
    as ((updated & Hupdated & Hsame) & Hothers & Hbase).
  { unfold Main.progress_callback. by apply update_session_status_get. }
  cbn zeta in *. split_and!.
  - exists updated. split; [done|]. intros status message progress.
    by rewrite Hsame.
  - intros other Hother. rewrite Hothers by done.
    unfold Main.progress_callback.
    by apply update_session_status_get_ne.
  - rewrite Hbase. unfold Main.progress_callback.
    apply update_session_status_base.
Qed.

(** X22. Processing is refused without a stored analysis, although the
    render takes its regions from the request and never reads the
    analysis: when [get_analysis_result] returns [None] (or a value that
    is false), the task returns without raising, leaves the file system
    as it is, and leaves the session, if there is one, with status
    [ERROR], the message of the failure and progress [0.0]. *)
Theorem processing_needs_a_stored_analysis {os : Os}
    (GaussianBlur : Frame → Z → Frame) (w : World)
    (video_id video_path : string)
    (masks_data : gmap PyKey (list MaskDict)) (blur_strength : Z)
    (stored : option Json) :
  (Storage.get_analysis_result video_id w).1 = inr stored →
  (∀ found, stored = Some found → truthy found = false) →
  let r :=
    Main.perform_processing GaussianBlur video_id video_path masks_data
      blur_strength w in
  r.1 = inr tt
  ∧ disk r.2 = disk w
  ∧ temp_storage r.2
    = Storage.update_session_status (temp_storage w) video_id
        ProcessingStatus.ERROR (Failure "Processing failed: " PlainException)
        default_progress.
Proof.
  intros Hstored Hfalse. cbn zeta.
  pose proof (get_analysis_result_reads video_id w) as Hreads.
  destruct (Storage.get_analysis_result video_id w) as [result w'] eqn:Hget.
  cbn in Hstored, Hreads. subst.
  assert (Main.perform_processing GaussianBlur video_id video_path masks_data
            blur_strength w
          = (inr tt,
             {| disk := disk w;
                temp_storage :=
                  Storage.update_session_status (temp_storage w) video_id
                    ProcessingStatus.ERROR
                    (Failure "Processing failed: " PlainException)
                    default_progress |})) as ->; [|done].
  unfold Main.perform_processing.
  unfold mbind at 1. unfold eff_mbind, eff_bind at 1, try_except.
  rewrite Hget.
  destruct stored as [found|].
  - rewrite (Hfalse found eq_refl).
    unfold mbind at 1. unfold eff_mbind, eff_bind at 1, raise, modify.
    done.
  - unfold mbind at 1. unfold eff_mbind, eff_bind at 1, raise, modify.
    done.
Qed.

(** X22 on [ToyOs.uploaded]: uploaded, not analysed. *)
Lemma processing_needs_a_stored_analysis_witness :
  let r :=
    Main.perform_processing Toy.mean_blur ToyOs.an_id
      "web_temp_uploads/0f0e5c1c-6f0b-4c55-9a43-0d3a4f0f2b11/original_video.mp4"
      {[ KStr "0" := [Examples.centre_mask] ]} 15 ToyOs.uploaded in
  r.1 = inr tt
  ∧ disk r.2 = disk ToyOs.uploaded
  ∧ temp_storage r.2
    = Storage.update_session_status (temp_storage ToyOs.uploaded) ToyOs.an_id
        ProcessingStatus.ERROR (Failure "Processing failed: " PlainException)
        default_progress.
Proof.
  apply (processing_needs_a_stored_analysis Toy.mean_blur ToyOs.uploaded
           ToyOs.an_id
           "web_temp_uploads/0f0e5c1c-6f0b-4c55-9a43-0d3a4f0f2b11/original_video.mp4"
           {[ KStr "0" := [Examples.centre_mask] ]} 15 None).
  - reflexivity.
  - intros found [=].
Defined.

(** Saving a file path and updating the status touch different fields. *)
Lemma set_status_set_output_video session path status message progress :
  Session.set_status (Session.set_output_video session path) status message
    progress
  = Session.set_output_video
      (Session.set_status session status message progress) path.
Proof. done. Qed.

(** X23. With a stored analysis and a session, the processing task never
    raises and leaves the other sessions as they were. It runs
    [process_video] on the uploaded path with the regions of the request,
    writing to [<base>/<id>/processed_video.mp4], and ends in one of two
    states: when the run returns [True], the session has status
    [COMPLETED], progress 100 and the output path; when it returns
    [False] or raises, the session has status [ERROR], progress [0.0],
    the message made of the exception, and its files as before. *)
Theorem processing_task_ends_completed_or_error {os : Os}
    (GaussianBlur : Frame → Z → Frame) (w : World)
    (video_id video_path : string)
    (masks_data : gmap PyKey (list MaskDict)) (blur_strength : Z)
    (session : Session.t) (found : Json) :
  PyDict.get (sessions (temp_storage w)) video_id = Some session →
  (Storage.get_analysis_result video_id w).1 = inr (Some found) →
  truthy found = true →
  let output_path :=
    PyOs.path_join (PyOs.path_join (base_temp_dir (temp_storage w)) video_id)
      "processed_video.mp4" in
  let run :=
    process_video GaussianBlur (cv2_VideoCapture (disk w) video_path)
      (cv2_VideoWriter (disk w) output_path) masks_data blur_strength true in
  let r :=
    Main.perform_processing GaussianBlur video_id video_path masks_data
      blur_strength w in
  r.1 = inr tt
  ∧ disk r.2 = release output_path run (disk w)
  ∧ (∀ other, other ≠ video_id →
       Storage.get_session_info (temp_storage r.2) other
       = Storage.get_session_info (temp_storage w) other)
  ∧ Storage.get_session_info (temp_storage r.2) video_id
    = Some
        match outcome run with
        | inr true =>
            Session.set_status (Session.set_output_video session output_path)
              ProcessingStatus.COMPLETED (Text "Processing completed")
              (PyInt 100)
        | inr false =>
            Session.set_status session ProcessingStatus.ERROR
              (Failure "Processing failed: " PlainException) default_progress
        | inl e =>
            Session.set_status session ProcessingStatus.ERROR
              (Failure "Processing failed: " (Core e)) default_progress
        end.
Proof.
  intros Hsession Hstored Htruthy. cbn zeta.
  pose proof (get_analysis_result_reads video_id w) as Hreads.
  destruct (Storage.get_analysis_result video_id w) as [result w'] eqn:Hget.
  cbn in Hstored, Hreads. subst.
  set (output_path :=
         PyOs.path_join
           (PyOs.path_join (base_temp_dir (temp_storage w)) video_id)
           "processed_video.mp4").
  set (run :=
         process_video GaussianBlur (cv2_VideoCapture (disk w) video_path)
           (cv2_VideoWriter (disk w) output_path) masks_data blur_strength
           true).
  destruct (progress_callbacks_run video_id (reported run) (temp_storage w)
              session Hsession)
    as ((updated & Hupdated & Hsame) & Hothers & Hbase).
  set (after :=
         foldl (Main.progress_callback video_id) (temp_storage w)
           (reported run)) in *.
  assert (Main.perform_processing GaussianBlur video_id video_path masks_data
            blur_strength w
          = (inr tt,
             {| disk := release output_path run (disk w);
                temp_storage :=
                  match outcome run with
                  | inr true =>
                      Storage.update_session_status
                        (Storage.with_sessions after
                           (PyDict.setitem (sessions after) video_id
                              (Session.set_output_video updated output_path)))
                        video_id ProcessingStatus.COMPLETED
                        (Text "Processing completed") (PyInt 100)
                  | inr false =>
                      Storage.update_session_status after video_id
                        ProcessingStatus.ERROR
                        (Failure "Processing failed: " PlainException)
                        default_progress
                  | inl e =>
                      Storage.update_session_status after video_id
                        ProcessingStatus.ERROR
                        (Failure "Processing failed: " (Core e))
                        default_progress
                  end |})) as ->.
  { unfold Main.perform_processing, Storage.save_output_video,
      Storage.set_file, Storage.get_session_dir.
    unfold mbind at 1. unfold eff_mbind, eff_bind at 1, try_except.
    rewrite Hget, Htruthy.
    unfold mbind, mret, eff_mbind, eff_mret, eff_bind, eff_ret, raise,
      self_, modify, writing, reading, of_core;
      cbn beta iota zeta.
    cbn [disk temp_storage].
    fold output_path. fold run. fold after.
    destruct (outcome run) as [e|[|]]; unfold raise, eff_ret;
      cbn beta iota zeta; [done| |done].
    cbn [disk temp_storage]. rewrite Hupdated. by cbn [disk temp_storage]. }
  cbn [fst snd disk temp_storage]. unfold Storage.get_session_info.
  split_and!; try done.
  - intros other Hother. destruct (outcome run) as [e|[|]].
    + by rewrite update_session_status_get_ne, Hothers.
    + rewrite update_session_status_get_ne by done.
      cbn [sessions Storage.with_sessions].
      by rewrite get_setitem_ne, Hothers.
    + by rewrite update_session_status_get_ne, Hothers.
  - destruct (outcome run) as [e|[|]].
    + by rewrite (update_session_status_get _ _ updated), Hsame.
    + rewrite (update_session_status_get _ _
                 (Session.set_output_video updated output_path))
        by (cbn [sessions Storage.with_sessions]; by rewrite get_setitem).
      by rewrite !set_status_set_output_video, Hsame.
    + by rewrite (update_session_status_get _ _ updated), Hsame.
Qed.

(** X23 on [ToyOs.analyzed]: a clip of three frames, one region on the
    first. *)
Lemma processing_task_ends_completed_or_error_witness :
  let output_path :=
    PyOs.path_join
      (PyOs.path_join (base_temp_dir (temp_storage ToyOs.analyzed))
         ToyOs.an_id)
      "processed_video.mp4" in
  let run :=
    process_video Toy.mean_blur
      (cv2_VideoCapture (disk ToyOs.analyzed)
         "web_temp_uploads/0f0e5c1c-6f0b-4c55-9a43-0d3a4f0f2b11/original_video.mp4")
      (cv2_VideoWriter (disk ToyOs.analyzed) output_path)
      {[ KStr "0" := [Examples.centre_mask] ]} 15 true in
  let r :=
    Main.perform_processing Toy.mean_blur ToyOs.an_id
      "web_temp_uploads/0f0e5c1c-6f0b-4c55-9a43-0d3a4f0f2b11/original_video.mp4"
      {[ KStr "0" := [Examples.centre_mask] ]} 15 ToyOs.analyzed in
  r.1 = inr tt
  ∧ disk r.2 = release output_path run (disk ToyOs.analyzed)
  ∧ (∀ other, other ≠ ToyOs.an_id →
       Storage.get_session_info (temp_storage r.2) other
       = Storage.get_session_info (temp_storage ToyOs.analyzed) other)
  ∧ Storage.get_session_info (temp_storage r.2) ToyOs.an_id
    = Some
        match outcome run with
        | inr true =>
            Session.set_status
              (Session.set_output_video ToyOs.analyzed_session output_path)
              ProcessingStatus.COMPLETED (Text "Processing completed")
              (PyInt 100)
        | inr false =>
            Session.set_status ToyOs.analyzed_session ProcessingStatus.ERROR
              (Failure "Processing failed: " PlainException) default_progress
        | inl e =>
            Session.set_status ToyOs.analyzed_session ProcessingStatus.ERROR
              (Failure "Processing failed: " (Core e)) default_progress
        end.
Proof.
  apply (processing_task_ends_completed_or_error Toy.mean_blur ToyOs.analyzed
           ToyOs.an_id
           "web_temp_uploads/0f0e5c1c-6f0b-4c55-9a43-0d3a4f0f2b11/original_video.mp4"
           {[ KStr "0" := [Examples.centre_mask] ]} 15 ToyOs.analyzed_session
           ToyOs.stored_analysis).
  - reflexivity.
  - reflexivity.
  - reflexivity.
Defined.

(** On [ToyOs.analyzed] the task completes: the session holds the output
    path, and the file of three frames is on the disk. *)
Example processing_of_analyzed_upload :
  let r :=
    Main.perform_processing Toy.mean_blur ToyOs.an_id
      "web_temp_uploads/0f0e5c1c-6f0b-4c55-9a43-0d3a4f0f2b11/original_video.mp4"
      {[ KStr "0" := [Examples.centre_mask] ]} 15 ToyOs.analyzed in
  let output_path :=
    "web_temp_uploads/0f0e5c1c-6f0b-4c55-9a43-0d3a4f0f2b11/processed_video.mp4" in
  (Session.status <$> Storage.get_session_info (temp_storage r.2) ToyOs.an_id)
  = Some ProcessingStatus.COMPLETED
  ∧ Storage.get_output_path (temp_storage r.2) ToyOs.an_id = Some output_path
  ∧ os_path_exists (disk r.2) output_path = true
  ∧ length (stream (cv2_VideoCapture (disk r.2) output_path)) = 3%nat.
Proof. cbn zeta. split_and!; reflexivity. Qed.
